(** * orca-python, [results.py]: the in-memory result store and its summaries

    A shallow embedding of the classes [ReportUnit] and [Results] of
    [results.py] and of the parts of Python and pandas they rely on,
    followed by the properties of the store, of the row layout, of the
    summary reduction and of the save operation.

    Conventions of the embedding.
    - A Python [str] is a [string]; a character stands for the code point
      of the same number (code points below 256).
    - A Python [dict] (insertion ordered) and an [OrderedDict] are
      association lists kept without duplicate keys by [setitem].
    - A number stored in a row is an IEEE 754 binary64 float, which is
      what a Python [float] and a [numpy.float64] are; an [int] stands for
      the float of the same value.  [VNaN] is the missing value pandas
      fills in ([nan]).
    - The reductions [mean] and [std] are those of pandas computing with
      NumPy (without the optional bottleneck package): the NaN cells of a
      column are skipped (they count as zero in a sum and not at all in a
      count), and a sum is NumPy's pairwise summation, which adds fewer
      than 8 cells one after the other from the first row to the last,
      and longer columns in eight interleaved partial sums.
    - A hyperparameter value is a number, a string, a [dict] or a mapping
      of another type ([OrderedDict]).
    - A raised exception is the [Raise] outcome; mutation of [self] is
      explicit state passing, and the state reached when an exception
      escapes is kept.
    - A reference to a [ReportUnit] is its position in [reports_]: units
      are only ever appended to that list, so positions are stable
      identities. *)

From Stdlib Require Import List String Ascii ZArith Lia Bool Arith.
From Stdlib Require Import PrimFloat Permutation Sorted DecimalString.
Import ListNotations.
Set Warnings "-inexact-float".
Open Scope string_scope.

(** ** Python: outcomes, strings, dictionaries, built-ins *)

Module Py.

Inductive exn : Type :=
| KeyError (key : string)
| ValueError (msg : string)
| TypeError (msg : string)
| OSError (msg : string).

Inductive result (A : Type) : Type :=
| Ok (a : A)
| Raise (e : exn).
Arguments Ok {A} a.
Arguments Raise {A} e.

Definition is_ok {A} (r : result A) : bool :=
  match r with Ok _ => true | Raise _ => false end.

(** Computations over a mutable state [S] that may raise; the state is
    returned in both outcomes. *)
Definition M (S A : Type) : Type := S -> S * result A.

Definition ret {S A} (a : A) : M S A := fun s => (s, Ok a).
Definition raise {S A} (e : exn) : M S A := fun s => (s, Raise e).
Definition bind {S A B} (m : M S A) (k : A -> M S B) : M S B :=
  fun s => match m s with
           | (s', Ok a) => k a s'
           | (s', Raise e) => (s', Raise e)
           end.
Definition lift {S A} (r : result A) : M S A := fun s => (s, r).
Definition get {S} : M S S := fun s => (s, Ok s).
Definition modify {S} (f : S -> S) : M S unit := fun s => (f s, Ok tt).

(** [for x in xs: body x] *)
Fixpoint for_each {S A} (xs : list A) (body : A -> M S unit) : M S unit :=
  match xs with
  | [] => ret tt
  | x :: xs' => bind (body x) (fun _ => for_each xs' body)
  end.

(** [ys = []; for x in xs: ys.append(body x)] *)
Fixpoint for_collect {S A B} (xs : list A) (body : A -> M S B) : M S (list B) :=
  match xs with
  | [] => ret []
  | x :: xs' =>
      bind (body x) (fun y => bind (for_collect xs' body) (fun ys => ret (y :: ys)))
  end.

(** Pure computations that may raise. *)
Definition rbind {A B} (r : result A) (k : A -> result B) : result B :=
  match r with Ok a => k a | Raise e => Raise e end.

Fixpoint rmap {A B} (f : A -> result B) (xs : list A) : result (list B) :=
  match xs with
  | [] => Ok []
  | x :: xs' => rbind (f x) (fun y => rbind (rmap f xs') (fun ys => Ok (y :: ys)))
  end.

(** *** Strings *)

(** [str.isspace] on the code points below 256. *)
Definition isspace (c : ascii) : bool :=
  let n := nat_of_ascii c in
  (((9 <=? n) && (n <=? 13)) || ((28 <=? n) && (n <=? 32))
   || (n =? 133) || (n =? 160))%nat.

Fixpoint lstrip_chars (l : list ascii) : list ascii :=
  match l with
  | [] => []
  | c :: l' => if isspace c then lstrip_chars l' else l
  end.

(** [s.strip()] *)
Definition strip (s : string) : string :=
  string_of_list_ascii
    (rev (lstrip_chars (rev (lstrip_chars (list_ascii_of_string s))))).

(** [s.startswith(p)] and [s.endswith(p)] *)
Definition startswith (s p : string) : bool := String.prefix p s.
Definition endswith (s p : string) : bool :=
  String.prefix (string_of_list_ascii (rev (list_ascii_of_string p)))
                (string_of_list_ascii (rev (list_ascii_of_string s))).

(** [str(n)] for an integer. *)
Definition str_int (z : Z) : string := NilZero.string_of_int (Z.to_int z).

(** *** Dictionaries *)

Definition dict (V : Type) : Type := list (string * V).

Definition keys {V} (d : dict V) : list string := map fst d.
Definition items {V} (d : dict V) : list (string * V) := d.

(** [k in d] *)
Definition contains {V} (d : dict V) (k : string) : bool :=
  existsb (String.eqb k) (keys d).

(** [d[k]] *)
Fixpoint getitem {V} (d : dict V) (k : string) : result V :=
  match d with
  | [] => Raise (KeyError k)
  | (k', v) :: d' => if String.eqb k' k then Ok v else getitem d' k
  end.

(** [d[k] = v]: an existing key keeps its position, a new key goes last. *)
Fixpoint setitem {V} (d : dict V) (k : string) (v : V) : dict V :=
  match d with
  | [] => [(k, v)]
  | (k', v') :: d' =>
      if String.eqb k' k then (k', v) :: d' else (k', v') :: setitem d' k v
  end.

(** [for (k, v) in kvs: d[k] = v] *)
Definition update {V} (d : dict V) (kvs : list (string * V)) : dict V :=
  fold_left (fun acc kv => setitem acc (fst kv) (snd kv)) kvs d.

(** *** Built-ins *)

(** [zip(xs, ys)] stops at the end of the shorter argument. *)
Definition zip {A B} (xs : list A) (ys : list B) : list (A * B) := combine xs ys.

(** [list(sum(pairs, ()))]: the pairs laid end to end. *)
Definition sum_tuples {A} (pairs : list (A * A)) : list A :=
  flat_map (fun p => [fst p; snd p]) pairs.

(** [sorted] on the items of a dictionary.  Tuples compare on the key
    first; keys of one dictionary are distinct, so the comparison never
    reaches the second component.  The sort is stable. *)
Fixpoint insert_sorted {V} (x : string * V) (l : list (string * V)) :=
  match l with
  | [] => [x]
  | y :: l' => if String.leb (fst x) (fst y) then x :: l else y :: insert_sorted x l'
  end.

Definition sorted {V} (l : list (string * V)) : list (string * V) :=
  fold_right insert_sorted [] l.

(** The positions selected by the slice [start:stop:step] (with a
    positive step) in a sequence of length [len]: a negative bound counts
    from the end, and both bounds are clamped to [0, len]. *)
Definition slice_bound (i : Z) (len : nat) : nat :=
  if (i <? 0)%Z then Z.to_nat (Z.max (i + Z.of_nat len) 0)
  else Nat.min (Z.to_nat i) len.

Definition slice_indices (start stop : Z) (step len : nat) : list nat :=
  let lo := slice_bound start len in
  let hi := slice_bound stop len in
  map (fun k => lo + k * step) (seq 0 ((hi - lo + (step - 1)) / step)).

End Py.

Import Py.

Declare Scope py_scope.
Delimit Scope py_scope with py.
Notation "x <- m ;; k" := (Py.bind m (fun x => k))
  (at level 61, m at next level, right associativity) : py_scope.
Notation "m ;;; k" := (Py.bind m (fun _ => k))
  (at level 61, right associativity) : py_scope.
Notation "x <~ r ;; k" := (Py.rbind r (fun x => k))
  (at level 61, r at next level, right associativity) : py_scope.

Open Scope py_scope.

(** ** pandas: the frames and series used by [results.py] *)

Module Pandas.

#[local] Set Warnings "-register-all".

(** The Python objects that end up in a row: numbers (floats, a NaN
    among them), the missing value, strings, and mappings: a [dict] (the
    parameters of an ensemble's base classifier) or a mapping whose type
    is not [dict], such as an [OrderedDict]. *)
Inductive value : Type :=
| VNum (x : float)
| VNaN
| VStr (s : string)
| VDict (d : list (string * value))
| VOrderedDict (d : list (string * value)).

(** A frame with the default [RangeIndex]: column labels and the rows. *)
Record DataFrame : Type := mkDataFrame {
  columns : list string;
  data : list (list value)
}.

(** A series: its labels (the index) paired with its values. *)
Definition Series : Type := list (string * value).

(** [pd.DataFrame(records)] for a list of (ordered) dictionaries: the
    columns are the keys in order of first appearance, a key missing from
    a record gives a NaN cell. *)
Definition add_new_keys (cols : list string) (r : dict value) : list string :=
  fold_left (fun acc k => if existsb (String.eqb k) acc then acc else (acc ++ [k])%list)
            (keys r) cols.

Definition cell (r : dict value) (c : string) : value :=
  match getitem r c with Ok v => v | Raise _ => VNaN end.

Definition DataFrame_of_records (records : list (dict value)) : DataFrame :=
  let cols := fold_left add_new_keys records [] in
  {| columns := cols; data := map (fun r => map (cell r) cols) records |}.

(** [df.iloc[:, start:stop:step]] *)
Definition iloc_columns (df : DataFrame) (start stop : Z) (step : nat) : DataFrame :=
  let idx := slice_indices start stop step (List.length (columns df)) in
  {| columns := map (fun j => nth j (columns df) "") idx;
     data := map (fun row => map (fun j => nth j row VNaN) idx) (data df) |}.

(** The cells of column number [j], top to bottom. *)
Definition column (df : DataFrame) (j : nat) : list value :=
  map (fun row => nth j row VNaN) (data df).

(** The cells of a column as an array of floats, a missing value being
    NaN; a cell that is not a number makes the reduction raise. *)
Fixpoint numbers (col : list value) : result (list float) :=
  match col with
  | [] => Ok []
  | VNum x :: col' => xs <~ numbers col' ;; Ok (x :: xs)
  | VNaN :: col' => xs <~ numbers col' ;; Ok (nan :: xs)
  | _ :: _ => Raise (TypeError "could not convert to numeric")
  end.

(** With [skipna=True] the NaN cells are masked: they are left out of
    the count and stand as zero in the sums. *)
Definition count (xs : list float) : nat :=
  List.length (filter (fun x => negb (is_nan x)) xs).

Definition fill_zero (xs : list float) : list float :=
  map (fun x => if is_nan x then 0%float else x) xs.

(** [values.sum()] on a column of floats is [np.add.reduce], which uses
    NumPy's pairwise summation.  Fewer than 8 cells are added one after
    the other.  Up to 128 cells are added in eight partial sums, cell
    [i] going to sum number [i mod 8]; the partial sums are added in
    pairs and the cells left over after the last full group of eight are
    added to the result.  A longer column is split in two, the first part
    of [n / 2] cells rounded down to a multiple of eight, and the sums of
    the two parts are added. *)

(** [r[j] += a[i + j]] for the partial sums. *)
Fixpoint add_each (r a : list float) : list float :=
  match r, a with
  | x :: r', y :: a' => (x + y)%float :: add_each r' a'
  | _, _ => r
  end.

(** [k] groups of eight cells added to the partial sums; with the sums,
    the cells that remain. *)
Fixpoint add_blocks (k : nat) (r a : list float) : list float * list float :=
  match k with
  | O => (r, a)
  | S k' => add_blocks k' (add_each r (firstn 8 a)) (skipn 8 a)
  end.

Definition sum_of_eight (r : list float) : float :=
  match r with
  | [r0; r1; r2; r3; r4; r5; r6; r7] =>
      (((r0 + r1) + (r2 + r3)) + ((r4 + r5) + (r6 + r7)))%float
  | _ => fold_left PrimFloat.add r 0%float
  end.

(** [depth] bounds the number of nested splits; the length of the column
    is enough ([pairwise_sum_depth] below). *)
Fixpoint pairwise_sum (depth : nat) (a : list float) : float :=
  let n := List.length a in
  if (n <? 8)%nat then fold_left PrimFloat.add a 0%float
  else if (n <=? 128)%nat then
    let (r, rest) := add_blocks (n / 8 - 1) (firstn 8 a) (skipn 8 a) in
    fold_left PrimFloat.add rest (sum_of_eight r)
  else
    match depth with
    | O => fold_left PrimFloat.add a 0%float
    | S depth' =>
        let n2 := (n / 2 - (n / 2) mod 8)%nat in
        (pairwise_sum depth' (firstn n2 a) + pairwise_sum depth' (skipn n2 a))%float
    end.

(** The reduction starts from the identity of the addition. *)
Definition fsum (xs : list float) : float :=
  (0 + pairwise_sum (List.length xs) xs)%float.

(** The count of a column as a float ([np.float64(n)]). *)
Fixpoint float_of_nat (n : nat) : float :=
  match n with
  | O => 0%float
  | S n' => (float_of_nat n' + 1)%float
  end.

(** Arithmetic mean ([nanmean]); NaN when there is nothing to average. *)
Definition mean_of (xs : list float) : value :=
  if (count xs =? 0)%nat then VNaN
  else VNum (fsum (fill_zero xs) / float_of_nat (count xs)).

(** Standard deviation with [ddof=1] ([nanstd], in two passes); NaN when
    [count - ddof <= 0]. *)
Definition std_of (xs : list float) : value :=
  if (count xs <=? 1)%nat then VNaN
  else
    let avg := (fsum (fill_zero xs) / float_of_nat (count xs))%float in
    VNum (sqrt (fsum (map (fun x => if is_nan x then 0%float
                                    else ((avg - x) * (avg - x))%float) xs)
                / (float_of_nat (count xs) - 1))).

(** [df.mean()] and [df.std()]: one entry per column, labelled by it. *)
Definition reduce_columns (f : list float -> value) (df : DataFrame) : result Series :=
  rmap (fun j => xs <~ numbers (column df j) ;; Ok (nth j (columns df) "", f xs))
       (seq 0 (List.length (columns df))).

Definition DataFrame_mean : DataFrame -> result Series := reduce_columns mean_of.
Definition DataFrame_std : DataFrame -> result Series := reduce_columns std_of.

(** [s.index = labels] *)
Definition set_index (s : Series) (labels : list string) : result Series :=
  if (List.length labels =? List.length s)%nat then Ok (combine labels (map snd s))
  else Raise (ValueError "Length mismatch").

(** [pd.concat([s1, s2])] *)
Definition concat (s1 s2 : Series) : Series := (s1 ++ s2)%list.

(** [s.iloc[:n].keys()] and [s.iloc[n:].keys()] *)
Definition iloc_to_keys (s : Series) (n : nat) : list string := keys (firstn n s).
Definition iloc_from_keys (s : Series) (n : nat) : list string := keys (skipn n s).

(** [s[labels]]: for each requested label in turn, every entry carrying
    that label; a label that is not in the index raises. *)
Definition getitem_labels (s : Series) (labels : list string) : result Series :=
  es <~ rmap (fun l => match filter (fun e => String.eqb (fst e) l) s with
                       | [] => Raise (KeyError l)
                       | found => Ok found
                       end) labels ;;
  Ok (List.concat es).

(** [pd.concat(rows, axis=1).transpose()] for series that all carry the
    same labels, as the summary rows of one run do: one row per series,
    in list order. *)
Definition concat_transpose (rows : list Series) : result DataFrame :=
  match rows with
  | [] => Raise (ValueError "No objects to concatenate")
  | s :: _ => Ok {| columns := keys s; data := map (map snd) rows |}
  end.

End Pandas.

Import Pandas.

(** ** [results.py] *)

Module results.

(** A fitted estimator: opaque to this module, which only stores it and
    hands it to [pickle.dump]. *)
Inductive estimator : Type := Estimator (id : nat).

(** The partition argument of [addRecord]: an [int] or a [str]. *)
Inductive partition_t : Type :=
| PInt (n : Z)
| PStr (s : string).

(** [str(partition)] *)
Definition str (p : partition_t) : string :=
  match p with PInt n => str_int n | PStr s => s end.

(** Predicted labels of one partition: [None] or a sequence under each key. *)
Definition predictions_t : Type := dict (option (list Z)).

(** *** class ReportUnit *)

Record ReportUnit : Type := mkReportUnit {
  dataset_ : string;
  configuration_ : string;
  df_ : dict (dict value);
  models_ : dict estimator;
  predictions_ : dict predictions_t
}.

(** [ReportUnit.__init__] *)
Definition ReportUnit_init (dataset_name configuration_name : string) : ReportUnit :=
  {| dataset_ := dataset_name; configuration_ := configuration_name;
     df_ := []; models_ := []; predictions_ := [] |}.

(** *** class Results *)

Record Results : Type := mkResults { reports_ : list ReportUnit }.

(** [Results.__init__] *)
Definition Results_init : Results := {| reports_ := [] |}.

(** The search loop of [getReportUnit]: the position of the first unit
    with the given names, counting from [pos]. *)
Fixpoint find_report (rs : list ReportUnit) (dataset_name configuration_name : string)
         (pos : nat) : option nat :=
  match rs with
  | [] => None
  | ru :: rs' =>
      if (dataset_ ru =? dataset_name) && (configuration_ ru =? configuration_name)
      then Some pos
      else find_report rs' dataset_name configuration_name (S pos)
  end.

Definition getReportUnit (dataset_name configuration_name : string) : M Results nat :=
  fun self =>
    match find_report (reports_ self) dataset_name configuration_name 0 with
    | Some ru => (self, Ok ru)
    | None =>
        ({| reports_ := (reports_ self ++ [ReportUnit_init dataset_name configuration_name])%list |},
         Ok (List.length (reports_ self)))
    end.

(** One turn of the loop over [best_params.items()]: the test is
    [type(p_value) == dict], so the entries of a [dict] are assigned one
    by one, and every other value, a mapping of another type included, is
    assigned whole under the name of the parameter. *)
Definition add_param (dataframe_row : dict value) (p : string * value) : dict value :=
  match snd p with
  | VDict p_value => update dataframe_row (items p_value)
  | p_value => setitem dataframe_row (fst p) p_value
  end.

(** One turn of the loop over the zipped train and test metrics. *)
Definition add_metric_pair (dataframe_row : dict value)
           (pr : (string * value) * (string * value)) : dict value :=
  let '((tm_name, tm_value), (ts_name, ts_value)) := pr in
  setitem (setitem dataframe_row tm_name tm_value) ts_name ts_value.

(** The mutation of the unit referenced by [ru]. *)
Fixpoint update_nth {A} (n : nat) (f : A -> A) (l : list A) : list A :=
  match l, n with
  | [], _ => []
  | x :: l', O => f x :: l'
  | x :: l', S n' => x :: update_nth n' f l'
  end.

Definition store_partition (key : string) (dataframe_row : dict value)
           (best_model : estimator) (predictions : predictions_t)
           (ru : ReportUnit) : ReportUnit :=
  {| dataset_ := dataset_ ru; configuration_ := configuration_ ru;
     df_ := setitem (df_ ru) key dataframe_row;
     models_ := setitem (models_ ru) key best_model;
     predictions_ := setitem (predictions_ ru) key predictions |}.

Definition addRecord (partition : partition_t) (best_params : dict value)
           (best_model : estimator) (configuration : dict string)
           (metrics : dict (dict value)) (predictions : predictions_t)
  : M Results unit :=
  dataset_name <- lift (getitem configuration "dataset") ;;
  config_name <- lift (getitem configuration "config") ;;
  ru <- getReportUnit dataset_name config_name ;;
  let dataframe_row := fold_left add_param (items best_params) [] in
  train <- lift (getitem metrics "train") ;;
  test <- lift (getitem metrics "test") ;;
  let dataframe_row :=
    fold_left add_metric_pair (zip (items train) (items test)) dataframe_row in
  modify (fun self =>
    {| reports_ := update_nth ru
         (store_partition (str partition) dataframe_row best_model predictions)
         (reports_ self) |}).

(** *** createSummary *)

Definition createSummary (df : DataFrame) (avg_index std_index : list string)
  : result (Series * Series) :=
  let ncols := Z.of_nat (List.length (columns df)) in
  let n_parameters := (ncols - Z.of_nat (List.length avg_index) * 2 - 4)%Z in
  let train_df := iloc_columns df n_parameters (ncols - 4) 2 in
  let test_df := iloc_columns df (n_parameters + 1) (ncols - 4) 2 in
  train_avg <~ DataFrame_mean train_df ;;
  train_std <~ DataFrame_std train_df ;;
  test_avg <~ DataFrame_mean test_df ;;
  test_std <~ DataFrame_std test_df ;;
  train_avg <~ set_index train_avg avg_index ;;
  train_std <~ set_index train_std std_index ;;
  test_avg <~ set_index test_avg avg_index ;;
  test_std <~ set_index test_std std_index ;;
  let train_summary_row := concat train_avg train_std in
  let test_summary_row := concat test_avg test_std in
  train_summary_row <~
    getitem_labels train_summary_row
      (sum_tuples (zip (iloc_to_keys train_summary_row (List.length avg_index))
                       (iloc_from_keys train_summary_row (List.length std_index)))) ;;
  test_summary_row <~
    getitem_labels test_summary_row
      (sum_tuples (zip (iloc_to_keys test_summary_row (List.length avg_index))
                       (iloc_from_keys test_summary_row (List.length std_index)))) ;;
  Ok (train_summary_row, test_summary_row).

(** *** saveResults *)

(** The operating system is outside the program: a run of [saveResults]
    is described by the sequence of completed output operations, and the
    environment decides, from what has been done so far, whether the next
    operation fails and whether a path exists. *)
Inductive event : Type :=
| Makedirs (path : string)
| ToCsv (path : string) (df : DataFrame)
| SummaryToCsv (path : string) (index : list string) (df : DataFrame)
| PickleDump (path : string) (model : estimator)
| Savetxt (path : string) (X : list Z).

Record environment : Type := mkEnvironment {
  module_dir : string;   (* os.path.dirname(os.path.abspath(__file__)) *)
  today : string;        (* datetime.date.today().strftime("%y-%m-%d") *)
  now : string;          (* datetime.datetime.now().strftime("%H-%M-%S") *)
  path_exists : list event -> string -> bool;
  io_error : list event -> event -> option exn
}.

Section Save.

Variable env : environment.

Definition perform (ev : event) : M (list event) unit :=
  fun done =>
    match io_error env done ev with
    | None => ((done ++ [ev])%list, Ok tt)
    | Some e => (done, Raise e)
    end.

(** [try: os.makedirs(path)] / [except OSError: raise OSError(...)] *)
Definition makedirs_or_raise (path : string) : M (list event) unit :=
  fun done =>
    match perform (Makedirs path) done with
    | (done', Raise (OSError _)) =>
        (done', Raise (OSError ("Could not create folder " ++ path
                                ++ " to store results. It already exists")))
    | outcome => outcome
    end.

(** [np.savetxt(path, X, fmt='%d')].  The file is opened for writing,
    and so created or emptied, before [X] is looked at; [None] is not an
    array of labels, and is rejected with the file left empty. *)
Definition savetxt (path : string) (X : option (list Z)) : M (list event) unit :=
  match X with
  | Some labels => perform (Savetxt path labels)
  | None =>
      perform (Savetxt path []) ;;;
      raise (ValueError "Expected 1D or 2D array, got 0D array instead")
  end.

(** The body of the loop over [report.models_.items()]. *)
Definition save_model (models_folder name : string) (entry : string * estimator)
  : M (list event) unit :=
  let (part, model) := entry in
  let model_filename := name ++ "." ++ part in
  perform (PickleDump (models_folder ++ model_filename) model).

(** The body of the loop over [report.predictions_.items()]. *)
Definition save_predictions (predictions_folder name : string)
           (entry : string * predictions_t) : M (list event) unit :=
  let (part, predictions) := entry in
  let pred_filename := name ++ "." ++ part in
  train <- lift (getitem predictions "train") ;;
  savetxt (predictions_folder ++ "train_" ++ pred_filename) train ;;;
  test <- lift (getitem predictions "test") ;;
  match test with
  | Some labels => savetxt (predictions_folder ++ "test_" ++ pred_filename) (Some labels)
  | None => ret tt
  end.

(** The table of one unit: its rows by sorted partition key. *)
Definition report_frame (report : ReportUnit) : DataFrame :=
  DataFrame_of_records (map snd (sorted (items (df_ report)))).

(** The body of the loop over [self.reports_]; its result is what the
    turn appends to [train_summary], [test_summary] and [summary_index]. *)
Definition save_report (folder_path : string) (avg_index std_index : list string)
           (report : ReportUnit) : M (list event) (Series * Series * string) :=
  let name := dataset_ report ++ "-" ++ configuration_ report in
  let dataset_folder := folder_path ++ name ++ "/" in
  makedirs_or_raise dataset_folder ;;;
  let df := report_frame report in
  perform (ToCsv (dataset_folder ++ name ++ ".csv") df) ;;;
  summary <- lift (createSummary df avg_index std_index) ;;
  let models_folder := dataset_folder ++ "models/" in
  makedirs_or_raise models_folder ;;;
  for_each (items (models_ report)) (save_model models_folder name) ;;;
  let predictions_folder := dataset_folder ++ "predictions/" in
  makedirs_or_raise predictions_folder ;;;
  for_each (items (predictions_ report)) (save_predictions predictions_folder name) ;;;
  ret (fst summary, snd summary,
       strip (dataset_ report) ++ "-" ++ configuration_ report).

Definition saveResults (self : Results) (runs_folder : string)
           (metrics_names : list string) : M (list event) unit :=
  let runs_folder :=
    if negb (startswith runs_folder "/")
    then (module_dir env ++ "/") ++ runs_folder else runs_folder in
  let runs_folder :=
    if negb (endswith runs_folder "/") then runs_folder ++ "/" else runs_folder in
  done <- get ;;
  (if negb (path_exists env done runs_folder)
   then perform (Makedirs runs_folder) else ret tt) ;;;
  let folder_name := "exp-" ++ today env ++ "-" ++ now env ++ "/" in
  let folder_path := runs_folder ++ folder_name in
  makedirs_or_raise folder_path ;;;
  let avg_index := map (fun mn => mn ++ "_mean") metrics_names in
  let std_index := map (fun mn => mn ++ "_std") metrics_names in
  rows <- for_collect (reports_ self) (save_report folder_path avg_index std_index) ;;
  let summary_index := map snd rows in
  train_summary <- lift (concat_transpose (map (fun r => fst (fst r)) rows)) ;;
  test_summary <- lift (concat_transpose (map (fun r => snd (fst r)) rows)) ;;
  perform (SummaryToCsv (folder_path ++ "/" ++ "train_summary.csv")
                        summary_index train_summary) ;;;
  perform (SummaryToCsv (folder_path ++ "/" ++ "test_summary.csv")
                        summary_index test_summary).

End Save.

End results.

Import results.
Open Scope list_scope.

(** ** Observations used in the statements *)

(** The unit a store holds for a pair of names: the one the search loop
    of [getReportUnit] stops at. *)
Definition lookup_unit (self : Results) (dataset_name configuration_name : string)
  : option ReportUnit :=
  match find_report (reports_ self) dataset_name configuration_name 0 with
  | Some ru => nth_error (reports_ self) ru
  | None => None
  end.

(** The pair of names a unit was created for. *)
Definition unit_names (ru : ReportUnit) : string * string :=
  (dataset_ ru, configuration_ ru).

(** The hyperparameters flattened: the entries of a [dict] in place of
    the parameter that holds it, every other parameter as it is.  These
    are the entries the first loop of [addRecord] assigns, in order. *)
Definition flatten_params (best_params : dict value) : list (string * value) :=
  flat_map (fun p => match snd p with VDict d => d | _ => [p] end) best_params.

(** The row as the first loop of [addRecord] leaves it. *)
Definition params_row (best_params : dict value) : dict value :=
  fold_left add_param (items best_params) [].

(** The entries the second loop of [addRecord] assigns, in order. *)
Definition interleave_metrics (train test : dict value) : list (string * value) :=
  sum_tuples (zip train test).

(** The row [addRecord] builds from its arguments. *)
Definition dataframe_row (best_params train test : dict value) : dict value :=
  fold_left add_metric_pair (zip (items train) (items test))
            (fold_left add_param (items best_params) []).

(** The public operations on a store, and a session of calls.  A caller
    may catch an exception and go on: the store reached by a raising call
    is the one the next call starts from. *)
Inductive call : Type :=
| GetReportUnit (dataset_name configuration_name : string)
| AddRecord (partition : partition_t) (best_params : dict value)
            (best_model : estimator) (configuration : dict string)
            (metrics : dict (dict value)) (predictions : predictions_t).

Definition run_call (cl : call) (self : Results) : Results :=
  match cl with
  | GetReportUnit d c => fst (getReportUnit d c self)
  | AddRecord p bp bm cfg ms ps => fst (addRecord p bp bm cfg ms ps self)
  end.

Definition run_calls (calls : list call) (self : Results) : Results :=
  fold_left (fun s cl => run_call cl s) calls self.

(** The pair of names a call asks the store for, if it gets that far. *)
Definition requested (cl : call) : option (string * string) :=
  match cl with
  | GetReportUnit d c => Some (d, c)
  | AddRecord _ _ _ cfg _ _ =>
      match getitem cfg "dataset", getitem cfg "config" with
      | Ok d, Ok c => Some (d, c)
      | _, _ => None
      end
  end.

Definition names_eqb (a b : string * string) : bool :=
  (fst a =? fst b) && (snd a =? snd b).

(** A list of pairs reduced to the first occurrence of each pair. *)
Definition see (seen : list (string * string)) (n : string * string) :=
  if existsb (names_eqb n) seen then seen else (seen ++ [n])%list.

Definition first_seen (l : list (string * string)) : list (string * string) :=
  fold_left see l [].

(** Sample arguments used in the worked instances below. *)
Definition iris_cfg1 : dict string := [("dataset", "iris"); ("config", "cfg1")].
Definition wine_cfg1 : dict string := [("dataset", "wine"); ("config", "cfg1")].
Definition nested_params : dict value :=
  [("a", VNum 1); ("b", VDict [("x", VNum 2); ("y", VNum 3)])].
Definition clashing_params : dict value :=
  [("x", VNum 1); ("b", VDict [("x", VNum 2); ("y", VNum 3)])].
Definition ordered_params : dict value :=
  [("a", VNum 1); ("b", VOrderedDict [("x", VNum 2); ("y", VNum 3)])].
Definition metric_named_params : dict value :=
  [("acc_test", VNum 7); ("C", VNum 1)].
Definition suffixed_metrics : dict (dict value) :=
  [("train", [("acc_train", VNum 0.9); ("f1_train", VNum 0.8)]);
   ("test", [("acc_test", VNum 0.85); ("f1_test", VNum 0.75)])].
Definition unsuffixed_metrics : dict (dict value) :=
  [("train", [("acc", VNum 0.9); ("f1", VNum 0.8)]);
   ("test", [("acc", VNum 0.85); ("f1", VNum 0.75)])].
Definition uneven_metrics : dict (dict value) :=
  [("train", [("acc_train", VNum 0.9); ("f1_train", VNum 0.8)]);
   ("test", [("acc_test", VNum 0.85)])].
Definition no_metrics : dict (dict value) := [("train", []); ("test", [])].
Definition train_only : predictions_t := [("train", Some [1; 0; 2]%Z); ("test", None)].
Definition train_and_test : predictions_t :=
  [("train", Some [1; 0; 2]%Z); ("test", Some [2; 1]%Z)].

(** The output of a run of [saveResults] that does not raise.  The name
    under which a unit is saved, the label of its row in the summaries,
    and the operations performed for one model, for the predictions of
    one partition and for one unit. *)
Definition unit_name (report : ReportUnit) : string :=
  (dataset_ report ++ "-" ++ configuration_ report)%string.

Definition summary_label (report : ReportUnit) : string :=
  (strip (dataset_ report) ++ "-" ++ configuration_ report)%string.

Definition model_event (models_folder name : string) (entry : string * estimator)
  : event :=
  PickleDump (models_folder ++ name ++ "." ++ fst entry)%string (snd entry).

Definition prediction_events (predictions_folder name : string)
           (entry : string * predictions_t) : list event :=
  match getitem (snd entry) "train" with
  | Ok (Some train) =>
      Savetxt (predictions_folder ++ "train_" ++ name ++ "." ++ fst entry)%string train
      :: match getitem (snd entry) "test" with
         | Ok (Some test) =>
             [Savetxt (predictions_folder ++ "test_" ++ name ++ "." ++ fst entry)%string
                      test]
         | _ => []
         end
  | _ => []
  end.

Definition report_events (folder_path : string) (report : ReportUnit) : list event :=
  let name := unit_name report in
  let dataset_folder := (folder_path ++ name ++ "/")%string in
  [Makedirs dataset_folder;
   ToCsv (dataset_folder ++ name ++ ".csv")%string (report_frame report);
   Makedirs (dataset_folder ++ "models/")%string]
  ++ map (model_event (dataset_folder ++ "models/")%string name) (items (models_ report))
  ++ [Makedirs (dataset_folder ++ "predictions/")%string]
  ++ flat_map (prediction_events (dataset_folder ++ "predictions/")%string name)
              (items (predictions_ report)).

(** The folders [saveResults] derives from its argument and environment. *)
Definition runs_folder_of (env : environment) (runs_folder : string) : string :=
  let runs_folder :=
    if negb (startswith runs_folder "/")
    then ((module_dir env ++ "/") ++ runs_folder)%string else runs_folder in
  if negb (endswith runs_folder "/") then (runs_folder ++ "/")%string else runs_folder.

Definition folder_path_of (env : environment) (runs_folder : string) : string :=
  (runs_folder_of env runs_folder ++ "exp-" ++ today env ++ "-" ++ now env ++ "/")%string.

Definition avg_index_of (metrics_names : list string) : list string :=
  map (fun mn => (mn ++ "_mean")%string) metrics_names.
Definition std_index_of (metrics_names : list string) : list string :=
  map (fun mn => (mn ++ "_std")%string) metrics_names.

(** An environment in which every operation succeeds. *)
Definition quiet_env : environment :=
  {| module_dir := "/opt/orca"; today := "18-06-01"; now := "12-00-00";
     path_exists := fun _ _ => true; io_error := fun _ _ => None |}.

(** What a finished run wrote: the whole output in order. *)
Definition saved_events (env : environment) (runs_folder : string)
           (metrics_names : list string) (self : Results)
           (done : list event) (train_summary test_summary : DataFrame) : list event :=
  let folder_path := folder_path_of env runs_folder in
  (if path_exists env done (runs_folder_of env runs_folder) then []
   else [Makedirs (runs_folder_of env runs_folder)])
  ++ [Makedirs folder_path]
  ++ flat_map (report_events folder_path) (reports_ self)
  ++ [SummaryToCsv (folder_path ++ "/" ++ "train_summary.csv")%string
                   (map summary_label (reports_ self)) train_summary;
      SummaryToCsv (folder_path ++ "/" ++ "test_summary.csv")%string
                   (map summary_label (reports_ self)) test_summary].

(** The row labels of the summary tables written, in order of writing. *)
Definition summary_indexes (events : list event) : list (list string) :=
  flat_map (fun ev => match ev with SummaryToCsv _ index _ => [index] | _ => [] end)
           events.

(** The pairs of names requested by a session, in order. *)
Definition requests (calls : list call) : list (string * string) :=
  flat_map (fun cl => match requested cl with Some n => [n] | None => [] end) calls.

(** Metrics as the experiment driver passes them: the scores of the
    metric followed by the four timing values, two on each side. *)
Definition timed_metrics (acc_train acc_test : float) : dict (dict value) :=
  [("train", [("acc_train", VNum acc_train); ("cv_time_train", VNum 1);
              ("time_train", VNum 2)]);
   ("test", [("acc_test", VNum acc_test); ("cv_time_test", VNum 1);
             ("time_test", VNum 2)])].

(** Sample stores: a dataset name with a leading blank; partitions 2 and
    10 recorded in that order; two datasets recorded wine first. *)
Definition spaced_cfg1 : dict string := [("dataset", " iris"); ("config", "cfg1")].

Definition spaced_store : Results :=
  run_calls [AddRecord (PInt 0) [] (Estimator 0) spaced_cfg1
                       (timed_metrics 0.8 0.7) train_only]
            Results_init.

Definition two_then_ten : Results :=
  run_calls [AddRecord (PInt 2) [] (Estimator 2) iris_cfg1
                       (timed_metrics 0.8 0.7) train_only;
             AddRecord (PInt 10) [] (Estimator 10) iris_cfg1
                       (timed_metrics 0.9 0.75) train_and_test]
            Results_init.

Definition wine_then_iris : list call :=
  [AddRecord (PInt 0) [] (Estimator 0) wine_cfg1 (timed_metrics 0.8 0.7) train_only;
   AddRecord (PInt 0) [] (Estimator 1) iris_cfg1 (timed_metrics 0.9 0.75) train_only;
   AddRecord (PInt 1) [] (Estimator 2) wine_cfg1 (timed_metrics 0.9 0.75) train_only].

(** The layout [createSummary] assumes for a table with [M] metrics:
    parameters first, then [2M] metric columns, then four timing columns. *)
Definition metric_offset (df : DataFrame) (M : nat) : nat :=
  List.length (columns df) - 2 * M - 4.

(** A cell the reductions accept: a number or NaN. *)
Definition numeric (v : value) : Prop :=
  match v with VNum _ | VNaN => True | _ => False end.

Definition numeric_block (df : DataFrame) (M : nat) : Prop :=
  forall j, metric_offset df M <= j < List.length (columns df) - 4 ->
            Forall numeric (column df j).

(** The cells of a column of numbers, a missing value being NaN. *)
Definition numbers_of (col : list value) : list float :=
  map (fun v => match v with VNum x => x | _ => nan end) col.

(** The numbers in the train column and in the test column of metric
    number [i]. *)
Definition train_numbers (df : DataFrame) (M i : nat) : list float :=
  numbers_of (column df (metric_offset df M + 2 * i)).
Definition test_numbers (df : DataFrame) (M i : nat) : list float :=
  numbers_of (column df (metric_offset df M + 2 * i + 1)).

(** The summary row for metric names [names], where [cols i] are the
    numbers of metric number [i]. *)
Definition summary_of (names : list string) (cols : nat -> list float) : Series :=
  interleave_metrics
    (combine (avg_index_of names)
             (map (fun i => mean_of (cols i)) (seq 0 (List.length names))))
    (combine (std_index_of names)
             (map (fun i => std_of (cols i)) (seq 0 (List.length names)))).

(** The statistics in the words of the specification, in binary64
    arithmetic: the arithmetic mean (the sum of the values over their
    number [n]), and the sample standard deviation (the square root of
    the sum of the squared deviations from the mean over [n - 1]). *)
Definition mean (xs : list float) : float :=
  (fsum xs / float_of_nat (List.length xs))%float.

Definition sample_std (xs : list float) : float :=
  sqrt (fsum (map (fun x => ((mean xs - x) * (mean xs - x))%float) xs)
        / (float_of_nat (List.length xs) - 1)).

(** A cell holding a number that is not NaN, and a table whose metric
    block holds such numbers only. *)
Definition number (v : value) : Prop :=
  match v with VNum x => is_nan x = false | _ => False end.

Definition number_block (df : DataFrame) (M : nat) : Prop :=
  forall j, metric_offset df M <= j < List.length (columns df) - 4 ->
            Forall number (column df j).

(** Sample tables: three partitions of one unit with the metric [acc];
    a table one column short of the layout; a table of three columns; a
    table for two metrics; a table with a string among its scores. *)
Definition three_partitions : Results :=
  run_calls [AddRecord (PInt 0) [("C", VNum 10)] (Estimator 0) iris_cfg1
                       (timed_metrics 0.8 0.7) train_only;
             AddRecord (PInt 1) [("C", VNum 1)] (Estimator 1) iris_cfg1
                       (timed_metrics 0.9 0.75) train_only;
             AddRecord (PInt 2) [("C", VNum 10)] (Estimator 2) iris_cfg1
                       (timed_metrics 1 0.8) train_only]
            Results_init.

(** A store whose only call raised for want of the train metrics: the
    unit was created, no partition was recorded. *)
Definition unrecorded_store : Results :=
  run_calls [AddRecord (PInt 0) [] (Estimator 0) iris_cfg1
                       [("test", [("acc_test", VNum 0.7)])] train_only]
            Results_init.

Definition acc_table : DataFrame :=
  report_frame (nth 0 (reports_ three_partitions) (ReportUnit_init "" "")).

Definition narrow_table : DataFrame :=
  {| columns := ["acc_train"; "acc_test"; "cv_time_train"; "cv_time_test"; "time_train"];
     data := [[VNum 0.8; VNum 0.7; VNum 1; VNum 1; VNum 2];
              [VNum 0.9; VNum 0.75; VNum 1; VNum 1; VNum 2]] |}.

Definition tiny_table : DataFrame :=
  {| columns := ["cv_time_test"; "time_train"; "time_test"];
     data := [[VNum 1; VNum 2; VNum 3]; [VNum 1; VNum 2; VNum 3]] |}.

Definition two_metric_table : DataFrame :=
  {| columns := ["acc_train"; "acc_test"; "f1_train"; "f1_test";
                 "cv_time_train"; "cv_time_test"; "time_train"; "time_test"];
     data := [[VNum 0.8; VNum 0.7; VNum 0.6; VNum 0.5; VNum 1; VNum 1; VNum 2; VNum 2];
              [VNum 0.9; VNum 0.75; VNum 0.7; VNum 0.6; VNum 1; VNum 1; VNum 2; VNum 2]] |}.

Definition text_table : DataFrame :=
  {| columns := ["acc_train"; "acc_test"; "cv_time_train"; "cv_time_test";
                 "time_train"; "time_test"];
     data := [[VNum 0.8; VStr "n/a"; VNum 1; VNum 1; VNum 2; VNum 2];
              [VNum 0.9; VNum 0.75; VNum 1; VNum 1; VNum 2; VNum 2]] |}.

Definition gap_table : DataFrame :=
  {| columns := ["acc_train"; "acc_test"; "cv_time_train"; "cv_time_test";
                 "time_train"; "time_test"];
     data := [[VNum 0.8; VNum 0.7; VNum 1; VNum 1; VNum 2; VNum 2];
              [VNaN; VNum 0.75; VNum 1; VNum 1; VNum 2; VNum 2]] |}.

(** What every unit of a store keeps: a row, a model and predictions
    under the same partition keys, in the same order, each key once, and
    rows whose column names are distinct. *)
Definition unit_consistent (ru : ReportUnit) : Prop :=
  keys (models_ ru) = keys (df_ ru)
  /\ keys (predictions_ ru) = keys (df_ ru)
  /\ NoDup (keys (df_ ru))
  /\ Forall (fun entry => NoDup (keys (snd entry))) (df_ ru).

(** Operations performed one after the other, each one let through by
    the environment given what had been done before it. *)
Fixpoint permitted (env : environment) (done evs : list event) : Prop :=
  match evs with
  | [] => True
  | ev :: evs' => io_error env done ev = None /\ permitted env (done ++ [ev]) evs'
  end.

(** A computation that only extends the output, by permitted operations. *)
Definition traced {A} (env : environment) (m : M (list event) A) : Prop :=
  forall done done' r,
    m done = (done', r) -> exists evs, done' = done ++ evs /\ permitted env done evs.

(** A file system refuses to create a folder that has been created. *)
Definition refuses_existing_folders (env : environment) : Prop :=
  forall done path, In (Makedirs path) done -> io_error env done (Makedirs path) <> None.

(** The folders created by a sequence of operations. *)
Definition folders_created (evs : list event) : list string :=
  flat_map (fun ev => match ev with Makedirs path => [path] | _ => [] end) evs.

(** An environment that fails exactly the creation of a folder created
    before. *)
Definition careful_env : environment :=
  {| module_dir := "/opt/orca"; today := "18-06-01"; now := "12-00-00";
     path_exists := fun _ _ => true;
     io_error := fun done ev =>
       match ev with
       | Makedirs path =>
           if existsb (String.eqb path) (folders_created done)
           then Some (OSError "File exists") else None
       | _ => None
       end |}.

(** A store holds a record for a partition of a pair of names; a call
    records that partition of that pair again. *)
Definition recorded (self : Results) (d c key : string) (row : dict value)
           (bm : estimator) (ps : predictions_t) : Prop :=
  exists ru,
    lookup_unit self d c = Some ru
    /\ getitem (df_ ru) key = Ok row
    /\ getitem (models_ ru) key = Ok bm
    /\ getitem (predictions_ ru) key = Ok ps.

Definition records_again (d c key : string) (cl : call) : Prop :=
  match cl with
  | GetReportUnit _ _ => False
  | AddRecord p _ _ _ _ _ => requested cl = Some (d, c) /\ str p = key
  end.

(** ** Dictionaries *)

Section DictFacts.

Context {V : Type}.
Implicit Types (d : dict V) (k : string) (v : V).

Lemma setitem_fresh d k v :
  ~ In k (keys d) -> setitem d k v = (d ++ [(k, v)])%list.
Proof.
  induction d as [|[k' v'] d IH]; simpl; intros Hk; [reflexivity|].
  destruct (String.eqb_spec k' k) as [->|_]; [tauto|].
  rewrite IH by tauto. reflexivity.
Qed.

Lemma keys_setitem_present d k v :
  In k (keys d) -> keys (setitem d k v) = keys d.
Proof.
  induction d as [|[k' v'] d IH]; simpl; intros Hk; [tauto|].
  destruct (String.eqb_spec k' k) as [->|Hne]; simpl; [reflexivity|].
  f_equal. apply IH. destruct Hk; congruence.
Qed.

Lemma getitem_setitem d k v : getitem (setitem d k v) k = Ok v.
Proof.
  induction d as [|[k' v'] d IH]; simpl.
  - now rewrite String.eqb_refl.
  - destruct (String.eqb_spec k' k) as [->|Hne]; simpl.
    + now rewrite String.eqb_refl.
    + destruct (String.eqb_spec k' k); [contradiction|exact IH].
Qed.

Lemma getitem_setitem_other d k k' v :
  k' <> k -> getitem (setitem d k v) k' = getitem d k'.
Proof.
  intros Hne. induction d as [|[k0 v0] d IH]; simpl.
  - destruct (String.eqb_spec k k'); [congruence|reflexivity].
  - destruct (String.eqb_spec k0 k) as [->|Hk0]; simpl.
    + destruct (String.eqb_spec k k'); [congruence|reflexivity].
    + now rewrite IH.
Qed.

Lemma contains_In d k : contains d k = true <-> In k (keys d).
Proof.
  unfold contains. rewrite existsb_exists. split.
  - intros [x [Hx Heq]]. apply String.eqb_eq in Heq. now subst.
  - intros H. exists k. split; [exact H|apply String.eqb_refl].
Qed.

Lemma NoDup_keys_setitem d k v : NoDup (keys d) -> NoDup (keys (setitem d k v)).
Proof.
  intros Hd. destruct (in_dec string_dec k (keys d)) as [Hin|Hnin].
  - now rewrite keys_setitem_present.
  - rewrite setitem_fresh by assumption. unfold keys. rewrite map_app. simpl.
    apply NoDup_app; [exact Hd|repeat constructor; simpl; tauto|].
    intros x Hx [<-|[]]. exact (Hnin Hx).
Qed.

Lemma update_app d l1 l2 : update d (l1 ++ l2) = update (update d l1) l2.
Proof. unfold update. apply fold_left_app. Qed.

Lemma setitem_app_fresh d e k v :
  ~ In k (keys d) -> setitem (d ++ e)%list k v = (d ++ setitem e k v)%list.
Proof.
  induction d as [|[k' v'] d IH]; simpl; intros Hk; [reflexivity|].
  destruct (String.eqb_spec k' k) as [->|_]; [tauto|].
  rewrite IH by tauto. reflexivity.
Qed.

(** Assigning entries with fresh, pairwise distinct keys appends them. *)
Lemma update_fresh l : forall d,
  NoDup (keys d ++ keys l) -> update d l = (d ++ l)%list.
Proof.
  induction l as [|[k v] l IH]; intros d Hnd; simpl.
  - now rewrite app_nil_r.
  - change (update d ((k, v) :: l)) with (update (setitem d k v) l).
    assert (Hk : ~ In k (keys d)).
    { intros Hin. apply NoDup_remove_2 in Hnd. apply Hnd.
      apply in_or_app. now left. }
    rewrite setitem_fresh by exact Hk.
    rewrite IH.
    + now rewrite <- app_assoc.
    + unfold keys in *. rewrite map_app. simpl. now rewrite <- app_assoc.
Qed.

(** Assigning entries whose keys are all new leaves the old entries alone. *)
Lemma update_disjoint l : forall d,
  (forall k, In k (keys l) -> ~ In k (keys d)) ->
  update d l = (d ++ update [] l)%list.
Proof.
  induction l as [|[k v] l IH] using rev_ind; intros d Hdis; simpl.
  - now rewrite app_nil_r.
  - rewrite !update_app. simpl.
    rewrite IH.
    + apply setitem_app_fresh. apply Hdis.
      unfold keys. rewrite map_app. apply in_or_app. right. now left.
    + intros k0 Hk0. apply Hdis. unfold keys in *. rewrite map_app.
      apply in_or_app. now left.
Qed.

Lemma keys_update_subset l : forall d k,
  In k (keys (update d l)) -> In k (keys d) \/ In k (keys l).
Proof.
  induction l as [|[k0 v0] l IH]; intros d k Hin; simpl in *; [now left|].
  change (update d ((k0, v0) :: l)) with (update (setitem d k0 v0) l) in Hin.
  apply IH in Hin as [Hin|Hin]; [|now right; right].
  destruct (in_dec string_dec k0 (keys d)) as [Hk0|Hk0].
  - rewrite keys_setitem_present in Hin by assumption. now left.
  - rewrite setitem_fresh in Hin by assumption. unfold keys in Hin.
    rewrite map_app in Hin. apply in_app_or in Hin as [Hin|[<-|[]]]; auto.
Qed.

Lemma NoDup_keys_update l : forall d,
  NoDup (keys d) -> NoDup (keys (update d l)).
Proof.
  induction l as [|[k v] l IH]; intros d Hd; [exact Hd|].
  change (update d ((k, v) :: l)) with (update (setitem d k v) l).
  apply IH. now apply NoDup_keys_setitem.
Qed.

End DictFacts.

(** ** The row built by [addRecord] *)

Lemma fold_add_param best_params : forall row,
  fold_left add_param (items best_params) row
  = update row (flatten_params best_params).
Proof.
  induction best_params as [|[p_name p_value] bp IH]; intros row; [reflexivity|].
  unfold items in *. simpl fold_left. rewrite IH.
  unfold flatten_params. simpl flat_map. rewrite update_app. f_equal.
  unfold add_param. simpl. destruct p_value; reflexivity.
Qed.

Lemma fold_add_metric_pair pairs : forall row,
  fold_left add_metric_pair pairs row = update row (sum_tuples pairs).
Proof.
  induction pairs as [|[[tm_name tm_value] [ts_name ts_value]] pairs IH];
    intros row; [reflexivity|].
  simpl fold_left. rewrite IH. reflexivity.
Qed.

(** The row is what assigning the flattened parameters and then the
    interleaved metrics, one key at a time, leaves in an empty dictionary. *)
Lemma dataframe_row_update best_params train test :
  dataframe_row best_params train test
  = update [] (flatten_params best_params ++ interleave_metrics train test).
Proof.
  unfold dataframe_row. rewrite fold_add_metric_pair, fold_add_param.
  now rewrite update_app.
Qed.

(** ** The store: lookup and creation of units *)

Lemma names_eqb_eq a b : names_eqb a b = true <-> a = b.
Proof.
  destruct a as [a1 a2], b as [b1 b2]. unfold names_eqb. simpl.
  rewrite andb_true_iff, !String.eqb_eq. split; [intros [-> ->]|intros [= -> ->]]; auto.
Qed.

Lemma existsb_names_In n l : existsb (names_eqb n) l = true <-> In n l.
Proof.
  rewrite existsb_exists. split.
  - intros [x [Hx Heq]]. apply names_eqb_eq in Heq. now subst.
  - intros H. exists n. split; [exact H|now apply names_eqb_eq].
Qed.

(** The search only reads the names of the units. *)
Lemma find_report_names rs d c : forall pos,
  find_report rs d c pos
  = match find_report rs d c 0 with Some i => Some (pos + i) | None => None end.
Proof.
  induction rs as [|ru rs IH]; intros pos; simpl; [reflexivity|].
  destruct ((dataset_ ru =? d) && (configuration_ ru =? c)).
  - f_equal. lia.
  - rewrite (IH (S pos)), (IH 1). destruct (find_report rs d c 0); [f_equal; lia|reflexivity].
Qed.

Lemma find_report_Some rs d c i :
  find_report rs d c 0 = Some i ->
  exists ru, nth_error rs i = Some ru /\ unit_names ru = (d, c).
Proof.
  revert i. induction rs as [|ru rs IH]; intros i; simpl; [discriminate|].
  destruct (dataset_ ru =? d) eqn:Hd; simpl.
  - destruct (configuration_ ru =? c) eqn:Hc.
    + intros [= <-]. exists ru. split; [reflexivity|].
      apply String.eqb_eq in Hd, Hc. unfold unit_names. now subst.
    + rewrite find_report_names. destruct (find_report rs d c 0) as [j|]; [|discriminate].
      intros [= <-]. simpl. now apply IH.
  - rewrite find_report_names. destruct (find_report rs d c 0) as [j|]; [|discriminate].
    intros [= <-]. simpl. now apply IH.
Qed.

Lemma find_report_None rs d c :
  find_report rs d c 0 = None <-> ~ In (d, c) (map unit_names rs).
Proof.
  induction rs as [|ru rs IH]; simpl; [tauto|].
  destruct ((dataset_ ru =? d) && (configuration_ ru =? c)) eqn:E.
  - apply andb_true_iff in E as [Hd Hc]. apply String.eqb_eq in Hd, Hc.
    split; [discriminate|]. intros H. exfalso. apply H. left. unfold unit_names. now subst.
  - rewrite find_report_names. destruct (find_report rs d c 0) as [j|].
    + split; [discriminate|]. intros H. exfalso.
      assert (Hrest : ~ In (d, c) (map unit_names rs)) by (intros Hin; apply H; now right).
      apply IH in Hrest. discriminate.
    + split; [|reflexivity]. intros _ [Heq|Hin]; [|now apply IH].
      unfold unit_names in Heq. injection Heq as <- <-.
      now rewrite !String.eqb_refl in E.
Qed.

Lemma find_report_app rs extra d c :
  find_report (rs ++ extra) d c 0
  = match find_report rs d c 0 with
    | Some i => Some i
    | None => find_report extra d c (List.length rs)
    end.
Proof.
  induction rs as [|ru rs IH]; simpl; [reflexivity|].
  destruct ((dataset_ ru =? d) && (configuration_ ru =? c)); [reflexivity|].
  rewrite (find_report_names (rs ++ extra)), (find_report_names rs), IH.
  destruct (find_report rs d c 0); [reflexivity|].
  rewrite (find_report_names extra _ _ (List.length rs)),
          (find_report_names extra _ _ (S (List.length rs))).
  destruct (find_report extra d c 0); [f_equal|reflexivity].
Qed.

Lemma find_report_ext rs rs' d c :
  map unit_names rs = map unit_names rs' ->
  find_report rs d c 0 = find_report rs' d c 0.
Proof.
  revert rs'. induction rs as [|ru rs IH]; intros [|ru' rs']; simpl; try discriminate;
    [reflexivity|].
  unfold unit_names at 1 3. intros [= Hd Hc Hrest]. rewrite Hd, Hc.
  destruct ((dataset_ ru' =? d) && (configuration_ ru' =? c)); [reflexivity|].
  rewrite (find_report_names rs), (find_report_names rs'). now rewrite (IH rs').
Qed.

Lemma getReportUnit_hit self d c i :
  find_report (reports_ self) d c 0 = Some i ->
  getReportUnit d c self = (self, Ok i).
Proof. unfold getReportUnit. now intros ->. Qed.

Lemma getReportUnit_miss self d c :
  find_report (reports_ self) d c 0 = None ->
  getReportUnit d c self
  = ({| reports_ := (reports_ self ++ [ReportUnit_init d c])%list |},
     Ok (List.length (reports_ self))).
Proof. unfold getReportUnit. now intros ->. Qed.

(** Whatever the store, the unit returned is found again by the search. *)
Lemma getReportUnit_found self d c :
  exists i, snd (getReportUnit d c self) = Ok i
            /\ find_report (reports_ (fst (getReportUnit d c self))) d c 0 = Some i.
Proof.
  destruct (find_report (reports_ self) d c 0) as [i|] eqn:E.
  - rewrite (getReportUnit_hit _ _ _ _ E). exists i. now split.
  - rewrite (getReportUnit_miss _ _ _ E). exists (List.length (reports_ self)).
    split; [reflexivity|]. simpl. rewrite find_report_app, E. simpl.
    rewrite !String.eqb_refl. reflexivity.
Qed.

Lemma getReportUnit_names self d c :
  map unit_names (reports_ (fst (getReportUnit d c self)))
  = see (map unit_names (reports_ self)) (d, c).
Proof.
  unfold see. destruct (find_report (reports_ self) d c 0) as [i|] eqn:E.
  - rewrite (getReportUnit_hit _ _ _ _ E). simpl.
    destruct (existsb (names_eqb (d, c)) (map unit_names (reports_ self))) eqn:Ex;
      [reflexivity|].
    exfalso. apply find_report_Some in E as [ru [Hnth Hn]].
    apply nth_error_In in Hnth. apply (in_map unit_names) in Hnth. rewrite Hn in Hnth.
    apply existsb_names_In in Hnth. congruence.
  - rewrite (getReportUnit_miss _ _ _ E). simpl. rewrite map_app. simpl.
    destruct (existsb (names_eqb (d, c)) (map unit_names (reports_ self))) eqn:Ex;
      [|reflexivity].
    exfalso. apply existsb_names_In in Ex. now apply find_report_None in E.
Qed.

Lemma see_extends seen n : exists extra, see seen n = (seen ++ extra)%list.
Proof.
  unfold see. destruct (existsb (names_eqb n) seen).
  - exists []. now rewrite app_nil_r.
  - now exists [n].
Qed.

Lemma see_NoDup seen n : NoDup seen -> NoDup (see seen n).
Proof.
  intros Hnd. unfold see. destruct (existsb (names_eqb n) seen) eqn:E; [exact Hnd|].
  apply NoDup_app; [exact Hnd|repeat constructor; simpl; tauto|].
  intros x Hx [<-|[]]. apply existsb_names_In in Hx. congruence.
Qed.

(** Units appended behind a unit do not hide it from the search. *)
Lemma find_report_extended rs d c i : forall rs' extra,
  map unit_names rs' = (map unit_names rs ++ extra)%list ->
  find_report rs d c 0 = Some i -> find_report rs' d c 0 = Some i.
Proof.
  revert i. induction rs as [|ru rs IH]; intros i rs' extra Hn Hf; [discriminate|].
  destruct rs' as [|ru' rs']; [discriminate|]. simpl in Hn, Hf |- *.
  unfold unit_names at 1 3 in Hn. injection Hn as Hd Hc Hn. rewrite Hd, Hc.
  destruct ((dataset_ ru =? d) && (configuration_ ru =? c)); [exact Hf|].
  rewrite (find_report_names rs) in Hf. rewrite (find_report_names rs').
  destruct (find_report rs d c 0) as [j|] eqn:E; [|discriminate].
  now rewrite (IH j rs' extra Hn eq_refl).
Qed.

(** *** The unit mutated by [addRecord] *)

Lemma nth_error_update_nth {A} (f : A -> A) (l : list A) : forall n,
  nth_error (update_nth n f l) n = option_map f (nth_error l n).
Proof. induction l as [|x l IH]; intros [|n]; simpl; auto. Qed.

Lemma map_update_nth {A B} (g : A -> B) (f : A -> A) (l : list A) :
  (forall x, g (f x) = g x) -> forall n, map g (update_nth n f l) = map g l.
Proof.
  intros Hg. induction l as [|x l IH]; intros [|n]; simpl; auto.
  - now rewrite Hg.
  - now rewrite IH.
Qed.

Lemma getitem_contains {V} (d : dict V) k :
  contains d k = false -> getitem d k = Raise (KeyError k).
Proof.
  unfold contains. induction d as [|[k' v] d IH]; simpl; [reflexivity|].
  rewrite String.eqb_sym. destruct (k' =? k); simpl; [discriminate|exact IH].
Qed.

Lemma getitem_present {V} (d : dict V) k :
  contains d k = true -> exists v, getitem d k = Ok v.
Proof.
  unfold contains. induction d as [|[k' v] d IH]; simpl; [discriminate|].
  rewrite String.eqb_sym. destruct (k' =? k); simpl; [now exists v|exact IH].
Qed.

(** [addRecord], one step at a time. *)
Lemma addRecord_eq p bp bm cfg ms ps self :
  addRecord p bp bm cfg ms ps self
  = match getitem cfg "dataset" with
    | Raise e => (self, Raise e)
    | Ok d =>
      match getitem cfg "config" with
      | Raise e => (self, Raise e)
      | Ok c =>
        let self1 := fst (getReportUnit d c self) in
        match snd (getReportUnit d c self) with
        | Raise e => (self1, Raise e)
        | Ok ru =>
          match getitem ms "train" with
          | Raise e => (self1, Raise e)
          | Ok tr =>
            match getitem ms "test" with
            | Raise e => (self1, Raise e)
            | Ok ts =>
                ({| reports_ := update_nth ru
                      (store_partition (str p) (dataframe_row bp tr ts) bm ps)
                      (reports_ self1) |}, Ok tt)
            end
          end
        end
      end
    end.
Proof.
  unfold addRecord, bind, lift, modify.
  destruct (getitem cfg "dataset") as [d|e]; [|reflexivity].
  destruct (getitem cfg "config") as [c|e]; [|reflexivity].
  destruct (getReportUnit d c self) as [self1 [ru|e]]; simpl; [|reflexivity].
  destruct (getitem ms "train") as [tr|e]; [|reflexivity].
  destruct (getitem ms "test") as [ts|e]; reflexivity.
Qed.

(** A call with a complete configuration and both metric mappings stores
    its row, model and predictions in the unit of its pair of names. *)
Lemma addRecord_stores p bp bm cfg ms ps self d c tr ts :
  getitem cfg "dataset" = Ok d -> getitem cfg "config" = Ok c ->
  getitem ms "train" = Ok tr -> getitem ms "test" = Ok ts ->
  exists ru,
    lookup_unit (fst (getReportUnit d c self)) d c = Some ru
    /\ snd (addRecord p bp bm cfg ms ps self) = Ok tt
    /\ map unit_names (reports_ (fst (addRecord p bp bm cfg ms ps self)))
       = map unit_names (reports_ (fst (getReportUnit d c self)))
    /\ lookup_unit (fst (addRecord p bp bm cfg ms ps self)) d c
       = Some (store_partition (str p) (dataframe_row bp tr ts) bm ps ru).
Proof.
  intros Hd Hc Htr Hts. rewrite addRecord_eq, Hd, Hc, Htr, Hts.
  destruct (getReportUnit_found self d c) as [i [Hi Hfind]].
  rewrite Hi. cbv zeta. simpl fst. simpl snd.
  destruct (find_report_Some _ _ _ _ Hfind) as [ru [Hnth _]].
  assert (Hnames : map unit_names (update_nth i
            (store_partition (str p) (dataframe_row bp tr ts) bm ps)
            (reports_ (fst (getReportUnit d c self))))
          = map unit_names (reports_ (fst (getReportUnit d c self)))).
  { apply map_update_nth. reflexivity. }
  exists ru. unfold lookup_unit. rewrite Hfind. simpl reports_.
  rewrite (find_report_ext _ _ d c Hnames), Hfind, nth_error_update_nth, Hnth.
  repeat split; auto.
Qed.

Lemma run_call_names cl self :
  map unit_names (reports_ (run_call cl self))
  = match requested cl with
    | Some n => see (map unit_names (reports_ self)) n
    | None => map unit_names (reports_ self)
    end.
Proof.
  destruct cl as [d c|p bp bm cfg ms ps]; simpl.
  - apply getReportUnit_names.
  - rewrite addRecord_eq.
    destruct (getitem cfg "dataset") as [d|e]; [|reflexivity].
    destruct (getitem cfg "config") as [c|e]; [|reflexivity].
    rewrite <- getReportUnit_names. cbv zeta.
    destruct (snd (getReportUnit d c self)); [|reflexivity].
    destruct (getitem ms "train"); [|reflexivity].
    destruct (getitem ms "test"); [|reflexivity].
    simpl. apply map_update_nth. reflexivity.
Qed.

Lemma run_calls_app calls1 calls2 self :
  run_calls (calls1 ++ calls2) self = run_calls calls2 (run_calls calls1 self).
Proof. apply fold_left_app. Qed.

Lemma run_calls_extends calls : forall self,
  exists extra, map unit_names (reports_ (run_calls calls self))
                = (map unit_names (reports_ self) ++ extra)%list.
Proof.
  induction calls as [|cl calls IH]; intros self; simpl.
  - exists []. now rewrite app_nil_r.
  - destruct (IH (run_call cl self)) as [extra Hextra]. rewrite Hextra.
    rewrite run_call_names. destruct (requested cl) as [n|].
    + destruct (see_extends (map unit_names (reports_ self)) n) as [e1 ->].
      exists (e1 ++ extra)%list. now rewrite app_assoc.
    + now exists extra.
Qed.

(** The units of a store, by name, are the pairs requested so far, each
    at the place of its first request. *)
Lemma run_calls_names calls : forall self,
  map unit_names (reports_ (run_calls calls self))
  = fold_left see (requests calls) (map unit_names (reports_ self)).
Proof.
  unfold requests.
  induction calls as [|cl calls IH]; intros self; simpl; [reflexivity|].
  rewrite IH, run_call_names, fold_left_app.
  destruct (requested cl); reflexivity.
Qed.

Lemma fold_see_NoDup l : forall seen, NoDup seen -> NoDup (fold_left see l seen).
Proof.
  induction l as [|n l IH]; intros seen Hnd; simpl; [exact Hnd|].
  apply IH. now apply see_NoDup.
Qed.

(** ** Properties of [getReportUnit] *)

(** C5.  Asking twice for the same pair of names returns the same unit
    and creates nothing the second time; this stays so whatever calls
    for this or other pairs come in between; a store built through its
    operations never holds two units for one pair; a pair not yet in the
    store gets a new empty unit appended behind the existing ones, and a
    pair already in the store leaves the store as it is. *)
Theorem getReportUnit_get_or_create :
  (forall self d c, exists ru,
      snd (getReportUnit d c self) = Ok ru
      /\ getReportUnit d c (fst (getReportUnit d c self))
         = (fst (getReportUnit d c self), Ok ru))
  /\ (forall self d c calls ru,
      snd (getReportUnit d c self) = Ok ru ->
      getReportUnit d c (run_calls calls (fst (getReportUnit d c self)))
      = (run_calls calls (fst (getReportUnit d c self)), Ok ru))
  /\ (forall calls, NoDup (map unit_names (reports_ (run_calls calls Results_init))))
  /\ (forall self d c,
      ~ In (d, c) (map unit_names (reports_ self)) ->
      getReportUnit d c self
      = ({| reports_ := (reports_ self ++ [ReportUnit_init d c])%list |},
         Ok (List.length (reports_ self))))
  /\ (forall self d c,
      In (d, c) (map unit_names (reports_ self)) ->
      fst (getReportUnit d c self) = self).
Proof.
  repeat apply conj.
  - intros self d c. destruct (getReportUnit_found self d c) as [i [Hi Hf]].
    exists i. split; [exact Hi|]. now apply getReportUnit_hit.
  - intros self d c calls ru Hru.
    destruct (getReportUnit_found self d c) as [i [Hi Hf]].
    assert (i = ru) by congruence. subst i.
    apply getReportUnit_hit.
    destruct (run_calls_extends calls (fst (getReportUnit d c self))) as [extra Hextra].
    exact (find_report_extended _ _ _ _ _ _ Hextra Hf).
  - intros calls. rewrite run_calls_names. apply fold_see_NoDup. constructor.
  - intros self d c Hnew. apply getReportUnit_miss. now apply find_report_None.
  - intros self d c Hold.
    destruct (find_report (reports_ self) d c 0) as [i|] eqn:E.
    + now rewrite (getReportUnit_hit _ _ _ _ E).
    + apply find_report_None in E. contradiction.
Qed.

Lemma getReportUnit_get_or_create_witness :
  getReportUnit "iris" "cfg1"
    (run_calls [GetReportUnit "wine" "cfg1"; GetReportUnit "iris" "cfg2"]
               (fst (getReportUnit "iris" "cfg1" Results_init)))
  = ({| reports_ := [ReportUnit_init "iris" "cfg1"; ReportUnit_init "wine" "cfg1";
                     ReportUnit_init "iris" "cfg2"] |}, Ok 0).
Proof.
  exact (proj1 (proj2 getReportUnit_get_or_create) Results_init "iris" "cfg1"
               [GetReportUnit "wine" "cfg1"; GetReportUnit "iris" "cfg2"] 0 eq_refl).
Defined.

(** ** Properties of [addRecord] *)

Lemma length_sum_tuples {A} (pairs : list (A * A)) :
  List.length (sum_tuples pairs) = 2 * List.length pairs.
Proof. induction pairs as [|pr pairs IH]; simpl; [reflexivity|]. rewrite IH. lia. Qed.

Lemma nth_error_interleave (tr : dict value) : forall (ts : dict value) i tm tsm,
  nth_error tr i = Some tm -> nth_error ts i = Some tsm ->
  nth_error (interleave_metrics tr ts) (2 * i) = Some tm
  /\ nth_error (interleave_metrics tr ts) (2 * i + 1) = Some tsm.
Proof.
  unfold interleave_metrics, zip.
  induction tr as [|a tr IH]; intros [|b ts] [|i] tm tsm Htr Hts;
    try discriminate; simpl in *.
  - split; congruence.
  - replace (i + S (i + 0)) with (S (2 * i)) by lia. simpl.
    now apply IH.
Qed.

(** The row after the first loop names no column twice. *)
Lemma params_row_NoDup bp : NoDup (keys (params_row bp)).
Proof.
  unfold params_row. rewrite fold_add_param. apply NoDup_keys_update. constructor.
Qed.

Lemma flatten_params_In bp k v :
  In (k, v) (flatten_params bp)
  <-> (In (k, v) bp /\ forall entries, v <> VDict entries)
      \/ exists name entries, In (name, VDict entries) bp /\ In (k, v) entries.
Proof.
  unfold flatten_params. rewrite in_flat_map. split.
  - intros [[name w] [Hp Hin]]. simpl in Hin.
    destruct w as [x| |t|entries|entries];
      try (destruct Hin as [[= -> <-]|[]]; left; split; [exact Hp|discriminate]).
    right. now exists name, entries.
  - intros [[Hp Hv]|[name [entries [Hp Hin]]]].
    + exists (k, v). split; [exact Hp|]. simpl.
      destruct v; try (now left). exfalso. now apply (Hv d).
    + exists (name, VDict entries). split; [exact Hp|exact Hin].
Qed.

(** C3 (amended).  When the train and test mappings have the same length,
    the metric names, train and test together, are pairwise distinct, and
    none of them names an entry the hyperparameters have put in the row,
    the stored row is the hyperparameter entries followed by the metrics,
    the train entry number [i] at offset [2i] behind the hyperparameters
    and the test entry number [i] right after it, in the order supplied. *)
Theorem addRecord_row_interleaves_metrics p bp bm cfg ms ps self d c tr ts :
  getitem cfg "dataset" = Ok d -> getitem cfg "config" = Ok c ->
  getitem ms "train" = Ok tr -> getitem ms "test" = Ok ts ->
  List.length tr = List.length ts ->
  NoDup (keys (interleave_metrics tr ts)) ->
  (forall k, In k (keys (interleave_metrics tr ts)) -> ~ In k (keys (params_row bp))) ->
  exists ru row,
    lookup_unit (fst (addRecord p bp bm cfg ms ps self)) d c = Some ru
    /\ getitem (df_ ru) (str p) = Ok row
    /\ row = (params_row bp ++ interleave_metrics tr ts)%list
    /\ List.length row = List.length (params_row bp) + 2 * List.length tr
    /\ forall i tm tsm,
         nth_error tr i = Some tm -> nth_error ts i = Some tsm ->
         nth_error row (List.length (params_row bp) + 2 * i) = Some tm
         /\ nth_error row (List.length (params_row bp) + 2 * i + 1) = Some tsm.
Proof.
  intros Hd Hc Htr Hts Hlen Hnd Hdis.
  destruct (addRecord_stores p bp bm cfg ms ps self d c tr ts Hd Hc Htr Hts)
    as [ru0 [_ [_ [_ Hlook]]]].
  eexists. exists (params_row bp ++ interleave_metrics tr ts)%list.
  split; [exact Hlook|]. simpl df_. rewrite getitem_setitem.
  assert (Hrow : dataframe_row bp tr ts = (params_row bp ++ interleave_metrics tr ts)%list).
  { unfold dataframe_row. rewrite fold_add_metric_pair. fold (params_row bp).
    apply update_fresh. apply NoDup_app; [apply params_row_NoDup|exact Hnd|].
    intros k Hk Hk'. exact (Hdis k Hk' Hk). }
  rewrite Hrow. repeat split.
  - rewrite length_app. unfold interleave_metrics, zip.
    rewrite length_sum_tuples, length_combine, Hlen, Nat.min_id. reflexivity.
  - rewrite nth_error_app2 by lia.
    replace (List.length (params_row bp) + 2 * i - List.length (params_row bp))
      with (2 * i) by lia.
    now apply (nth_error_interleave tr ts i tm tsm).
  - rewrite nth_error_app2 by lia.
    replace (List.length (params_row bp) + 2 * i + 1 - List.length (params_row bp))
      with (2 * i + 1) by lia.
    now apply (nth_error_interleave tr ts i tm tsm).
Qed.

Ltac distinct_keys := repeat constructor; simpl; intuition discriminate.

Lemma addRecord_row_interleaves_metrics_witness :
  exists ru row,
    lookup_unit (fst (addRecord (PInt 0) nested_params (Estimator 0) iris_cfg1
                                suffixed_metrics train_only Results_init))
                "iris" "cfg1" = Some ru
    /\ getitem (df_ ru) "0" = Ok row
    /\ row = [("a", VNum 1); ("x", VNum 2); ("y", VNum 3);
              ("acc_train", VNum 0.9); ("acc_test", VNum 0.85);
              ("f1_train", VNum 0.8); ("f1_test", VNum 0.75)].
Proof.
  destruct (addRecord_row_interleaves_metrics (PInt 0) nested_params (Estimator 0)
              iris_cfg1 suffixed_metrics train_only Results_init "iris" "cfg1"
              [("acc_train", VNum 0.9); ("f1_train", VNum 0.8)]
              [("acc_test", VNum 0.85); ("f1_test", VNum 0.75)]
              eq_refl eq_refl eq_refl eq_refl eq_refl ltac:(distinct_keys)
              ltac:(simpl; intuition (subst; discriminate)))
    as [ru [row [Hru [Hrow [Heq _]]]]].
  exists ru, row. repeat split; assumption.
Defined.

(** With the same name used for a train metric and for its test metric
    (the metrics of the specification's own interleaving scenario) the
    row keeps one entry per name, holding the test score: the train and
    test entries do not alternate.  With a test metric named like a
    hyperparameter, the score takes the place of the hyperparameter: it
    stands before another hyperparameter, and its train metric is
    followed by the next train metric. *)
Lemma addRecord_metric_name_clashes :
  (exists ru,
      lookup_unit (fst (addRecord (PInt 0) [] (Estimator 0) iris_cfg1
                                  unsuffixed_metrics train_only Results_init))
                  "iris" "cfg1" = Some ru
      /\ getitem (df_ ru) "0" = Ok [("acc", VNum 0.85); ("f1", VNum 0.75)]
      /\ getitem (df_ ru) "0"
         <> Ok (interleave_metrics [("acc", VNum 0.9); ("f1", VNum 0.8)]
                                   [("acc", VNum 0.85); ("f1", VNum 0.75)]))
  /\ (exists ru,
        lookup_unit (fst (addRecord (PInt 0) metric_named_params (Estimator 0) iris_cfg1
                                    suffixed_metrics train_only Results_init))
                    "iris" "cfg1" = Some ru
        /\ getitem (df_ ru) "0"
           = Ok [("acc_test", VNum 0.85); ("C", VNum 1); ("acc_train", VNum 0.9);
                 ("f1_train", VNum 0.8); ("f1_test", VNum 0.75)]).
Proof.
  split.
  - eexists. split; [reflexivity|]. split; [reflexivity|].
    intros H. discriminate H.
  - eexists. split; reflexivity.
Qed.

(** C4 (amended).  When the flattened hyperparameter names are pairwise
    distinct and none of them is also the name of a metric, the stored
    row starts with the flattened hyperparameters, in the original order:
    the entries of a parameter whose value is a [dict] stand in place of
    that parameter, and every other parameter, whether a number, a string
    or a mapping of another type, stands under its own name with its own
    value. *)
Theorem addRecord_row_leads_with_flattened_params p bp bm cfg ms ps self d c tr ts :
  getitem cfg "dataset" = Ok d -> getitem cfg "config" = Ok c ->
  getitem ms "train" = Ok tr -> getitem ms "test" = Ok ts ->
  NoDup (keys (flatten_params bp)) ->
  (forall k, In k (keys (interleave_metrics tr ts)) -> ~ In k (keys (flatten_params bp))) ->
  exists ru row,
    lookup_unit (fst (addRecord p bp bm cfg ms ps self)) d c = Some ru
    /\ getitem (df_ ru) (str p) = Ok row
    /\ firstn (List.length (flatten_params bp)) row = flatten_params bp
    /\ row = flatten_params bp ++ update [] (interleave_metrics tr ts)
    /\ (forall name entries k v,
          In (name, VDict entries) bp -> In (k, v) entries ->
          In (k, v) (firstn (List.length (flatten_params bp)) row))
    /\ (forall name v,
          In (name, v) bp -> (forall entries, v <> VDict entries) ->
          In (name, v) (firstn (List.length (flatten_params bp)) row))
    /\ (forall k v,
          In (k, v) (firstn (List.length (flatten_params bp)) row) ->
          (In (k, v) bp /\ forall entries, v <> VDict entries)
          \/ exists name entries, In (name, VDict entries) bp /\ In (k, v) entries).
Proof.
  intros Hd Hc Htr Hts Hnd Hdis.
  destruct (addRecord_stores p bp bm cfg ms ps self d c tr ts Hd Hc Htr Hts)
    as [ru0 [_ [_ [_ Hlook]]]].
  eexists. exists (flatten_params bp ++ update [] (interleave_metrics tr ts)).
  split; [exact Hlook|]. simpl df_. rewrite getitem_setitem.
  rewrite dataframe_row_update, update_app.
  rewrite (update_fresh (flatten_params bp) []) by exact Hnd. simpl app.
  rewrite update_disjoint by exact Hdis.
  assert (Hfirst : firstn (List.length (flatten_params bp))
                          (flatten_params bp ++ update [] (interleave_metrics tr ts))
                   = flatten_params bp).
  { rewrite firstn_app, Nat.sub_diag, firstn_all. simpl. apply app_nil_r. }
  rewrite Hfirst. repeat split.
  - intros name entries k v Hp Hin. apply flatten_params_In. right.
    now exists name, entries.
  - intros name v Hp Hv. apply flatten_params_In. now left.
  - intros k v Hin. now apply flatten_params_In.
Qed.

Lemma addRecord_row_leads_with_flattened_params_witness :
  (exists ru row,
      lookup_unit (fst (addRecord (PInt 0) nested_params (Estimator 0) iris_cfg1
                                  suffixed_metrics train_only Results_init))
                  "iris" "cfg1" = Some ru
      /\ getitem (df_ ru) "0" = Ok row
      /\ firstn 3 row = [("a", VNum 1); ("x", VNum 2); ("y", VNum 3)])
  /\ (exists ru row,
        lookup_unit (fst (addRecord (PInt 0) ordered_params (Estimator 0) iris_cfg1
                                    suffixed_metrics train_only Results_init))
                    "iris" "cfg1" = Some ru
        /\ getitem (df_ ru) "0" = Ok row
        /\ firstn 2 row
           = [("a", VNum 1); ("b", VOrderedDict [("x", VNum 2); ("y", VNum 3)])]).
Proof.
  split.
  - destruct (addRecord_row_leads_with_flattened_params (PInt 0) nested_params
                (Estimator 0) iris_cfg1 suffixed_metrics train_only Results_init
                "iris" "cfg1"
                [("acc_train", VNum 0.9); ("f1_train", VNum 0.8)]
                [("acc_test", VNum 0.85); ("f1_test", VNum 0.75)]
                eq_refl eq_refl eq_refl eq_refl ltac:(distinct_keys)
                ltac:(simpl; intuition (subst; discriminate)))
      as [ru [row [Hru [Hrow [Hfirst _]]]]].
    exists ru, row. repeat split; assumption.
  - destruct (addRecord_row_leads_with_flattened_params (PInt 0) ordered_params
                (Estimator 0) iris_cfg1 suffixed_metrics train_only Results_init
                "iris" "cfg1"
                [("acc_train", VNum 0.9); ("f1_train", VNum 0.8)]
                [("acc_test", VNum 0.85); ("f1_test", VNum 0.75)]
                eq_refl eq_refl eq_refl eq_refl ltac:(distinct_keys)
                ltac:(simpl; intuition (subst; discriminate)))
      as [ru [row [Hru [Hrow [Hfirst _]]]]].
    exists ru, row. repeat split; assumption.
Defined.

(** Where the flattening differs.  A nested entry named like an earlier
    parameter is not spliced in place: it overwrites that parameter,
    which is lost.  A mapping that is not a [dict], here an
    [OrderedDict], is not spliced at all: it is stored whole under the
    name of its parameter.  A metric named like a hyperparameter
    overwrites it: the row then leads with a score. *)
Lemma addRecord_flattening_exceptions :
  (flatten_params clashing_params = [("x", VNum 1); ("x", VNum 2); ("y", VNum 3)]
   /\ exists ru,
       lookup_unit (fst (addRecord (PInt 0) clashing_params (Estimator 0) iris_cfg1
                                   no_metrics train_only Results_init))
                   "iris" "cfg1" = Some ru
       /\ getitem (df_ ru) "0" = Ok [("x", VNum 2); ("y", VNum 3)]
       /\ firstn 3 [("x", VNum 2); ("y", VNum 3)] <> flatten_params clashing_params)
  /\ (exists ru,
        lookup_unit (fst (addRecord (PInt 0) ordered_params (Estimator 0) iris_cfg1
                                    no_metrics train_only Results_init))
                    "iris" "cfg1" = Some ru
        /\ getitem (df_ ru) "0"
           = Ok [("a", VNum 1); ("b", VOrderedDict [("x", VNum 2); ("y", VNum 3)])]
        /\ keys [("a", VNum 1); ("b", VOrderedDict [("x", VNum 2); ("y", VNum 3)])]
           <> ["a"; "x"; "y"])
  /\ (exists ru,
        lookup_unit (fst (addRecord (PInt 0) metric_named_params (Estimator 0) iris_cfg1
                                    suffixed_metrics train_only Results_init))
                    "iris" "cfg1" = Some ru
        /\ getitem (df_ ru) "0"
           = Ok [("acc_test", VNum 0.85); ("C", VNum 1); ("acc_train", VNum 0.9);
                 ("f1_train", VNum 0.8); ("f1_test", VNum 0.75)]
        /\ flatten_params metric_named_params = [("acc_test", VNum 7); ("C", VNum 1)]).
Proof.
  split; [|split].
  - split; [reflexivity|]. eexists. split; [reflexivity|]. split; [reflexivity|].
    intros H. discriminate H.
  - eexists. split; [reflexivity|]. split; [reflexivity|]. intros H. discriminate H.
  - eexists. split; [reflexivity|]. split; reflexivity.
Qed.

(** C6 (amended).  With a complete configuration, [addRecord] raises
    [KeyError] as soon as it reads a metrics payload without the train
    mapping or without the test mapping: nothing is stored for the
    partition (the unit of the pair has been looked up or created by
    then).  Mappings of different lengths raise nothing: they are zipped,
    the row is built from the leading [min] pairs and the surplus entries
    of the longer mapping are dropped. *)
Theorem addRecord_metrics_contract p bp bm cfg ms ps self d c :
  getitem cfg "dataset" = Ok d -> getitem cfg "config" = Ok c ->
  (contains ms "train" = false ->
   addRecord p bp bm cfg ms ps self
   = (fst (getReportUnit d c self), Raise (KeyError "train")))
  /\ (contains ms "train" = true -> contains ms "test" = false ->
      addRecord p bp bm cfg ms ps self
      = (fst (getReportUnit d c self), Raise (KeyError "test")))
  /\ (forall tr ts,
      getitem ms "train" = Ok tr -> getitem ms "test" = Ok ts ->
      snd (addRecord p bp bm cfg ms ps self) = Ok tt
      /\ List.length (zip tr ts) = Nat.min (List.length tr) (List.length ts)
      /\ exists ru,
          lookup_unit (fst (addRecord p bp bm cfg ms ps self)) d c = Some ru
          /\ getitem (df_ ru) (str p)
             = Ok (update [] (flatten_params bp ++ sum_tuples (zip tr ts)))).
Proof.
  intros Hd Hc. repeat apply conj.
  - intros Htr. rewrite addRecord_eq, Hd, Hc. cbv zeta.
    destruct (getReportUnit_found self d c) as [i [-> _]].
    now rewrite (getitem_contains _ _ Htr).
  - intros Htr Hts. rewrite addRecord_eq, Hd, Hc. cbv zeta.
    destruct (getReportUnit_found self d c) as [i [-> _]].
    destruct (getitem_present _ _ Htr) as [tr ->].
    now rewrite (getitem_contains _ _ Hts).
  - intros tr ts Htr Hts.
    destruct (addRecord_stores p bp bm cfg ms ps self d c tr ts Hd Hc Htr Hts)
      as [ru0 [_ [Hok [_ Hlook]]]].
    split; [exact Hok|]. split; [apply length_combine|].
    eexists. split; [exact Hlook|]. simpl df_.
    now rewrite getitem_setitem, dataframe_row_update.
Qed.

Lemma addRecord_metrics_contract_witness :
  addRecord (PInt 0) nested_params (Estimator 0) iris_cfg1
            [("test", [("acc_test", VNum 0.85)])] train_only Results_init
  = ({| reports_ := [ReportUnit_init "iris" "cfg1"] |}, Raise (KeyError "train")).
Proof.
  exact (proj1 (addRecord_metrics_contract (PInt 0) nested_params (Estimator 0)
                  iris_cfg1 [("test", [("acc_test", VNum 0.85)])] train_only
                  Results_init "iris" "cfg1" eq_refl eq_refl) eq_refl).
Defined.

(** Two train metrics against one test metric: the call returns normally
    and stores a row made of the first pair only. *)
Lemma addRecord_mismatched_lengths_accepted :
  getitem uneven_metrics "train" = Ok [("acc_train", VNum 0.9); ("f1_train", VNum 0.8)]
  /\ getitem uneven_metrics "test" = Ok [("acc_test", VNum 0.85)]
  /\ snd (addRecord (PInt 0) [] (Estimator 0) iris_cfg1 uneven_metrics train_only
                    Results_init) = Ok tt
  /\ exists ru,
      lookup_unit (fst (addRecord (PInt 0) [] (Estimator 0) iris_cfg1 uneven_metrics
                                  train_only Results_init)) "iris" "cfg1" = Some ru
      /\ getitem (df_ ru) "0" = Ok [("acc_train", VNum 0.9); ("acc_test", VNum 0.85)].
Proof.
  repeat split. eexists. split; reflexivity.
Qed.

(** C8.  A call for a partition key the unit already holds returns
    normally; the row, the model and the predictions under that key are
    the new ones; the keys of the three dictionaries, their order and the
    entries of the other partitions are as before, and no unit is added. *)
Theorem addRecord_overwrites_partition p bp bm cfg ms ps self d c tr ts old :
  getitem cfg "dataset" = Ok d -> getitem cfg "config" = Ok c ->
  getitem ms "train" = Ok tr -> getitem ms "test" = Ok ts ->
  lookup_unit self d c = Some old ->
  In (str p) (keys (df_ old)) ->
  In (str p) (keys (models_ old)) ->
  In (str p) (keys (predictions_ old)) ->
  snd (addRecord p bp bm cfg ms ps self) = Ok tt
  /\ map unit_names (reports_ (fst (addRecord p bp bm cfg ms ps self)))
     = map unit_names (reports_ self)
  /\ exists new,
      lookup_unit (fst (addRecord p bp bm cfg ms ps self)) d c = Some new
      /\ getitem (df_ new) (str p) = Ok (dataframe_row bp tr ts)
      /\ getitem (models_ new) (str p) = Ok bm
      /\ getitem (predictions_ new) (str p) = Ok ps
      /\ keys (df_ new) = keys (df_ old)
      /\ keys (models_ new) = keys (models_ old)
      /\ keys (predictions_ new) = keys (predictions_ old)
      /\ forall k, k <> str p ->
           getitem (df_ new) k = getitem (df_ old) k
           /\ getitem (models_ new) k = getitem (models_ old) k
           /\ getitem (predictions_ new) k = getitem (predictions_ old) k.
Proof.
  intros Hd Hc Htr Hts Hold Hrow Hmodel Hpred.
  destruct (addRecord_stores p bp bm cfg ms ps self d c tr ts Hd Hc Htr Hts)
    as [ru [Hru [Hok [Hnames Hlook]]]].
  assert (Hsame : fst (getReportUnit d c self) = self).
  { unfold lookup_unit in Hold.
    destruct (find_report (reports_ self) d c 0) as [i|] eqn:E; [|discriminate].
    now rewrite (getReportUnit_hit _ _ _ _ E). }
  rewrite Hsame in Hru, Hnames. assert (ru = old) by congruence. subst ru.
  split; [exact Hok|]. split; [exact Hnames|].
  eexists. split; [exact Hlook|]. simpl.
  rewrite !getitem_setitem, !keys_setitem_present by assumption.
  repeat split; auto; apply getitem_setitem_other; assumption.
Qed.

Lemma addRecord_overwrites_partition_witness :
  exists new,
    lookup_unit
      (fst (addRecord (PStr "1") [("C", VNum 10)] (Estimator 7) iris_cfg1
              suffixed_metrics train_and_test
              (fst (addRecord (PInt 1) nested_params (Estimator 0) iris_cfg1
                              suffixed_metrics train_only Results_init))))
      "iris" "cfg1" = Some new
    /\ getitem (models_ new) "1" = Ok (Estimator 7)
    /\ getitem (predictions_ new) "1" = Ok train_and_test
    /\ keys (df_ new) = ["1"].
Proof.
  destruct (addRecord_overwrites_partition (PStr "1") [("C", VNum 10)] (Estimator 7)
              iris_cfg1 suffixed_metrics train_and_test
              (fst (addRecord (PInt 1) nested_params (Estimator 0) iris_cfg1
                              suffixed_metrics train_only Results_init))
              "iris" "cfg1"
              [("acc_train", VNum 0.9); ("f1_train", VNum 0.8)]
              [("acc_test", VNum 0.85); ("f1_test", VNum 0.75)]
              _ eq_refl eq_refl eq_refl eq_refl eq_refl
              ltac:(simpl; auto) ltac:(simpl; auto) ltac:(simpl; auto))
    as [_ [_ [new [Hnew [_ [Hm [Hp [Hk _]]]]]]]].
  exists new. repeat split; assumption.
Defined.

(** ** The order of strings and [sorted] *)

Lemma ascii_compare_spec a b :
  CompareSpec (a = b) (N_of_ascii a < N_of_ascii b)%N (N_of_ascii b < N_of_ascii a)%N
              (Ascii.compare a b).
Proof.
  unfold Ascii.compare.
  destruct (N.compare_spec (N_of_ascii a) (N_of_ascii b)) as [H|H|H]; constructor; auto.
  rewrite <- (ascii_N_embedding a), <- (ascii_N_embedding b). now rewrite H.
Qed.

Lemma string_compare_refl s : String.compare s s = Eq.
Proof.
  induction s as [|a s IH]; simpl; [reflexivity|].
  destruct (ascii_compare_spec a a); auto; lia.
Qed.

Lemma string_compare_lt_trans s1 : forall s2 s3,
  String.compare s1 s2 = Lt -> String.compare s2 s3 = Lt -> String.compare s1 s3 = Lt.
Proof.
  induction s1 as [|a s1 IH]; intros [|b s2] [|c s3]; simpl; try congruence.
  destruct (ascii_compare_spec a b) as [->|Hab|Hab]; try discriminate.
  - destruct (ascii_compare_spec b c) as [->|Hbc|Hbc]; try discriminate; auto.
    apply IH.
  - intros _. destruct (ascii_compare_spec b c) as [->|Hbc|Hbc]; try discriminate.
    + destruct (ascii_compare_spec a c) as [->|Hac|Hac]; auto; lia.
    + destruct (ascii_compare_spec a c) as [->|Hac|Hac]; auto; lia.
Qed.

Lemma string_ltb_trans s1 s2 s3 :
  String.ltb s1 s2 = true -> String.ltb s2 s3 = true -> String.ltb s1 s3 = true.
Proof.
  unfold String.ltb. intros H12 H23.
  destruct (String.compare s1 s2) eqn:E12; try discriminate.
  destruct (String.compare s2 s3) eqn:E23; try discriminate.
  now rewrite (string_compare_lt_trans _ _ _ E12 E23).
Qed.

Lemma string_ltb_irrefl s : String.ltb s s = false.
Proof. unfold String.ltb. now rewrite string_compare_refl. Qed.

Lemma string_leb_ltb s1 s2 :
  String.leb s1 s2 = true -> s1 <> s2 -> String.ltb s1 s2 = true.
Proof.
  unfold String.leb, String.ltb. intros Hle Hne.
  destruct (String.compare s1 s2) eqn:E; auto.
  apply String.compare_eq_iff in E. contradiction.
Qed.

Lemma string_ltb_leb s1 s2 : String.ltb s1 s2 = true -> String.leb s1 s2 = true.
Proof. unfold String.leb, String.ltb. now destruct (String.compare s1 s2). Qed.

Section Sorted.

Context {V : Type}.
Implicit Types (x y : string * V) (l : list (string * V)).

Definition key_lt x y : Prop := String.ltb (fst x) (fst y) = true.

Lemma insert_sorted_perm x l : Permutation (insert_sorted x l) (x :: l).
Proof.
  induction l as [|y l IH]; simpl; [reflexivity|].
  destruct (String.leb (fst x) (fst y)); [reflexivity|].
  rewrite IH. apply perm_swap.
Qed.

Lemma sorted_perm l : Permutation (sorted l) l.
Proof.
  induction l as [|x l IH]; simpl; [reflexivity|].
  rewrite insert_sorted_perm. now constructor.
Qed.

Lemma insert_sorted_strict x l :
  ~ In (fst x) (keys l) ->
  StronglySorted key_lt l -> StronglySorted key_lt (insert_sorted x l).
Proof.
  induction l as [|y l IH]; intros Hx Hs; simpl.
  - repeat constructor.
  - inversion Hs as [|? ? Hl Hy]; subst.
    destruct (String.leb (fst x) (fst y)) eqn:E.
    + assert (Hxy : key_lt x y).
      { apply string_leb_ltb; [exact E|]. intros Heq. apply Hx. now left. }
      constructor; [exact Hs|]. constructor; [exact Hxy|].
      rewrite Forall_forall in *. intros z Hz.
      exact (string_ltb_trans _ _ _ Hxy (Hy z Hz)).
    + constructor; [apply IH; [intros Hin; apply Hx; now right|exact Hl]|].
      assert (Hyx : key_lt y x).
      { destruct (String.leb_total (fst x) (fst y)) as [H|H]; [congruence|].
        apply string_leb_ltb; [exact H|]. intros Heq. apply Hx. now left. }
      rewrite Forall_forall in *. intros z Hz.
      apply (Permutation_in _ (insert_sorted_perm x l)) in Hz as [<-|Hz]; auto.
Qed.

(** Sorting the items of a dictionary puts its keys in strictly
    ascending order. *)
Lemma sorted_strict l : NoDup (keys l) -> StronglySorted key_lt (sorted l).
Proof.
  induction l as [|x l IH]; intros Hnd; simpl; [constructor|].
  inversion Hnd as [|? ? Hx Hl]; subst.
  apply insert_sorted_strict; [|now apply IH].
  intros Hin. apply Hx. unfold keys in *.
  apply (Permutation_in _ (Permutation_map fst (sorted_perm l))). exact Hin.
Qed.

(** A strictly ascending list is determined by its elements. *)
Lemma strict_sorted_unique l1 : forall l2,
  StronglySorted key_lt l1 -> StronglySorted key_lt l2 ->
  Permutation l1 l2 -> l1 = l2.
Proof.
  induction l1 as [|x l1 IH]; intros l2 H1 H2 Hp.
  - now apply Permutation_nil in Hp.
  - destruct l2 as [|y l2]; [now apply Permutation_sym, Permutation_nil in Hp|].
    inversion H1 as [|? ? Hs1 Hx]; inversion H2 as [|? ? Hs2 Hy]; subst.
    rewrite Forall_forall in Hx, Hy.
    assert (Hxy : x = y).
    { assert (Hxin : In x (y :: l2)) by (apply (Permutation_in _ Hp); now left).
      assert (Hyin : In y (x :: l1))
        by (apply (Permutation_in _ (Permutation_sym Hp)); now left).
      destruct Hxin as [->|Hxin]; [reflexivity|].
      destruct Hyin as [->|Hyin]; [reflexivity|].
      exfalso. pose proof (string_ltb_trans _ _ _ (Hx _ Hyin) (Hy _ Hxin)) as Hc.
      now rewrite string_ltb_irrefl in Hc. }
    subst y. f_equal. apply IH; auto. now apply Permutation_cons_inv in Hp.
Qed.

(** The result of [sorted] does not depend on the order of the items. *)
Lemma sorted_order_independent l1 l2 :
  NoDup (keys l1) -> Permutation l1 l2 -> sorted l1 = sorted l2.
Proof.
  intros Hnd Hp. apply strict_sorted_unique.
  - now apply sorted_strict.
  - apply sorted_strict. unfold keys in *.
    exact (Permutation_NoDup (Permutation_map fst Hp) Hnd).
  - rewrite sorted_perm, Hp. symmetry. apply sorted_perm.
Qed.

End Sorted.

(** ** Runs of [saveResults] that do not raise *)

Lemma bind_ok {S A B} (m : M S A) (k : A -> M S B) s s' b :
  bind m k s = (s', Ok b) ->
  exists s1 a, m s = (s1, Ok a) /\ k a s1 = (s', Ok b).
Proof.
  unfold bind. destruct (m s) as [s1 [a|e]]; [|discriminate].
  intros H. now exists s1, a.
Qed.

Lemma lift_ok {S A} (r : result A) (s s' : S) a :
  lift r s = (s', Ok a) -> r = Ok a /\ s' = s.
Proof. unfold lift. now intros [= -> ->]. Qed.

Lemma ret_ok {S A} (a b : A) (s s' : S) : ret a s = (s', Ok b) -> a = b /\ s' = s.
Proof. unfold ret. now intros [= -> ->]. Qed.

Lemma flat_map_singleton {A B} (f : A -> B) (l : list A) :
  flat_map (fun x => [f x]) l = map f l.
Proof. induction l as [|x l IH]; simpl; congruence. Qed.

Lemma for_each_turns {S A} (body : A -> M S unit) : forall xs s s',
  for_each xs body s = (s', Ok tt) ->
  forall x, In x xs -> exists s1 s2, body x s1 = (s2, Ok tt).
Proof.
  induction xs as [|x0 xs IH]; intros s s' H x Hx; [destruct Hx|]. simpl in H.
  apply bind_ok in H as (s1 & [] & H1 & H2).
  destruct Hx as [<-|Hx]; [now exists s, s1|]. exact (IH _ _ H2 x Hx).
Qed.

Lemma for_collect_turns {S A B} (body : A -> M S B) : forall xs s s' ys,
  for_collect xs body s = (s', Ok ys) ->
  forall x, In x xs -> exists s1 s2 y, body x s1 = (s2, Ok y).
Proof.
  induction xs as [|x0 xs IH]; intros s s' ys H x Hx; [destruct Hx|]. simpl in H.
  apply bind_ok in H as (s1 & y & H1 & H).
  apply bind_ok in H as (s2 & ys' & H2 & H).
  destruct Hx as [<-|Hx]; [now exists s, s1, y|]. exact (IH _ _ _ H2 x Hx).
Qed.

Section SaveFacts.

Variable env : environment.

Lemma perform_ok ev done done' :
  perform env ev done = (done', Ok tt) -> done' = done ++ [ev].
Proof. unfold perform. destruct (io_error env done ev); now intros [= <-]. Qed.

Lemma makedirs_ok path done done' :
  makedirs_or_raise env path done = (done', Ok tt) -> done' = done ++ [Makedirs path].
Proof.
  unfold makedirs_or_raise.
  destruct (perform env (Makedirs path) done) as [d [[]|e]] eqn:E.
  - intros [= <-]. now apply perform_ok.
  - destruct e; discriminate.
Qed.

Lemma for_each_ok {A} (body : A -> M (list event) unit) (ev : A -> list event) :
  (forall x done done', body x done = (done', Ok tt) -> done' = done ++ ev x) ->
  forall xs done done',
    for_each xs body done = (done', Ok tt) -> done' = done ++ flat_map ev xs.
Proof.
  intros Hbody. induction xs as [|x xs IH]; intros done done' H; simpl in *.
  - apply ret_ok in H as [_ ->]. now rewrite app_nil_r.
  - apply bind_ok in H as (d1 & [] & H1 & H2).
    apply Hbody in H1. apply IH in H2. subst. now rewrite app_assoc.
Qed.

Lemma save_model_ok models_folder name entry done done' :
  save_model env models_folder name entry done = (done', Ok tt) ->
  done' = done ++ [model_event models_folder name entry].
Proof. destruct entry as [part model]. apply perform_ok. Qed.

(** Saving the predictions of a partition without raising writes the
    train labels, and the test labels exactly when they are not [None]. *)
Lemma save_predictions_ok predictions_folder name entry done done' :
  save_predictions env predictions_folder name entry done = (done', Ok tt) ->
  (exists train, getitem (snd entry) "train" = Ok (Some train))
  /\ (exists test, getitem (snd entry) "test" = Ok test)
  /\ done' = done ++ prediction_events predictions_folder name entry.
Proof.
  destruct entry as [part predictions]. unfold save_predictions, prediction_events.
  simpl fst. simpl snd. intros H.
  apply bind_ok in H as (d1 & train & H1 & H). apply lift_ok in H1 as [Htrain ->].
  apply bind_ok in H as (d2 & [] & H2 & H).
  destruct train as [train|];
    [|unfold savetxt in H2; apply bind_ok in H2 as (? & ? & _ & H2); discriminate].
  apply perform_ok in H2. subst d2.
  apply bind_ok in H as (d3 & test & H3 & H). apply lift_ok in H3 as [Htest ->].
  rewrite Htrain, Htest. split; [now exists train|]. split; [now exists test|].
  destruct test as [test|].
  - apply perform_ok in H. subst. now rewrite <- app_assoc.
  - apply ret_ok in H as [_ ->]. reflexivity.
Qed.

Lemma save_report_ok folder_path avg_index std_index report done done' row :
  save_report env folder_path avg_index std_index report done = (done', Ok row) ->
  createSummary (report_frame report) avg_index std_index = Ok (fst row)
  /\ snd row = summary_label report
  /\ done' = done ++ report_events folder_path report.
Proof.
  unfold save_report, report_events. fold (unit_name report). intros H.
  apply bind_ok in H as (d1 & [] & H1 & H). apply makedirs_ok in H1.
  apply bind_ok in H as (d2 & [] & H2 & H). apply perform_ok in H2.
  apply bind_ok in H as (d3 & summary & H3 & H). apply lift_ok in H3 as [Hsum ->].
  apply bind_ok in H as (d4 & [] & H4 & H). apply makedirs_ok in H4.
  apply bind_ok in H as (d5 & [] & H5 & H).
  apply (for_each_ok _ (fun e =>
           [model_event ((folder_path ++ unit_name report ++ "/") ++ "models/")%string
                        (unit_name report) e])) in H5;
    [|intros; now apply save_model_ok].
  apply bind_ok in H as (d6 & [] & H6 & H). apply makedirs_ok in H6.
  apply bind_ok in H as (d7 & [] & H7 & H).
  apply (for_each_ok _ (prediction_events
           ((folder_path ++ unit_name report ++ "/") ++ "predictions/")%string
           (unit_name report))) in H7;
    [|intros x a b Hx; now apply save_predictions_ok in Hx].
  apply ret_ok in H as [<- ->]. simpl fst. simpl snd.
  split; [rewrite Hsum; now destruct summary|]. split; [reflexivity|].
  subst. rewrite flat_map_singleton. cbv zeta.
  repeat rewrite <- app_assoc. reflexivity.
Qed.

Lemma save_reports_ok folder_path avg_index std_index reports :
  forall done done' rows,
    for_collect reports (save_report env folder_path avg_index std_index) done
    = (done', Ok rows) ->
    done' = done ++ flat_map (report_events folder_path) reports
    /\ map snd rows = map summary_label reports
    /\ Forall2 (fun report row =>
                  createSummary (report_frame report) avg_index std_index = Ok (fst row))
               reports rows.
Proof.
  induction reports as [|report reports IH]; intros done done' rows H; simpl in H.
  - apply ret_ok in H as [<- ->]. simpl. rewrite app_nil_r. auto.
  - apply bind_ok in H as (d1 & row & H1 & H).
    apply bind_ok in H as (d2 & rows' & H2 & H).
    apply ret_ok in H as [<- ->].
    apply save_report_ok in H1 as (Hsum & Hlabel & ->).
    apply IH in H2 as (-> & Hlabels & Hall).
    split; [|split].
    + cbn [flat_map]. now rewrite <- app_assoc.
    + cbn [map]. now rewrite Hlabel, Hlabels.
    + now constructor.
Qed.

(** The output of a run that does not raise. *)
Lemma saveResults_ok self runs_folder metrics_names done done' :
  saveResults env self runs_folder metrics_names done = (done', Ok tt) ->
  exists (rows : list (Series * Series * string)) train_summary test_summary,
    Forall2 (fun report row =>
               createSummary (report_frame report) (avg_index_of metrics_names)
                             (std_index_of metrics_names) = Ok (fst row))
            (reports_ self) rows
    /\ concat_transpose (map (fun r => fst (fst r)) rows) = Ok train_summary
    /\ concat_transpose (map (fun r => snd (fst r)) rows) = Ok test_summary
    /\ done' = done ++ saved_events env runs_folder metrics_names self done
                                    train_summary test_summary.
Proof.
  unfold saveResults, saved_events. fold (runs_folder_of env runs_folder).
  fold (avg_index_of metrics_names) (std_index_of metrics_names).
  fold (folder_path_of env runs_folder). intros H.
  apply bind_ok in H as (d0 & seen & H0 & H). injection H0 as <- <-.
  apply bind_ok in H as (d1 & [] & H1 & H).
  assert (Hd1 : d1 = done ++ (if path_exists env done (runs_folder_of env runs_folder)
                              then [] else [Makedirs (runs_folder_of env runs_folder)])).
  { destruct (path_exists env done (runs_folder_of env runs_folder)); simpl in H1.
    - apply ret_ok in H1 as [_ ->]. now rewrite app_nil_r.
    - now apply perform_ok in H1. }
  clear H1.
  apply bind_ok in H as (d2 & [] & H2 & H). apply makedirs_ok in H2.
  apply bind_ok in H as (d3 & rows & H3 & H).
  apply save_reports_ok in H3 as (Hd3 & Hlabels & Hall).
  apply bind_ok in H as (d4 & train_summary & H4 & H). apply lift_ok in H4 as [Htr ->].
  apply bind_ok in H as (d5 & test_summary & H5 & H). apply lift_ok in H5 as [Hts ->].
  apply bind_ok in H as (d6 & [] & H6 & H). apply perform_ok in H6. apply perform_ok in H.
  exists rows, train_summary, test_summary. repeat split; auto.
  subst. rewrite Hlabels. repeat rewrite <- app_assoc. reflexivity.
Qed.

(** In a run that does not raise, every partition of every unit has
    train predictions. *)
Lemma save_report_train_present folder_path avg_index std_index report done done' row :
  save_report env folder_path avg_index std_index report done = (done', Ok row) ->
  forall entry, In entry (items (predictions_ report)) ->
  exists train, getitem (snd entry) "train" = Ok (Some train).
Proof.
  unfold save_report. intros H entry Hentry.
  apply bind_ok in H as (d1 & [] & _ & H). apply bind_ok in H as (d2 & [] & _ & H).
  apply bind_ok in H as (d3 & summary & _ & H). apply bind_ok in H as (d4 & [] & _ & H).
  apply bind_ok in H as (d5 & [] & _ & H). apply bind_ok in H as (d6 & [] & _ & H).
  apply bind_ok in H as (d7 & [] & H7 & _).
  destruct (for_each_turns _ _ _ _ H7 entry Hentry) as (s1 & s2 & Hturn).
  now apply save_predictions_ok in Hturn.
Qed.

Lemma saveResults_train_present self runs_folder metrics_names done done' :
  saveResults env self runs_folder metrics_names done = (done', Ok tt) ->
  forall report entry,
    In report (reports_ self) -> In entry (items (predictions_ report)) ->
    exists train, getitem (snd entry) "train" = Ok (Some train).
Proof.
  unfold saveResults. intros H report entry Hreport Hentry.
  apply bind_ok in H as (d0 & seen & _ & H). apply bind_ok in H as (d1 & [] & _ & H).
  apply bind_ok in H as (d2 & [] & _ & H). apply bind_ok in H as (d3 & rows & H3 & _).
  destruct (for_collect_turns _ _ _ _ _ H3 report Hreport) as (s1 & s2 & row & Hturn).
  exact (save_report_train_present _ _ _ _ _ _ _ Hturn entry Hentry).
Qed.

End SaveFacts.

(** *** Runs in an environment where no operation fails *)

Lemma bind_step {S A B} (m : M S A) (k : A -> M S B) s s1 a :
  m s = (s1, Ok a) -> bind m k s = k a s1.
Proof. unfold bind. now intros ->. Qed.

Lemma for_each_completes {A} (body : A -> M (list event) unit) (ev : A -> list event) :
  forall xs done,
    (forall x done0, In x xs -> body x done0 = (done0 ++ ev x, Ok tt)) ->
    for_each xs body done = (done ++ flat_map ev xs, Ok tt).
Proof.
  induction xs as [|x xs IH]; intros done Hbody; simpl.
  - unfold ret. now rewrite app_nil_r.
  - rewrite (bind_step _ _ _ _ _ (Hbody x done (or_introl eq_refl))).
    rewrite IH by (intros; apply Hbody; now right). now rewrite app_assoc.
Qed.

Section SaveCompletes.

Variable env : environment.
Hypothesis quiet : forall done ev, io_error env done ev = None.

Lemma perform_completes ev done : perform env ev done = (done ++ [ev], Ok tt).
Proof. unfold perform. now rewrite quiet. Qed.

Lemma makedirs_completes path done :
  makedirs_or_raise env path done = (done ++ [Makedirs path], Ok tt).
Proof. unfold makedirs_or_raise. now rewrite perform_completes. Qed.

(** The predictions of a partition are saved whenever the train labels
    are a sequence and the test entry exists. *)
Lemma save_predictions_completes predictions_folder name entry done train test :
  getitem (snd entry) "train" = Ok (Some train) ->
  getitem (snd entry) "test" = Ok test ->
  save_predictions env predictions_folder name entry done
  = (done ++ prediction_events predictions_folder name entry, Ok tt).
Proof.
  destruct entry as [part predictions]. simpl. intros Htrain Htest.
  unfold save_predictions, prediction_events. simpl fst. simpl snd.
  rewrite Htrain, Htest. unfold bind, lift. simpl savetxt.
  rewrite perform_completes. destruct test as [test|].
  - simpl savetxt. rewrite perform_completes. now rewrite <- app_assoc.
  - reflexivity.
Qed.

Lemma save_model_completes models_folder name entry done :
  save_model env models_folder name entry done
  = (done ++ [model_event models_folder name entry], Ok tt).
Proof. destruct entry as [part model]. apply perform_completes. Qed.

Lemma save_report_completes folder_path avg_index std_index report done summary :
  createSummary (report_frame report) avg_index std_index = Ok summary ->
  (forall entry, In entry (items (predictions_ report)) ->
     (exists train, getitem (snd entry) "train" = Ok (Some train))
     /\ (exists test, getitem (snd entry) "test" = Ok test)) ->
  save_report env folder_path avg_index std_index report done
  = (done ++ report_events folder_path report,
     Ok (fst summary, snd summary, summary_label report)).
Proof.
  intros Hsum Hpred. unfold save_report, report_events. fold (unit_name report).
  rewrite (bind_step _ _ _ _ _ (makedirs_completes _ _)).
  rewrite (bind_step _ _ _ _ _ (perform_completes _ _)).
  rewrite Hsum. unfold lift at 1. unfold bind at 1.
  rewrite (bind_step _ _ _ _ _ (makedirs_completes _ _)).
  assert (Hmodels : forall d,
            for_each (items (models_ report))
              (save_model env ((folder_path ++ unit_name report ++ "/") ++ "models/")%string
                          (unit_name report)) d
            = (d ++ flat_map (fun e => [model_event
                       ((folder_path ++ unit_name report ++ "/") ++ "models/")%string
                       (unit_name report) e]) (items (models_ report)), Ok tt)).
  { intros d. apply for_each_completes. intros x d0 _. apply save_model_completes. }
  rewrite (bind_step _ _ _ _ _ (Hmodels _)).
  rewrite (bind_step _ _ _ _ _ (makedirs_completes _ _)).
  assert (Hpreds : forall d,
            for_each (items (predictions_ report))
              (save_predictions env
                 ((folder_path ++ unit_name report ++ "/") ++ "predictions/")%string
                 (unit_name report)) d
            = (d ++ flat_map (prediction_events
                       ((folder_path ++ unit_name report ++ "/") ++ "predictions/")%string
                       (unit_name report)) (items (predictions_ report)), Ok tt)).
  { intros d. apply for_each_completes. intros x d0 Hx.
    destruct (Hpred x Hx) as [[train Htrain] [test Htest]].
    exact (save_predictions_completes _ _ x d0 train test Htrain Htest). }
  rewrite (bind_step _ _ _ _ _ (Hpreds _)).
  unfold ret. rewrite flat_map_singleton. cbv zeta.
  repeat rewrite <- app_assoc. reflexivity.
Qed.

Lemma save_reports_complete folder_path avg_index std_index reports : forall done,
  (forall report, In report reports ->
     is_ok (createSummary (report_frame report) avg_index std_index) = true
     /\ forall entry, In entry (items (predictions_ report)) ->
          (exists train, getitem (snd entry) "train" = Ok (Some train))
          /\ (exists test, getitem (snd entry) "test" = Ok test)) ->
  exists rows,
    for_collect reports (save_report env folder_path avg_index std_index) done
    = (done ++ flat_map (report_events folder_path) reports, Ok rows)
    /\ map snd rows = map summary_label reports.
Proof.
  induction reports as [|report reports IH]; intros done Hall; simpl.
  - exists []. unfold ret. now rewrite app_nil_r.
  - destruct (Hall report (or_introl eq_refl)) as [Hok Hpred].
    destruct (createSummary (report_frame report) avg_index std_index) as [summary|e] eqn:E;
      [|discriminate].
    rewrite (bind_step _ _ _ _ _
               (save_report_completes folder_path _ _ report done summary E Hpred)).
    destruct (IH (done ++ report_events folder_path report)
                 (fun r Hr => Hall r (or_intror Hr))) as [rows [Hrows Hlabels]].
    rewrite (bind_step _ _ _ _ _ Hrows). unfold ret.
    exists ((fst summary, snd summary, summary_label report) :: rows).
    split; [now rewrite <- app_assoc|]. simpl. now rewrite Hlabels.
Qed.

(** [saveResults] runs to its end and writes [saved_events] when the
    store holds at least one unit, every unit's table is accepted by
    [createSummary], and every partition has train predictions and a
    test entry. *)
Lemma saveResults_completes self runs_folder metrics_names done :
  reports_ self <> [] ->
  (forall report, In report (reports_ self) ->
     is_ok (createSummary (report_frame report) (avg_index_of metrics_names)
                          (std_index_of metrics_names)) = true
     /\ forall entry, In entry (items (predictions_ report)) ->
          (exists train, getitem (snd entry) "train" = Ok (Some train))
          /\ (exists test, getitem (snd entry) "test" = Ok test)) ->
  exists train_summary test_summary,
    saveResults env self runs_folder metrics_names done
    = (done ++ saved_events env runs_folder metrics_names self done
                            train_summary test_summary, Ok tt).
Proof.
  intros Hne Hall. unfold saveResults, saved_events.
  fold (runs_folder_of env runs_folder).
  fold (avg_index_of metrics_names) (std_index_of metrics_names).
  fold (folder_path_of env runs_folder).
  unfold get at 1. unfold bind at 1.
  assert (H1 : (if negb (path_exists env done (runs_folder_of env runs_folder))
                then perform env (Makedirs (runs_folder_of env runs_folder))
                else ret tt) done
               = (done ++ (if path_exists env done (runs_folder_of env runs_folder)
                           then [] else [Makedirs (runs_folder_of env runs_folder)]),
                  Ok tt)).
  { destruct (path_exists env done (runs_folder_of env runs_folder)); simpl.
    - unfold ret. now rewrite app_nil_r.
    - apply perform_completes. }
  rewrite (bind_step _ _ _ _ _ H1).
  rewrite (bind_step _ _ _ _ _ (makedirs_completes _ _)).
  destruct (save_reports_complete (folder_path_of env runs_folder)
              (avg_index_of metrics_names) (std_index_of metrics_names) (reports_ self)
              ((done ++ (if path_exists env done (runs_folder_of env runs_folder)
                         then [] else [Makedirs (runs_folder_of env runs_folder)]))
               ++ [Makedirs (folder_path_of env runs_folder)]) Hall)
    as [rows [Hrows Hlabels]].
  rewrite (bind_step _ _ _ _ _ Hrows).
  destruct rows as [|row rows].
  { destruct (reports_ self); [contradiction|discriminate]. }
  eexists. eexists. unfold lift, bind. rewrite Hlabels. cbn [concat_transpose map].
  rewrite !perform_completes.
  repeat rewrite <- app_assoc. reflexivity.
Qed.

End SaveCompletes.

Lemma concat_transpose_ok rows t :
  concat_transpose rows = Ok t -> data t = map (map snd) rows.
Proof. destruct rows; [discriminate|]. now intros [= <-]. Qed.

(** ** Properties of [saveResults] *)

(** C7 (amended).  In a run of [saveResults] that does not raise, on a
    store built by any session of calls, the train and test summary
    tables are the last two files written; both have one row per unit,
    that is one per pair of names requested, in the order in which the
    pairs were first requested; the label of a row is the dataset name
    without its leading and trailing whitespace, a hyphen, and the
    configuration name. *)
Theorem saveResults_summaries_follow_insertion_order
        env calls runs_folder metrics_names done done' :
  saveResults env (run_calls calls Results_init) runs_folder metrics_names done
  = (done', Ok tt) ->
  map unit_names (reports_ (run_calls calls Results_init)) = first_seen (requests calls)
  /\ NoDup (first_seen (requests calls))
  /\ exists earlier train_summary test_summary index,
      done' = done ++ earlier
              ++ [SummaryToCsv (folder_path_of env runs_folder ++ "/"
                                ++ "train_summary.csv")%string index train_summary;
                  SummaryToCsv (folder_path_of env runs_folder ++ "/"
                                ++ "test_summary.csv")%string index test_summary]
      /\ index = map (fun n => (strip (fst n) ++ "-" ++ snd n)%string)
                     (first_seen (requests calls))
      /\ List.length (data train_summary) = List.length (first_seen (requests calls))
      /\ List.length (data test_summary) = List.length (first_seen (requests calls)).
Proof.
  intros H.
  assert (Hnames : map unit_names (reports_ (run_calls calls Results_init))
                   = first_seen (requests calls)) by apply run_calls_names.
  split; [exact Hnames|]. split; [apply fold_see_NoDup; constructor|].
  apply saveResults_ok in H as (rows & train_summary & test_summary & Hall & Htr & Hts & ->).
  exists ((if path_exists env done (runs_folder_of env runs_folder) then []
           else [Makedirs (runs_folder_of env runs_folder)])
          ++ [Makedirs (folder_path_of env runs_folder)]
          ++ flat_map (report_events (folder_path_of env runs_folder))
                      (reports_ (run_calls calls Results_init))).
  exists train_summary, test_summary,
         (map summary_label (reports_ (run_calls calls Results_init))).
  split; [unfold saved_events; cbv zeta; now repeat rewrite <- app_assoc|].
  rewrite <- Hnames, map_map. split; [reflexivity|].
  apply concat_transpose_ok in Htr, Hts. rewrite Htr, Hts, !length_map.
  apply Forall2_length in Hall. now rewrite Hall.
Qed.

Lemma saveResults_summaries_follow_insertion_order_witness :
  map unit_names (reports_ (run_calls wine_then_iris Results_init))
  = [("wine", "cfg1"); ("iris", "cfg1")]
  /\ summary_indexes
       (fst (saveResults quiet_env (run_calls wine_then_iris Results_init)
                         "runs" ["acc"] []))
     = [["wine-cfg1"; "iris-cfg1"]; ["wine-cfg1"; "iris-cfg1"]].
Proof.
  split.
  - exact (proj1 (saveResults_summaries_follow_insertion_order quiet_env wine_then_iris
                    "runs" ["acc"] []
                    (fst (saveResults quiet_env (run_calls wine_then_iris Results_init)
                                      "runs" ["acc"] []))
                    eq_refl)).
  - reflexivity.
Defined.

(** The unit created for the dataset name [" iris"] is saved under
    [" iris-cfg1"], but its row in both summaries is labelled
    ["iris-cfg1"]. *)
Lemma saveResults_label_strips_dataset :
  map unit_names (reports_ spaced_store) = [(" iris", "cfg1")]
  /\ snd (saveResults quiet_env spaced_store "runs" ["acc"] []) = Ok tt
  /\ summary_indexes (fst (saveResults quiet_env spaced_store "runs" ["acc"] []))
     = [["iris-cfg1"]; ["iris-cfg1"]]
  /\ (" iris" ++ "-" ++ "cfg1")%string <> "iris-cfg1".
Proof.
  repeat split. discriminate.
Qed.

(** C9.  A partition whose predictions hold [None] for the test set:
    saving its predictions writes the file of its train predictions and
    nothing else, whenever the train labels are a sequence and the
    operating system lets the file be written; and in a run of
    [saveResults] that does not raise, every such partition of every unit
    has contributed exactly that one file to the output. *)
Theorem saveResults_skips_absent_test_predictions :
  (forall env predictions_folder name part (predictions : predictions_t) train done,
      getitem predictions "test" = Ok None ->
      getitem predictions "train" = Ok (Some train) ->
      io_error env done
        (Savetxt (predictions_folder ++ "train_" ++ name ++ "." ++ part)%string train)
      = None ->
      save_predictions env predictions_folder name (part, predictions) done
      = (done ++ [Savetxt (predictions_folder ++ "train_" ++ name ++ "." ++ part)%string
                          train], Ok tt))
  /\ (forall env self runs_folder metrics_names done done' report part predictions,
      saveResults env self runs_folder metrics_names done = (done', Ok tt) ->
      In report (reports_ self) ->
      In (part, predictions) (items (predictions_ report)) ->
      getitem predictions "test" = Ok None ->
      let predictions_folder :=
        ((folder_path_of env runs_folder ++ unit_name report ++ "/")
         ++ "predictions/")%string in
      exists train train_summary test_summary,
        getitem predictions "train" = Ok (Some train)
        /\ done' = done ++ saved_events env runs_folder metrics_names self done
                                        train_summary test_summary
        /\ prediction_events predictions_folder (unit_name report) (part, predictions)
           = [Savetxt (predictions_folder ++ "train_" ++ unit_name report ++ "."
                       ++ part)%string train]
        /\ In (Savetxt (predictions_folder ++ "train_" ++ unit_name report ++ "."
                        ++ part)%string train) done').
Proof.
  split.
  - intros env predictions_folder name part predictions train done Htest Htrain Hio.
    unfold save_predictions, bind, lift. rewrite Htrain. cbv beta iota.
    unfold savetxt, perform. rewrite Hio, Htest. reflexivity.
  - intros env self runs_folder metrics_names done done' report part predictions
           H Hreport Hentry Htest predictions_folder.
    destruct (saveResults_train_present _ _ _ _ _ _ H report (part, predictions)
                Hreport Hentry) as [train Htrain]. simpl in Htrain.
    apply saveResults_ok in H as (rows & train_summary & test_summary & _ & _ & _ & ->).
    exists train, train_summary, test_summary.
    assert (Hev : prediction_events predictions_folder (unit_name report)
                                    (part, predictions)
                  = [Savetxt (predictions_folder ++ "train_" ++ unit_name report ++ "."
                              ++ part)%string train]).
    { unfold prediction_events. simpl fst. simpl snd. now rewrite Htrain, Htest. }
    repeat split; auto.
    apply in_or_app. right. unfold saved_events.
    apply in_or_app. right. apply in_or_app. right. apply in_or_app. left.
    apply in_flat_map. exists report. split; [exact Hreport|].
    unfold report_events. cbv zeta.
    apply in_or_app. right. apply in_or_app. right. apply in_or_app. right.
    apply in_flat_map. exists (part, predictions). split; [exact Hentry|].
    fold predictions_folder. rewrite Hev. now left.
Qed.

Lemma saveResults_skips_absent_test_predictions_witness :
  In (Savetxt "/opt/orca/runs/exp-18-06-01-12-00-00/iris-cfg1/predictions/train_iris-cfg1.2"
              [1; 0; 2]%Z)
     (fst (saveResults quiet_env two_then_ten "runs" ["acc"] []))
  /\ prediction_events "/opt/orca/runs/exp-18-06-01-12-00-00/iris-cfg1/predictions/"
                       "iris-cfg1" ("2", train_only)
     = [Savetxt "/opt/orca/runs/exp-18-06-01-12-00-00/iris-cfg1/predictions/train_iris-cfg1.2"
                [1; 0; 2]%Z].
Proof.
  destruct (proj2 saveResults_skips_absent_test_predictions
              quiet_env two_then_ten "runs"
              ["acc"] [] (fst (saveResults quiet_env two_then_ten "runs" ["acc"] []))
              (store_partition "10" (dataframe_row [] [("acc_train", VNum 0.9);
                    ("cv_time_train", VNum 1); ("time_train", VNum 2)]
                  [("acc_test", VNum 0.75); ("cv_time_test", VNum 1);
                   ("time_test", VNum 2)]) (Estimator 10) train_and_test
                 (store_partition "2" (dataframe_row [] [("acc_train", VNum 0.8);
                    ("cv_time_train", VNum 1); ("time_train", VNum 2)]
                  [("acc_test", VNum 0.7); ("cv_time_test", VNum 1);
                   ("time_test", VNum 2)]) (Estimator 2) train_only
                    (ReportUnit_init "iris" "cfg1")))
              "2" train_only eq_refl (or_introl eq_refl) (or_introl eq_refl) eq_refl)
    as (train & _ & _ & Htrain & _ & Hev & Hin).
  injection Htrain as <-. split; [exact Hin|exact Hev].
Defined.

Lemma Forall_update_nth {A} (P : A -> Prop) (f : A -> A) (l : list A) :
  (forall x, P x -> P (f x)) -> Forall P l -> forall n, Forall P (update_nth n f l).
Proof.
  intros Hf. induction 1 as [|x l Hx Hl IH]; intros [|n]; simpl; constructor; auto.
Qed.

(** ** The summary reduction *)

Lemma rmap_ext {A B} (f g : A -> result B) xs :
  (forall x, In x xs -> f x = g x) -> rmap f xs = rmap g xs.
Proof.
  induction xs as [|x xs IH]; intros H; simpl; [reflexivity|].
  rewrite (H x) by now left. rewrite IH; [reflexivity|].
  intros y Hy. apply H. now right.
Qed.

Lemma rmap_total {A B} (g : A -> B) xs : rmap (fun x => Ok (g x)) xs = Ok (map g xs).
Proof. induction xs as [|x xs IH]; simpl; [reflexivity|]. now rewrite IH. Qed.

Lemma numbers_numeric col : Forall numeric col -> numbers col = Ok (numbers_of col).
Proof.
  induction 1 as [|v col Hv _ IH]; simpl; [reflexivity|].
  destruct v as [x| | | |]; try contradiction; rewrite IH; reflexivity.
Qed.

(** *** The column slices *)

Lemma slice_indices_train C M :
  2 * M + 4 <= C ->
  slice_indices (Z.of_nat C - Z.of_nat M * 2 - 4) (Z.of_nat C - 4) 2 C
  = map (fun k => C - 2 * M - 4 + k * 2) (seq 0 M).
Proof.
  intros H. unfold slice_indices, slice_bound.
  destruct (Z.ltb_spec (Z.of_nat C - Z.of_nat M * 2 - 4) 0); [lia|].
  destruct (Z.ltb_spec (Z.of_nat C - 4) 0); [lia|].
  replace (Z.to_nat (Z.of_nat C - Z.of_nat M * 2 - 4)) with (C - 2 * M - 4) by lia.
  replace (Z.to_nat (Z.of_nat C - 4)) with (C - 4) by lia.
  rewrite !Nat.min_l by lia.
  replace ((C - 4 - (C - 2 * M - 4) + (2 - 1)) / 2) with M; [reflexivity|].
  apply (Nat.div_unique _ 2 M 1); lia.
Qed.

Lemma slice_indices_test C M :
  2 * M + 4 <= C ->
  slice_indices (Z.of_nat C - Z.of_nat M * 2 - 4 + 1) (Z.of_nat C - 4) 2 C
  = map (fun k => C - 2 * M - 4 + 1 + k * 2) (seq 0 M).
Proof.
  intros H. unfold slice_indices, slice_bound.
  destruct (Z.ltb_spec (Z.of_nat C - Z.of_nat M * 2 - 4 + 1) 0); [lia|].
  destruct (Z.ltb_spec (Z.of_nat C - 4) 0); [lia|].
  replace (Z.to_nat (Z.of_nat C - Z.of_nat M * 2 - 4 + 1)) with (C - 2 * M - 4 + 1) by lia.
  replace (Z.to_nat (Z.of_nat C - 4)) with (C - 4) by lia.
  rewrite !Nat.min_l by lia.
  replace ((C - 4 - (C - 2 * M - 4 + 1) + (2 - 1)) / 2) with M; [reflexivity|].
  destruct M as [|M'].
  - apply (Nat.div_unique _ 2 0 1); lia.
  - apply (Nat.div_unique _ 2 (S M') 0); lia.
Qed.

(** Reducing a slice of columns reduces the selected columns of the
    table itself. *)
Lemma reduce_columns_block f df start stop base M :
  slice_indices start stop 2 (List.length (columns df))
  = map (fun k => base + k * 2) (seq 0 M) ->
  (forall i, i < M -> Forall numeric (column df (base + i * 2))) ->
  reduce_columns f (iloc_columns df start stop 2)
  = Ok (map (fun i => (nth (base + i * 2) (columns df) "",
                       f (numbers_of (column df (base + i * 2)))))
            (seq 0 M)).
Proof.
  intros Hidx Hnum. unfold reduce_columns, iloc_columns. simpl columns.
  rewrite Hidx, !length_map, length_seq. rewrite <- rmap_total.
  apply rmap_ext. intros i Hi. apply in_seq in Hi.
  assert (Hcol : column {| columns := map (fun j => nth j (columns df) "")
                                          (map (fun k => base + k * 2) (seq 0 M));
                           data := map (fun row => map (fun j => nth j row VNaN)
                                          (map (fun k => base + k * 2) (seq 0 M)))
                                       (data df) |} i
                 = column df (base + i * 2)).
  { unfold column. simpl data. rewrite map_map. apply map_ext. intros row.
    rewrite !map_map.
    rewrite (nth_indep _ VNaN (nth (base + 0 * 2) row VNaN))
      by (rewrite length_map, length_seq; lia).
    rewrite (map_nth (fun k => nth (base + k * 2) row VNaN)).
    rewrite seq_nth by lia. reflexivity. }
  rewrite Hcol, (numbers_numeric _ (Hnum i ltac:(lia))). simpl. f_equal. f_equal.
  rewrite !map_map.
  rewrite (nth_indep _ "" (nth (base + 0 * 2) (columns df) ""))
    by (rewrite length_map, length_seq; lia).
  rewrite (map_nth (fun k => nth (base + k * 2) (columns df) "")).
  rewrite seq_nth by lia. reflexivity.
Qed.

Lemma set_index_ok (s : Series) labels :
  List.length labels = List.length s ->
  set_index s labels = Ok (combine labels (map snd s)).
Proof. unfold set_index. intros ->. now rewrite Nat.eqb_refl. Qed.

(** *** The labels of a summary row *)

Lemma string_length_append s t :
  String.length (s ++ t)%string = String.length s + String.length t.
Proof. induction s as [|a s IH]; simpl; congruence. Qed.

Lemma string_append_inj_r t s1 : forall s2,
  (s1 ++ t)%string = (s2 ++ t)%string -> s1 = s2.
Proof.
  induction s1 as [|a s1 IH]; intros [|b s2] H; simpl in H.
  - reflexivity.
  - apply (f_equal String.length) in H. simpl in H.
    rewrite string_length_append in H. lia.
  - apply (f_equal String.length) in H. simpl in H.
    rewrite string_length_append in H. lia.
  - injection H as -> H. f_equal. now apply IH.
Qed.

Lemma mean_std_distinct s1 s2 : (s1 ++ "_mean")%string <> (s2 ++ "_std")%string.
Proof.
  intros H. pose proof (f_equal String.length H) as Hl.
  rewrite !string_length_append in Hl. simpl in Hl.
  pose proof (append_correct2 s1 "_mean" 4) as H1.
  pose proof (append_correct2 s2 "_std" 3) as H2.
  rewrite H in H1. replace (4 + String.length s1) with (3 + String.length s2) in H1 by lia.
  rewrite <- H2 in H1. discriminate H1.
Qed.

Lemma summary_labels_NoDup names :
  NoDup names -> NoDup (avg_index_of names ++ std_index_of names).
Proof.
  intros Hnd. unfold avg_index_of, std_index_of. apply NoDup_app.
  - induction Hnd as [|n names Hn _ IH]; simpl; constructor; [|exact IH].
    rewrite in_map_iff. intros [m [Heq Hm]]. apply string_append_inj_r in Heq. now subst.
  - induction Hnd as [|n names Hn _ IH]; simpl; constructor; [|exact IH].
    rewrite in_map_iff. intros [m [Heq Hm]]. apply string_append_inj_r in Heq. now subst.
  - intros l Hl Hs. apply in_map_iff in Hl as [n1 [<- _]].
    apply in_map_iff in Hs as [n2 [Heq _]]. symmetry in Heq.
    exact (mean_std_distinct _ _ Heq).
Qed.

Lemma filter_label_absent (s : Series) l :
  ~ In l (keys s) -> filter (fun e => String.eqb (fst e) l) s = [].
Proof.
  induction s as [|e s IH]; simpl; intros Hl; [reflexivity|].
  destruct (String.eqb_spec (fst e) l) as [Heq|_]; [tauto|]. apply IH. tauto.
Qed.

Lemma filter_label_unique (s : Series) e :
  NoDup (keys s) -> In e s -> filter (fun e' => String.eqb (fst e') (fst e)) s = [e].
Proof.
  induction s as [|e0 s IH]; simpl; intros Hnd Hin; [destruct Hin|].
  inversion Hnd as [|? ? H0 Hs]; subst. destruct Hin as [->|Hin].
  - rewrite String.eqb_refl. f_equal. now apply filter_label_absent.
  - destruct (String.eqb_spec (fst e0) (fst e)) as [Heq|_]; [|now apply IH].
    exfalso. apply H0. rewrite Heq. unfold keys. now apply in_map.
Qed.

(** Selecting by label from a series with distinct labels returns the
    entries that carry the labels, in the order asked. *)
Lemma getitem_labels_entries (s : Series) es :
  NoDup (keys s) -> Forall (fun e => In e s) es ->
  getitem_labels s (map fst es) = Ok es.
Proof.
  intros Hnd Hall. unfold getitem_labels.
  assert (H : rmap (fun l => match filter (fun e => String.eqb (fst e) l) s with
                             | [] => Raise (KeyError l)
                             | found => Ok found
                             end) (map fst es)
              = Ok (map (fun e => [e]) es)).
  { induction Hall as [|e es He _ IH]; simpl; [reflexivity|].
    rewrite (filter_label_unique s e Hnd He), IH. reflexivity. }
  rewrite H. simpl. f_equal. clear. induction es as [|e es IH]; simpl; congruence.
Qed.

Lemma keys_sum_tuples (A : Series) : forall (S : Series),
  map fst (sum_tuples (zip A S)) = sum_tuples (zip (keys A) (keys S)).
Proof.
  induction A as [|a A IH]; intros [|b S]; simpl; try reflexivity.
  now rewrite <- IH.
Qed.

Lemma sum_tuples_members (A : Series) : forall (S : Series),
  Forall (fun e => In e (A ++ S)) (sum_tuples (zip A S)).
Proof.
  induction A as [|a A IH]; intros [|b S]; simpl; try constructor.
  - now left.
  - constructor; [right; apply in_or_app; right; now left|].
    eapply Forall_impl; [|apply (IH S)]. intros e He. simpl in He. right.
    apply in_app_or in He as [He|He]; apply in_or_app; [now left|right; now right].
Qed.

Lemma keys_combine {V} (labels : list string) (vs : list V) :
  List.length labels = List.length vs -> keys (combine labels vs) = labels.
Proof.
  revert vs. induction labels as [|l labels IH]; intros [|v vs] H; simpl in *;
    try discriminate; [reflexivity|]. f_equal. apply IH. lia.
Qed.

(** The last statement of [createSummary]: means and deviations with
    distinct labels come out interleaved. *)
Lemma interleave_summary n avg std (ms ss : list value) :
  List.length avg = n -> List.length std = n ->
  List.length ms = n -> List.length ss = n -> NoDup (avg ++ std) ->
  getitem_labels (concat (combine avg ms) (combine std ss))
    (sum_tuples (zip (iloc_to_keys (concat (combine avg ms) (combine std ss)) n)
                     (iloc_from_keys (concat (combine avg ms) (combine std ss)) n)))
  = Ok (sum_tuples (zip (combine avg ms) (combine std ss))).
Proof.
  intros Havg Hstd Hms Hss Hnd. unfold concat, iloc_to_keys, iloc_from_keys.
  assert (HA : List.length (combine avg ms) = n)
    by (rewrite length_combine; lia).
  rewrite firstn_app, skipn_app, <- HA.
  rewrite firstn_all, skipn_all, Nat.sub_diag. simpl firstn. simpl skipn.
  rewrite app_nil_r. simpl app.
  rewrite <- keys_sum_tuples. apply getitem_labels_entries.
  - unfold keys. rewrite map_app. fold (keys (combine avg ms)) (keys (combine std ss)).
    now rewrite !keys_combine by lia.
  - apply sum_tuples_members.
Qed.

(** *** The value of [createSummary] on a well-formed table *)

Lemma createSummary_ok df names :
  2 * List.length names + 4 <= List.length (columns df) ->
  NoDup names ->
  numeric_block df (List.length names) ->
  createSummary df (avg_index_of names) (std_index_of names)
  = Ok (summary_of names (train_numbers df (List.length names)),
        summary_of names (test_numbers df (List.length names))).
Proof.
  intros Hlayout Hnd Hnum. unfold createSummary. cbv zeta.
  assert (Havg : List.length (avg_index_of names) = List.length names)
    by apply length_map.
  assert (Hstd : List.length (std_index_of names) = List.length names)
    by apply length_map.
  rewrite Havg, Hstd. unfold DataFrame_mean, DataFrame_std.
  set (M := List.length names) in *. set (C := List.length (columns df)) in *.
  assert (Htrain : forall i, i < M -> Forall numeric (column df (C - 2 * M - 4 + i * 2))).
  { intros i Hi. apply Hnum. unfold metric_offset. fold C. lia. }
  assert (Htest : forall i, i < M -> Forall numeric (column df (C - 2 * M - 4 + 1 + i * 2))).
  { intros i Hi. apply Hnum. unfold metric_offset. fold C. lia. }
  rewrite !(reduce_columns_block _ df _ _ _ M (slice_indices_train C M Hlayout) Htrain).
  rewrite !(reduce_columns_block _ df _ _ _ M (slice_indices_test C M Hlayout) Htest).
  cbn [rbind].
  rewrite !set_index_ok by (rewrite !length_map, length_seq; lia).
  cbn [rbind]. rewrite !map_map. cbn [snd].
  rewrite !(interleave_summary M);
    try (rewrite ?length_map, ?length_seq; lia);
    try (now apply summary_labels_NoDup); try assumption.
  cbn [rbind]. unfold summary_of, interleave_metrics, train_numbers, test_numbers,
    metric_offset. fold C M.
  do 2 f_equal.
  - do 3 f_equal; apply map_ext; intros i; do 3 f_equal; lia.
  - do 3 f_equal; apply map_ext; intros i; do 3 f_equal; lia.
Qed.

Lemma nth_error_combine {A B} (l1 : list A) : forall (l2 : list B) i a b,
  nth_error l1 i = Some a -> nth_error l2 i = Some b ->
  nth_error (combine l1 l2) i = Some (a, b).
Proof.
  induction l1 as [|x l1 IH]; intros [|y l2] [|i] a b H1 H2; simpl in *;
    try discriminate; [congruence|]. now apply IH.
Qed.

Lemma nth_error_seq_map {B} (g : nat -> B) n i :
  i < n -> nth_error (map g (seq 0 n)) i = Some (g i).
Proof.
  intros Hi. apply map_nth_error. rewrite nth_error_seq.
  destruct (Nat.ltb_spec i n); [reflexivity|lia].
Qed.

(** The entries of a summary row, by position. *)
Lemma summary_of_entries names cols i name :
  nth_error names i = Some name ->
  nth_error (summary_of names cols) (2 * i)
  = Some ((name ++ "_mean")%string, mean_of (cols i))
  /\ nth_error (summary_of names cols) (2 * i + 1)
     = Some ((name ++ "_std")%string, std_of (cols i)).
Proof.
  intros Hname. unfold summary_of.
  assert (Hi : i < List.length names) by (apply nth_error_Some; congruence).
  apply nth_error_interleave.
  - apply nth_error_combine.
    + exact (map_nth_error (fun mn => (mn ++ "_mean")%string) i names Hname).
    + exact (nth_error_seq_map (fun k => mean_of (cols k)) _ i Hi).
  - apply nth_error_combine.
    + exact (map_nth_error (fun mn => (mn ++ "_std")%string) i names Hname).
    + exact (nth_error_seq_map (fun k => std_of (cols k)) _ i Hi).
Qed.

Lemma summary_of_length names cols :
  List.length (summary_of names cols) = 2 * List.length names.
Proof.
  unfold summary_of, interleave_metrics, zip, avg_index_of, std_index_of.
  rewrite length_sum_tuples, !length_combine, !length_map, length_seq.
  now rewrite !Nat.min_id.
Qed.

Lemma summary_of_keys names cols :
  keys (summary_of names cols)
  = sum_tuples (zip (avg_index_of names) (std_index_of names)).
Proof.
  unfold summary_of, interleave_metrics, keys. rewrite keys_sum_tuples.
  rewrite !keys_combine; [reflexivity| |];
    unfold avg_index_of, std_index_of; now rewrite !length_map, length_seq.
Qed.

Lemma summary_of_ext names cols cols' :
  (forall i, i < List.length names -> cols i = cols' i) ->
  summary_of names cols = summary_of names cols'.
Proof.
  intros H. unfold summary_of.
  f_equal; f_equal; apply map_ext_in; intros i Hi; apply in_seq in Hi;
    rewrite H by lia; reflexivity.
Qed.

(** ** Properties of [createSummary] *)

(** C2 (amended).  For a table with [C] columns and [M] pairwise distinct
    metric names, where [C >= 2M + 4] and the [2M] columns before the last
    four hold numbers (or NaN), [createSummary] returns one row for train
    and one for test, each of length [2M], labelled [m_mean], [m_std] for
    each metric [m] in the order supplied; the entries for metric number
    [i] reduce column [C-2M-4+2i] in the train row and column
    [C-2M-4+2i+1] in the test row; the first [C-2M-4] columns and the last
    four have no influence on the result. *)
Theorem createSummary_layout df names :
  2 * List.length names + 4 <= List.length (columns df) ->
  NoDup names ->
  numeric_block df (List.length names) ->
  exists train test,
    createSummary df (avg_index_of names) (std_index_of names) = Ok (train, test)
    /\ List.length train = 2 * List.length names
    /\ List.length test = 2 * List.length names
    /\ keys train = sum_tuples (zip (avg_index_of names) (std_index_of names))
    /\ keys test = sum_tuples (zip (avg_index_of names) (std_index_of names))
    /\ (forall i name,
          nth_error names i = Some name ->
          let offset := List.length (columns df) - 2 * List.length names - 4 in
          nth_error train (2 * i)
          = Some ((name ++ "_mean")%string,
                  mean_of (numbers_of (column df (offset + 2 * i))))
          /\ nth_error train (2 * i + 1)
             = Some ((name ++ "_std")%string,
                     std_of (numbers_of (column df (offset + 2 * i))))
          /\ nth_error test (2 * i)
             = Some ((name ++ "_mean")%string,
                     mean_of (numbers_of (column df (offset + 2 * i + 1))))
          /\ nth_error test (2 * i + 1)
             = Some ((name ++ "_std")%string,
                     std_of (numbers_of (column df (offset + 2 * i + 1)))))
    /\ (forall df',
          List.length (columns df') = List.length (columns df) ->
          (forall j, List.length (columns df) - 2 * List.length names - 4 <= j
                     < List.length (columns df) - 4 ->
                     column df' j = column df j) ->
          createSummary df' (avg_index_of names) (std_index_of names)
          = Ok (train, test)).
Proof.
  intros Hlayout Hnd Hnum.
  exists (summary_of names (train_numbers df (List.length names))),
         (summary_of names (test_numbers df (List.length names))).
  split; [now apply createSummary_ok|].
  split; [apply summary_of_length|]. split; [apply summary_of_length|].
  split; [apply summary_of_keys|]. split; [apply summary_of_keys|]. split.
  - intros i name Hname offset.
    destruct (summary_of_entries names (train_numbers df (List.length names)) i name Hname).
    destruct (summary_of_entries names (test_numbers df (List.length names)) i name Hname).
    auto.
  - intros df' Hcols Hsame.
    assert (Hoff : metric_offset df' (List.length names)
                   = metric_offset df (List.length names))
      by (unfold metric_offset; now rewrite Hcols).
    rewrite createSummary_ok; auto.
    + f_equal. f_equal; apply summary_of_ext; intros i Hi;
        unfold train_numbers, test_numbers; rewrite Hoff, Hsame;
        try reflexivity; unfold metric_offset; lia.
    + lia.
    + intros j Hj. rewrite Hoff, Hcols in Hj. rewrite Hsame; [now apply Hnum|].
      unfold metric_offset in Hj. lia.
Qed.

Ltac numeric_cells :=
  let j := fresh "j" in let Hj := fresh "Hj" in
  intros j Hj; unfold metric_offset in Hj; simpl in Hj;
  do 12 (try (destruct j as [|j]; [try lia; simpl; repeat constructor|])); lia.

Lemma createSummary_layout_witness :
  exists train test,
    createSummary two_metric_table (avg_index_of ["acc"; "f1"]) (std_index_of ["acc"; "f1"])
    = Ok (train, test)
    /\ keys train = ["acc_mean"; "acc_std"; "f1_mean"; "f1_std"]
    /\ keys test = ["acc_mean"; "acc_std"; "f1_mean"; "f1_std"].
Proof.
  destruct (createSummary_layout two_metric_table ["acc"; "f1"]
              ltac:(simpl; lia) ltac:(distinct_keys) ltac:(numeric_cells))
    as (train & test & Hsum & _ & _ & Htrain & Htest & _).
  exists train, test. repeat split; assumption.
Defined.

(** A table one column short of the layout makes [createSummary] raise;
    on a table of three columns it reduces columns among the last four;
    with a metric name given twice its rows are longer than [2M]; a
    string among the scores makes it raise. *)
Lemma createSummary_needs_layout :
  is_ok (createSummary narrow_table (avg_index_of ["acc"]) (std_index_of ["acc"])) = false
  /\ (exists train test,
        createSummary tiny_table (avg_index_of ["acc"]) (std_index_of ["acc"])
        = Ok (train, test)
        /\ train = [("acc_mean", mean_of [1; 1]%float); ("acc_std", std_of [1; 1]%float)]
        /\ test = [("acc_mean", mean_of [2; 2]%float); ("acc_std", std_of [2; 2]%float)])
  /\ (exists train test,
        createSummary two_metric_table (avg_index_of ["acc"; "acc"])
                      (std_index_of ["acc"; "acc"]) = Ok (train, test)
        /\ List.length train = 8 /\ List.length test = 8)
  /\ is_ok (createSummary text_table (avg_index_of ["acc"]) (std_index_of ["acc"])) = false.
Proof.
  split; [reflexivity|]. split; [|split; [|reflexivity]].
  - eexists. eexists. split; [reflexivity|]. split; reflexivity.
  - eexists. eexists. split; [reflexivity|]. split; reflexivity.
Qed.

(** *** The statistics *)

(** The depth given to the pairwise summation is enough: any depth that
    is at least the length of the column gives the same sum. *)
Lemma pairwise_sum_depth : forall depth1 depth2 a,
  List.length a <= depth1 -> List.length a <= depth2 ->
  pairwise_sum depth1 a = pairwise_sum depth2 a.
Proof.
  induction depth1 as [|d1 IH]; intros depth2 a H1 H2.
  - destruct a; [|simpl in H1; lia]. destruct depth2; reflexivity.
  - destruct depth2 as [|d2].
    + destruct a; [|simpl in H2; lia]. reflexivity.
    + cbn [pairwise_sum].
      destruct (Nat.ltb_spec (List.length a) 8); [reflexivity|].
      destruct (Nat.leb_spec (List.length a) 128); [reflexivity|].
      assert (Hn2 : 0 < List.length a / 2 - (List.length a / 2) mod 8 < List.length a).
      { pose proof (Nat.mod_upper_bound (List.length a / 2) 8 ltac:(lia)).
        pose proof (Nat.Div0.div_lt_upper_bound (List.length a) 2 (List.length a) ltac:(lia)).
        assert (64 <= List.length a / 2) by (apply Nat.div_le_lower_bound; lia).
        lia. }
      f_equal; apply IH; rewrite ?length_firstn, ?length_skipn; lia.
Qed.

(** Fewer than 8 cells are added one after the other. *)
Lemma fsum_short xs :
  List.length xs < 8 -> fsum xs = (0 + fold_left PrimFloat.add xs 0)%float.
Proof.
  intros Hn. unfold fsum. f_equal.
  destruct (List.length xs) as [|depth] eqn:E at 1; cbn [pairwise_sum];
    destruct (Nat.ltb_spec (List.length xs) 8); try reflexivity; lia.
Qed.

Lemma column_length df j : List.length (column df j) = List.length (data df).
Proof. unfold column. apply length_map. Qed.

Lemma numbers_of_numbers col :
  Forall number col ->
  col = map VNum (numbers_of col)
  /\ List.length (numbers_of col) = List.length col
  /\ Forall (fun x => is_nan x = false) (numbers_of col).
Proof.
  induction 1 as [|v col Hv _ (IH1 & IH2 & IH3)]; simpl; [repeat split; constructor|].
  destruct v as [x| | | |]; try contradiction. simpl in Hv.
  split; [congruence|]. split; [congruence|]. now constructor.
Qed.

Lemma number_numeric col : Forall number col -> Forall numeric col.
Proof. apply Forall_impl. now intros []. Qed.

(** On numbers without a NaN nothing is masked. *)
Lemma count_all xs :
  Forall (fun x => is_nan x = false) xs -> count xs = List.length xs.
Proof.
  unfold count. induction 1 as [|x xs Hx _ IH]; simpl; [reflexivity|].
  rewrite Hx. simpl. now rewrite IH.
Qed.

Lemma fill_zero_all xs : Forall (fun x => is_nan x = false) xs -> fill_zero xs = xs.
Proof.
  unfold fill_zero. induction 1 as [|x xs Hx _ IH]; simpl; [reflexivity|].
  now rewrite Hx, IH.
Qed.

Lemma mean_of_mean xs :
  Forall (fun x => is_nan x = false) xs -> 1 <= List.length xs ->
  mean_of xs = VNum (mean xs).
Proof.
  intros Hxs Hn. unfold mean_of, mean. rewrite count_all, fill_zero_all by assumption.
  destruct (Nat.eqb_spec (List.length xs) 0); [lia|reflexivity].
Qed.

Lemma std_of_sample_std xs :
  Forall (fun x => is_nan x = false) xs -> 2 <= List.length xs ->
  std_of xs = VNum (sample_std xs).
Proof.
  intros Hxs Hn. unfold std_of, sample_std, mean.
  rewrite count_all, fill_zero_all by assumption.
  destruct (Nat.leb_spec (List.length xs) 1); [lia|]. do 4 f_equal.
  apply map_ext_in. intros x Hx. rewrite Forall_forall in Hxs. now rewrite (Hxs x Hx).
Qed.

Lemma std_of_undefined xs : List.length xs < 2 -> std_of xs = VNaN.
Proof.
  intros Hn. unfold std_of.
  assert (Hc : count xs <= List.length xs) by (unfold count; apply filter_length_le).
  destruct (Nat.leb_spec (count xs) 1); [reflexivity|lia].
Qed.

Lemma acc_table_eq :
  acc_table
  = {| columns := ["C"; "acc_train"; "acc_test"; "cv_time_train"; "cv_time_test";
                   "time_train"; "time_test"];
       data := [[VNum 10; VNum 0.8; VNum 0.7; VNum 1; VNum 1; VNum 2; VNum 2];
                [VNum 1; VNum 0.9; VNum 0.75; VNum 1; VNum 1; VNum 2; VNum 2];
                [VNum 10; VNum 1; VNum 0.8; VNum 1; VNum 1; VNum 2; VNum 2]] |}.
Proof. reflexivity. Qed.

(** C1 (amended).  On a table laid out for [M] pairwise distinct metric
    names ([C >= 2M + 4] columns) whose metric columns hold numbers that
    are not NaN, [createSummary] returns normally; with at least two rows,
    the entries of metric number [i] are, in binary64 arithmetic, the
    arithmetic mean and the sample standard deviation (denominator
    [n - 1]) of its train column in the train row and of its test column
    in the test row; with fewer than two rows the deviations are NaN.
    For train scores 0.8, 0.9, 1.0 and test scores 0.7, 0.75, 0.8 of one
    metric [acc] the rows are [acc_mean = 0.9, acc_std =
    0.09999999999999998] and [acc_mean = 0.75, acc_std =
    0.050000000000000044]. *)
Theorem createSummary_mean_std :
  (forall df names,
      2 * List.length names + 4 <= List.length (columns df) ->
      NoDup names ->
      number_block df (List.length names) ->
      exists train test,
        createSummary df (avg_index_of names) (std_index_of names) = Ok (train, test)
        /\ forall i name,
            nth_error names i = Some name ->
            let offset := List.length (columns df) - 2 * List.length names - 4 in
            exists xs ys,
              column df (offset + 2 * i) = map VNum xs
              /\ column df (offset + 2 * i + 1) = map VNum ys
              /\ (2 <= List.length (data df) ->
                  nth_error train (2 * i) = Some ((name ++ "_mean")%string, VNum (mean xs))
                  /\ nth_error train (2 * i + 1)
                     = Some ((name ++ "_std")%string, VNum (sample_std xs))
                  /\ nth_error test (2 * i) = Some ((name ++ "_mean")%string, VNum (mean ys))
                  /\ nth_error test (2 * i + 1)
                     = Some ((name ++ "_std")%string, VNum (sample_std ys)))
              /\ (List.length (data df) < 2 ->
                  nth_error train (2 * i + 1) = Some ((name ++ "_std")%string, VNaN)
                  /\ nth_error test (2 * i + 1) = Some ((name ++ "_std")%string, VNaN)))
  /\ createSummary acc_table (avg_index_of ["acc"]) (std_index_of ["acc"])
     = Ok ([("acc_mean", VNum 0.9); ("acc_std", VNum 0.09999999999999998)],
           [("acc_mean", VNum 0.75); ("acc_std", VNum 0.050000000000000044)]).
Proof.
  split.
  - intros df names Hlayout Hnd Hnum.
    exists (summary_of names (train_numbers df (List.length names))),
           (summary_of names (test_numbers df (List.length names))).
    split.
    { apply createSummary_ok; auto. intros j Hj. apply number_numeric. now apply Hnum. }
    intros i name Hname offset.
    assert (Hi : i < List.length names) by (apply nth_error_Some; congruence).
    exists (train_numbers df (List.length names) i),
           (test_numbers df (List.length names) i).
    destruct (numbers_of_numbers (column df (offset + 2 * i))) as (Hxs & Hlx & Hnx).
    { apply Hnum. unfold metric_offset. fold offset. lia. }
    destruct (numbers_of_numbers (column df (offset + 2 * i + 1))) as (Hys & Hly & Hny).
    { apply Hnum. unfold metric_offset. fold offset. lia. }
    rewrite column_length in Hlx, Hly.
    destruct (summary_of_entries names (train_numbers df (List.length names)) i name Hname)
      as [Htm Hts].
    destruct (summary_of_entries names (test_numbers df (List.length names)) i name Hname)
      as [Hsm Hss].
    unfold train_numbers, test_numbers, metric_offset in *. fold offset in Htm, Hts, Hsm, Hss |- *.
    split; [exact Hxs|]. split; [exact Hys|]. split.
    + intros Hrows.
      rewrite <- (mean_of_mean (numbers_of (column df (offset + 2 * i)))) by (auto; lia).
      rewrite <- (std_of_sample_std (numbers_of (column df (offset + 2 * i))))
        by (auto; lia).
      rewrite <- (mean_of_mean (numbers_of (column df (offset + 2 * i + 1))))
        by (auto; lia).
      rewrite <- (std_of_sample_std (numbers_of (column df (offset + 2 * i + 1))))
        by (auto; lia).
      auto.
    + intros Hrows.
      rewrite <- (std_of_undefined (numbers_of (column df (offset + 2 * i)))) at 1 by lia.
      rewrite <- (std_of_undefined (numbers_of (column df (offset + 2 * i + 1)))) by lia.
      auto.
  - rewrite acc_table_eq. vm_compute. reflexivity.
Qed.

Lemma createSummary_mean_std_witness :
  exists train test,
    createSummary two_metric_table (avg_index_of ["acc"; "f1"]) (std_index_of ["acc"; "f1"])
    = Ok (train, test)
    /\ nth_error train 3 = Some ("f1_std", VNum (sample_std [0.6; 0.7]%float))
    /\ nth_error test 2 = Some ("f1_mean", VNum (mean [0.5; 0.6]%float)).
Proof.
  destruct (proj1 createSummary_mean_std two_metric_table ["acc"; "f1"]
              ltac:(simpl; lia) ltac:(distinct_keys) ltac:(numeric_cells))
    as (train & test & Hsum & Hstats).
  destruct (Hstats 1 "f1" eq_refl) as (xs & ys & Hxs & Hys & Hmany & _).
  destruct (Hmany ltac:(simpl; lia)) as (_ & Hstd & Hmean & _).
  exists train, test. split; [exact Hsum|].
  assert (Ex : xs = [0.6; 0.7]%float).
  { simpl in Hxs. destruct xs as [|x1 [|x2 [|x3 xs]]]; try discriminate.
    now injection Hxs as <- <-. }
  assert (Ey : ys = [0.5; 0.6]%float).
  { simpl in Hys. destruct ys as [|y1 [|y2 [|y3 ys]]]; try discriminate.
    now injection Hys as <- <-. }
  subst xs ys. split; [exact Hstd|exact Hmean].
Defined.

(** Where the claim fails.  A unit without any recorded partition has a
    table without rows and without columns: [createSummary] raises on it,
    and so does the run of [saveResults] that reaches it.  For the scores
    0.8, 0.9, 1.0 and 0.7, 0.75, 0.8 the deviations returned are not the
    floats 0.1 and 0.05: one is below 0.1, the other above 0.05.  A table
    of two rows that is one column short of the layout, or has a string
    among its scores, makes [createSummary] raise; with a NaN among the
    two train scores the train deviation is NaN; with a metric name given
    twice a row has four entries for it. *)
Lemma createSummary_mean_std_limits :
  reports_ unrecorded_store = [ReportUnit_init "iris" "cfg1"]
  /\ report_frame (ReportUnit_init "iris" "cfg1") = {| columns := []; data := [] |}
  /\ createSummary (report_frame (ReportUnit_init "iris" "cfg1"))
                   (avg_index_of ["acc"]) (std_index_of ["acc"])
     = Raise (ValueError "Length mismatch")
  /\ snd (saveResults quiet_env unrecorded_store "runs" ["acc"] [])
     = Raise (ValueError "Length mismatch")
  /\ createSummary acc_table (avg_index_of ["acc"]) (std_index_of ["acc"])
     <> Ok ([("acc_mean", VNum 0.9); ("acc_std", VNum 0.1)],
            [("acc_mean", VNum 0.75); ("acc_std", VNum 0.05)])
  /\ (exists s t,
        createSummary acc_table (avg_index_of ["acc"]) (std_index_of ["acc"])
        = Ok ([("acc_mean", VNum 0.9); ("acc_std", VNum s)],
              [("acc_mean", VNum 0.75); ("acc_std", VNum t)])
        /\ (s <? 0.1)%float = true /\ (0.05 <? t)%float = true)
  /\ List.length (data narrow_table) = 2
  /\ is_ok (createSummary narrow_table (avg_index_of ["acc"]) (std_index_of ["acc"])) = false
  /\ List.length (data text_table) = 2
  /\ is_ok (createSummary text_table (avg_index_of ["acc"]) (std_index_of ["acc"])) = false
  /\ List.length (data gap_table) = 2
  /\ (exists test,
        createSummary gap_table (avg_index_of ["acc"]) (std_index_of ["acc"])
        = Ok ([("acc_mean", VNum 0.8); ("acc_std", VNaN)], test))
  /\ (exists train test,
        createSummary two_metric_table (avg_index_of ["acc"; "acc"])
                      (std_index_of ["acc"; "acc"]) = Ok (train, test)
        /\ keys train = ["acc_mean"; "acc_mean"; "acc_std"; "acc_std";
                         "acc_mean"; "acc_mean"; "acc_std"; "acc_std"]).
Proof.
  do 4 (split; [reflexivity|]).
  assert (Hacc : createSummary acc_table (avg_index_of ["acc"]) (std_index_of ["acc"])
                 = Ok ([("acc_mean", VNum 0.9); ("acc_std", VNum 0.09999999999999998)],
                       [("acc_mean", VNum 0.75); ("acc_std", VNum 0.050000000000000044)]))
    by (vm_compute; reflexivity).
  split.
  { rewrite Hacc. intros H.
    apply (f_equal (fun r => match r with
                             | Ok ([_; (_, VNum s)], _) => (s <? 0.1)%float
                             | _ => false
                             end)) in H.
    vm_compute in H. discriminate H. }
  split.
  { exists 0.09999999999999998%float, 0.050000000000000044%float.
    split; [exact Hacc|]. split; reflexivity. }
  do 4 (split; [reflexivity|]). split; [reflexivity|].
  split; [eexists; vm_compute; reflexivity|].
  eexists. eexists. split; reflexivity.
Qed.

(** ** Further properties of [addRecord] *)

Lemma nth_error_update_nth_other {A} (f : A -> A) (l : list A) : forall n m,
  n <> m -> nth_error (update_nth n f l) m = nth_error l m.
Proof.
  induction l as [|x l IH]; intros [|n] [|m] H; simpl; auto; try congruence.
Qed.

Lemma lookup_getReportUnit_other self d c d' c' :
  (d', c') <> (d, c) ->
  lookup_unit (fst (getReportUnit d c self)) d' c' = lookup_unit self d' c'.
Proof.
  intros Hne. destruct (find_report (reports_ self) d c 0) as [i|] eqn:E.
  - now rewrite (getReportUnit_hit _ _ _ _ E).
  - rewrite (getReportUnit_miss _ _ _ E). unfold lookup_unit. simpl reports_.
    rewrite find_report_app.
    destruct (find_report (reports_ self) d' c' 0) as [j|] eqn:E'.
    + destruct (find_report_Some _ _ _ _ E') as [ru [Hnth _]].
      rewrite nth_error_app1; [reflexivity|]. apply nth_error_Some. congruence.
    + simpl. destruct (String.eqb_spec d d') as [->|Hd]; simpl; [|reflexivity].
      destruct (String.eqb_spec c c') as [->|Hc]; [congruence|reflexivity].
Qed.

Lemma lookup_update_other rs d c d' c' i f :
  find_report rs d c 0 = Some i ->
  (forall ru, unit_names (f ru) = unit_names ru) ->
  (d', c') <> (d, c) ->
  lookup_unit {| reports_ := update_nth i f rs |} d' c'
  = lookup_unit {| reports_ := rs |} d' c'.
Proof.
  intros Hi Hf Hne. unfold lookup_unit. simpl reports_.
  rewrite (find_report_ext (update_nth i f rs) rs d' c') by now apply map_update_nth.
  destruct (find_report rs d' c' 0) as [j|] eqn:E; [|reflexivity].
  apply nth_error_update_nth_other. intros ->.
  destruct (find_report_Some _ _ _ _ Hi) as [ru [Hnth Hn]].
  destruct (find_report_Some _ _ _ _ E) as [ru' [Hnth' Hn']]. congruence.
Qed.

(** A configuration without the dataset name, or without the
    configuration name, makes [addRecord] raise [KeyError] before it
    touches the store. *)
Theorem addRecord_incomplete_configuration p bp bm cfg ms ps self :
  (contains cfg "dataset" = false ->
   addRecord p bp bm cfg ms ps self = (self, Raise (KeyError "dataset")))
  /\ (contains cfg "dataset" = true -> contains cfg "config" = false ->
      addRecord p bp bm cfg ms ps self = (self, Raise (KeyError "config"))).
Proof.
  split.
  - intros Hd. rewrite addRecord_eq. now rewrite (getitem_contains _ _ Hd).
  - intros Hd Hc. rewrite addRecord_eq.
    destruct (getitem_present _ _ Hd) as [d ->]. now rewrite (getitem_contains _ _ Hc).
Qed.

Lemma addRecord_incomplete_configuration_witness :
  addRecord (PInt 0) nested_params (Estimator 0) [("dataset", "iris")]
            suffixed_metrics train_only two_then_ten
  = (two_then_ten, Raise (KeyError "config")).
Proof.
  exact (proj2 (addRecord_incomplete_configuration (PInt 0) nested_params (Estimator 0)
                  [("dataset", "iris")] suffixed_metrics train_only two_then_ten)
               eq_refl eq_refl).
Defined.

(** When [addRecord] raises, the exception is a [KeyError] and every unit
    of the store is as it was: the store is unchanged, or has gained one
    empty unit for a pair of names it did not hold. *)
Theorem addRecord_failure_keeps_records p bp bm cfg ms ps self e :
  snd (addRecord p bp bm cfg ms ps self) = Raise e ->
  (exists k, e = KeyError k)
  /\ (fst (addRecord p bp bm cfg ms ps self) = self
      \/ exists d c,
          ~ In (d, c) (map unit_names (reports_ self))
          /\ reports_ (fst (addRecord p bp bm cfg ms ps self))
             = reports_ self ++ [ReportUnit_init d c]).
Proof.
  rewrite addRecord_eq.
  assert (Hkey : forall V (m : dict V) k e0, getitem m k = Raise e0 -> e0 = KeyError k).
  { intros V m k e0. induction m as [|[k' v] m IH]; simpl; [now intros [= <-]|].
    destruct (k' =? k)%string; [discriminate|exact IH]. }
  destruct (getitem cfg "dataset") as [d|e1] eqn:Ed.
  2:{ simpl. intros [= <-]. split; [eexists; exact (Hkey _ _ _ _ Ed)|now left]. }
  destruct (getitem cfg "config") as [c|e1] eqn:Ec.
  2:{ simpl. intros [= <-]. split; [eexists; exact (Hkey _ _ _ _ Ec)|now left]. }
  cbv zeta. destruct (getReportUnit_found self d c) as [i [-> _]].
  assert (Hstore : fst (getReportUnit d c self) = self
                   \/ exists d0 c0,
                       ~ In (d0, c0) (map unit_names (reports_ self))
                       /\ reports_ (fst (getReportUnit d c self))
                          = reports_ self ++ [ReportUnit_init d0 c0]).
  { destruct (find_report (reports_ self) d c 0) as [j|] eqn:E.
    - left. now rewrite (getReportUnit_hit _ _ _ _ E).
    - right. exists d, c. rewrite (getReportUnit_miss _ _ _ E).
      split; [now apply find_report_None|reflexivity]. }
  destruct (getitem ms "train") as [tr|e1] eqn:Etr.
  2:{ simpl. intros [= <-]. split; [eexists; exact (Hkey _ _ _ _ Etr)|exact Hstore]. }
  destruct (getitem ms "test") as [ts|e1] eqn:Ets.
  2:{ simpl. intros [= <-]. split; [eexists; exact (Hkey _ _ _ _ Ets)|exact Hstore]. }
  discriminate.
Qed.

Lemma addRecord_failure_keeps_records_witness :
  (exists k, KeyError "train" = KeyError k)
  /\ (fst (addRecord (PInt 5) nested_params (Estimator 0) wine_cfg1
                     [("test", [])] train_only two_then_ten) = two_then_ten
      \/ exists d c,
          ~ In (d, c) (map unit_names (reports_ two_then_ten))
          /\ reports_ (fst (addRecord (PInt 5) nested_params (Estimator 0) wine_cfg1
                                      [("test", [])] train_only two_then_ten))
             = reports_ two_then_ten ++ [ReportUnit_init d c]).
Proof.
  exact (addRecord_failure_keeps_records (PInt 5) nested_params (Estimator 0) wine_cfg1
           [("test", [])] train_only two_then_ten (KeyError "train") eq_refl).
Defined.

Lemma addRecord_frame p bp bm cfg ms ps self d c d' c' :
  getitem cfg "dataset" = Ok d -> getitem cfg "config" = Ok c ->
  (d', c') <> (d, c) ->
  lookup_unit (fst (addRecord p bp bm cfg ms ps self)) d' c' = lookup_unit self d' c'.
Proof.
  intros Hd Hc Hne. rewrite addRecord_eq, Hd, Hc. cbv zeta.
  destruct (getReportUnit_found self d c) as [i [Hi Hfind]]. rewrite Hi.
  pose proof (lookup_getReportUnit_other self d c d' c' Hne) as Hother.
  destruct (getitem ms "train"); [|exact Hother].
  destruct (getitem ms "test"); [|exact Hother]. simpl fst.
  rewrite (lookup_update_other _ d c d' c' i _ Hfind) by (reflexivity || assumption).
  rewrite <- Hother. unfold lookup_unit. reflexivity.
Qed.

(** Whatever its outcome, a call of [addRecord] for one pair of names
    leaves the unit of every other pair exactly as it was. *)
Theorem addRecord_other_units_untouched p bp bm cfg ms ps self d c d' c' :
  getitem cfg "dataset" = Ok d -> getitem cfg "config" = Ok c ->
  (d', c') <> (d, c) ->
  lookup_unit (fst (addRecord p bp bm cfg ms ps self)) d' c' = lookup_unit self d' c'.
Proof. apply addRecord_frame. Qed.

Lemma addRecord_other_units_untouched_witness :
  lookup_unit (fst (addRecord (PInt 2) nested_params (Estimator 9) wine_cfg1
                              suffixed_metrics train_only two_then_ten))
              "iris" "cfg1"
  = lookup_unit two_then_ten "iris" "cfg1".
Proof.
  exact (addRecord_other_units_untouched (PInt 2) nested_params (Estimator 9) wine_cfg1
           suffixed_metrics train_only two_then_ten "wine" "cfg1" "iris" "cfg1"
           eq_refl eq_refl ltac:(discriminate)).
Defined.

(** The first record of a partition goes behind the records the unit
    already holds: row, model and predictions are appended under the new
    key, and nothing already recorded changes. *)
Theorem addRecord_new_partition_appended p bp bm cfg ms ps self d c tr ts old :
  getitem cfg "dataset" = Ok d -> getitem cfg "config" = Ok c ->
  getitem ms "train" = Ok tr -> getitem ms "test" = Ok ts ->
  lookup_unit self d c = Some old ->
  ~ In (str p) (keys (df_ old)) ->
  ~ In (str p) (keys (models_ old)) ->
  ~ In (str p) (keys (predictions_ old)) ->
  exists new,
    lookup_unit (fst (addRecord p bp bm cfg ms ps self)) d c = Some new
    /\ df_ new = df_ old ++ [(str p, dataframe_row bp tr ts)]
    /\ models_ new = models_ old ++ [(str p, bm)]
    /\ predictions_ new = predictions_ old ++ [(str p, ps)].
Proof.
  intros Hd Hc Htr Hts Hold Hrow Hmodel Hpred.
  destruct (addRecord_stores p bp bm cfg ms ps self d c tr ts Hd Hc Htr Hts)
    as [ru [Hru [_ [_ Hlook]]]].
  assert (Hsame : fst (getReportUnit d c self) = self).
  { unfold lookup_unit in Hold.
    destruct (find_report (reports_ self) d c 0) as [i|] eqn:E; [|discriminate].
    now rewrite (getReportUnit_hit _ _ _ _ E). }
  rewrite Hsame in Hru. assert (ru = old) by congruence. subst ru.
  eexists. split; [exact Hlook|]. simpl.
  now rewrite !setitem_fresh by assumption.
Qed.

Lemma addRecord_new_partition_appended_witness :
  exists new,
    lookup_unit (fst (addRecord (PInt 3) [] (Estimator 3) iris_cfg1
                                (timed_metrics 1 0.8) train_only two_then_ten))
                "iris" "cfg1" = Some new
    /\ keys (df_ new) = ["2"; "10"; "3"]
    /\ keys (models_ new) = ["2"; "10"; "3"]
    /\ keys (predictions_ new) = ["2"; "10"; "3"].
Proof.
  destruct (addRecord_new_partition_appended (PInt 3) [] (Estimator 3) iris_cfg1
              (timed_metrics 1 0.8) train_only two_then_ten "iris" "cfg1"
              [("acc_train", VNum 1); ("cv_time_train", VNum 1); ("time_train", VNum 2)]
              [("acc_test", VNum 0.8); ("cv_time_test", VNum 1); ("time_test", VNum 2)]
              _ eq_refl eq_refl eq_refl eq_refl eq_refl
              ltac:(simpl; intuition discriminate) ltac:(simpl; intuition discriminate)
              ltac:(simpl; intuition discriminate))
    as (new & Hnew & Hdf & Hmodels & Hpreds).
  exists new. split; [exact Hnew|]. rewrite Hdf, Hmodels, Hpreds. repeat split.
Defined.



(** *** What every unit of a store keeps *)

Lemma keys_setitem_same_keys {V W} (d1 : dict V) : forall (d2 : dict W) k v w,
  keys d1 = keys d2 -> keys (setitem d1 k v) = keys (setitem d2 k w).
Proof.
  induction d1 as [|[k1 v1] d1 IH]; intros [|[k2 w2] d2] k v w H; simpl in *;
    try discriminate; [reflexivity|].
  injection H as -> H. destruct (k2 =? k)%string; simpl; f_equal; auto.
Qed.

Lemma Forall_setitem {V} (P : string * V -> Prop) (d : dict V) k v :
  (forall k', P (k', v)) -> Forall P d -> Forall P (setitem d k v).
Proof.
  intros Hv. induction 1 as [|[k0 v0] d H0 Hd IH]; simpl.
  - repeat constructor. apply Hv.
  - destruct (k0 =? k)%string; constructor; auto.
Qed.

Lemma getReportUnit_consistent self d c :
  Forall unit_consistent (reports_ self) ->
  Forall unit_consistent (reports_ (fst (getReportUnit d c self))).
Proof.
  intros H. unfold getReportUnit.
  destruct (find_report (reports_ self) d c 0); simpl; [exact H|].
  apply Forall_app. split; [exact H|]. repeat constructor.
Qed.

Lemma run_calls_consistent calls : forall self,
  Forall unit_consistent (reports_ self) ->
  Forall unit_consistent (reports_ (run_calls calls self)).
Proof.
  induction calls as [|cl calls IH]; intros self Hself; simpl; [exact Hself|].
  apply IH. destruct cl as [d c|p bp bm cfg ms ps]; simpl.
  - now apply getReportUnit_consistent.
  - rewrite addRecord_eq.
    destruct (getitem cfg "dataset") as [d|e]; [|exact Hself].
    destruct (getitem cfg "config") as [c|e]; [|exact Hself].
    pose proof (getReportUnit_consistent self d c Hself) as H1. cbv zeta.
    destruct (snd (getReportUnit d c self)); [|exact H1].
    destruct (getitem ms "train") as [tr|]; [|exact H1].
    destruct (getitem ms "test") as [ts|]; [|exact H1].
    simpl. apply Forall_update_nth; [|exact H1].
    intros ru (Hm & Hp & Hnd & Hrows). unfold unit_consistent. simpl.
    split; [now apply keys_setitem_same_keys|].
    split; [now apply keys_setitem_same_keys|].
    split; [now apply NoDup_keys_setitem|].
    apply Forall_setitem; [|exact Hrows].
    intros k'. simpl. rewrite dataframe_row_update. apply NoDup_keys_update. constructor.
Qed.

(** In a store built by any session of calls, every unit holds a model
    and predictions for exactly the partitions it holds a row for, in the
    same order, each partition once, and no row names a column twice. *)
Theorem session_units_consistent calls :
  Forall unit_consistent (reports_ (run_calls calls Results_init)).
Proof. apply run_calls_consistent. constructor. Qed.

(** ** The table of a unit whose rows have the same columns *)

Lemma existsb_eqb_In k l : existsb (String.eqb k) l = true <-> In k l.
Proof.
  rewrite existsb_exists. split.
  - intros [x [Hx Heq]]. apply String.eqb_eq in Heq. now subst.
  - intros H. exists k. split; [exact H|apply String.eqb_refl].
Qed.

Lemma add_new_keys_known (r : dict value) cols :
  incl (keys r) cols -> add_new_keys cols r = cols.
Proof.
  unfold add_new_keys. induction (keys r) as [|k ks IH]; intros Hincl; simpl;
    [reflexivity|].
  assert (Hk : existsb (String.eqb k) cols = true)
    by (apply existsb_eqb_In, Hincl; now left).
  rewrite Hk. apply IH. intros x Hx. apply Hincl. now right.
Qed.

Lemma add_new_keys_first (r : dict value) :
  NoDup (keys r) -> add_new_keys [] r = keys r.
Proof.
  unfold add_new_keys.
  assert (H : forall ks acc, NoDup (acc ++ ks) ->
            fold_left (fun acc k => if existsb (String.eqb k) acc then acc else acc ++ [k])
                      ks acc = acc ++ ks).
  { induction ks as [|k ks IH]; intros acc Hnd; simpl; [now rewrite app_nil_r|].
    destruct (existsb (String.eqb k) acc) eqn:E.
    - apply existsb_eqb_In in E. apply NoDup_remove_2 in Hnd. exfalso. apply Hnd.
      apply in_or_app. now left.
    - rewrite IH; rewrite <- app_assoc; [reflexivity|exact Hnd]. }
  intros Hnd. now rewrite H.
Qed.

Lemma getitem_In {V} (d : dict V) k v :
  NoDup (keys d) -> In (k, v) d -> getitem d k = Ok v.
Proof.
  induction d as [|[k0 v0] d IH]; simpl; intros Hnd Hin; [destruct Hin|].
  inversion Hnd as [|? ? Hk0 Hd]; subst.
  destruct Hin as [[= -> ->]|Hin]; [now rewrite String.eqb_refl|].
  destruct (String.eqb_spec k0 k) as [->|_]; [|now apply IH].
  exfalso. apply Hk0. unfold keys. change k with (fst (k, v)). now apply in_map.
Qed.

Lemma cells_of_own_keys (r : dict value) :
  NoDup (keys r) -> map (cell r) (keys r) = map snd r.
Proof.
  intros Hnd. unfold keys. rewrite map_map. apply map_ext_in.
  intros [k v] Hin. unfold cell. simpl. now rewrite (getitem_In r k v Hnd Hin).
Qed.

Lemma DataFrame_of_uniform_records records cols :
  records <> [] -> NoDup cols ->
  (forall r, In r records -> keys r = cols) ->
  DataFrame_of_records records = {| columns := cols; data := map (map snd) records |}.
Proof.
  intros Hne Hnd Hall. unfold DataFrame_of_records.
  assert (Hcols : fold_left add_new_keys records [] = cols).
  { destruct records as [|r0 records]; [contradiction|]. simpl.
    rewrite add_new_keys_first by (rewrite (Hall r0) by (now left); exact Hnd).
    rewrite (Hall r0) by now left.
    assert (H : forall rs, (forall r, In r rs -> keys r = cols) ->
                           fold_left add_new_keys rs cols = cols).
    { induction rs as [|r rs IH]; intros Hrs; simpl; [reflexivity|].
      rewrite add_new_keys_known by (rewrite (Hrs r) by (now left); apply incl_refl).
      apply IH. intros r' Hr'. apply Hrs. now right. }
    apply H. intros r Hr. apply Hall. now right. }
  rewrite Hcols. f_equal. apply map_ext_in. intros r Hr.
  rewrite <- (Hall r Hr). apply cells_of_own_keys. now rewrite (Hall r Hr).
Qed.

(** When all the rows of a unit have the same column names in the same
    order, the table has exactly these columns, and its rows are the
    stored values, one row per partition in sorted key order, with no
    cell filled in.  The table always has as many rows as the unit has
    partitions. *)
Theorem report_frame_of_uniform_rows report cols :
  df_ report <> [] -> NoDup cols ->
  (forall entry, In entry (df_ report) -> keys (snd entry) = cols) ->
  columns (report_frame report) = cols
  /\ data (report_frame report)
     = map (fun entry => map snd (snd entry)) (sorted (items (df_ report)))
  /\ List.length (data (report_frame report)) = List.length (df_ report).
Proof.
  intros Hne Hnd Hall. unfold report_frame.
  rewrite (DataFrame_of_uniform_records _ cols).
  - simpl. rewrite map_map. split; [reflexivity|]. split; [reflexivity|].
    rewrite length_map. apply Permutation_length, sorted_perm.
  - intros Hnil. apply map_eq_nil in Hnil.
    pose proof (sorted_perm (items (df_ report))) as Hp. rewrite Hnil in Hp.
    apply Permutation_nil in Hp. exact (Hne Hp).
  - exact Hnd.
  - intros r Hr. apply in_map_iff in Hr as [entry [<- Hentry]]. apply Hall.
    exact (Permutation_in _ (sorted_perm _) Hentry).
Qed.

Lemma report_frame_of_uniform_rows_witness :
  columns (report_frame (nth 0 (reports_ two_then_ten) (ReportUnit_init "" "")))
  = ["acc_train"; "acc_test"; "cv_time_train"; "cv_time_test"; "time_train"; "time_test"]
  /\ List.length (data (report_frame (nth 0 (reports_ two_then_ten)
                                          (ReportUnit_init "" "")))) = 2.
Proof.
  destruct (report_frame_of_uniform_rows
              (nth 0 (reports_ two_then_ten) (ReportUnit_init "" ""))
              ["acc_train"; "acc_test"; "cv_time_train"; "cv_time_test";
               "time_train"; "time_test"]
              ltac:(discriminate) ltac:(distinct_keys)
              ltac:(intros entry [<-|[<-|[]]]; reflexivity))
    as (Hcols & _ & Hlen).
  split; [exact Hcols|exact Hlen].
Defined.

(** ** The table of a unit, row by row *)

Lemma add_new_keys_spec (r : dict value) : forall cols,
  (exists extra, add_new_keys cols r = cols ++ extra)
  /\ (NoDup cols -> NoDup (add_new_keys cols r))
  /\ (forall c, In c (add_new_keys cols r) <-> In c cols \/ In c (keys r)).
Proof.
  unfold add_new_keys. induction (keys r) as [|k ks IH]; intros cols; simpl.
  - split; [exists []; now rewrite app_nil_r|]. split; [auto|]. intros c. tauto.
  - destruct (existsb (String.eqb k) cols) eqn:E.
    + destruct (IH cols) as (Hext & Hnd & Hin). split; [exact Hext|].
      split; [exact Hnd|]. intros c. rewrite Hin.
      apply existsb_eqb_In in E. intuition (subst; auto).
    + destruct (IH (cols ++ [k])) as ([extra Hext] & Hnd & Hin). split.
      { exists (k :: extra). rewrite Hext, <- app_assoc. reflexivity. }
      split.
      { intros Hcols. apply Hnd. apply NoDup_app; [exact Hcols|repeat constructor; simpl; tauto|].
        intros x Hx [<-|[]]. apply existsb_eqb_In in Hx. congruence. }
      intros c. rewrite Hin, in_app_iff. simpl. tauto.
Qed.

Lemma fold_add_new_keys_spec (records : list (dict value)) : forall cols,
  (exists extra, fold_left add_new_keys records cols = cols ++ extra)
  /\ (NoDup cols -> NoDup (fold_left add_new_keys records cols))
  /\ (forall c, In c (fold_left add_new_keys records cols)
                <-> In c cols \/ exists r, In r records /\ In c (keys r)).
Proof.
  induction records as [|r records IH]; intros cols; simpl.
  - split; [exists []; now rewrite app_nil_r|]. split; [auto|].
    intros c. split; [auto|]. intros [H|[r [[] _]]]. exact H.
  - destruct (add_new_keys_spec r cols) as ([e1 He1] & Hnd1 & Hin1).
    destruct (IH (add_new_keys cols r)) as ([e2 He2] & Hnd2 & Hin2). split.
    { exists (e1 ++ e2). rewrite He2, He1, <- app_assoc. reflexivity. }
    split; [auto|]. intros c. rewrite Hin2, Hin1. split.
    + intros [[H|H]|[r' [Hr' Hc]]]; [now left|right; exists r; auto|right; exists r'; auto].
    + intros [H|[r' [[<-|Hr'] Hc]]]; [auto|auto|right; exists r'; auto].
Qed.

Lemma cell_present (r : dict value) c v :
  NoDup (keys r) -> In (c, v) r -> cell r c = v.
Proof. intros Hnd Hin. unfold cell. now rewrite (getitem_In r c v Hnd Hin). Qed.

Lemma cell_absent (r : dict value) c : ~ In c (keys r) -> cell r c = VNaN.
Proof.
  intros Hc. unfold cell. rewrite getitem_contains; [reflexivity|].
  destruct (contains r c) eqn:E; [|reflexivity]. apply contains_In in E. contradiction.
Qed.

(** C10.  The table [saveResults] builds for a unit of a store built by
    any session of calls has one row per partition, taken in strictly
    ascending order of the partition keys compared as strings.  Its
    columns are the names used in the rows of the unit, each once, those
    of the first row first and in its order.  Row number [i] holds the
    values recorded for the partition that comes at place [i] in that
    order, each under its column, and NaN under a column the partition
    has no value for.  The table is the same whatever the order in which
    the partitions were recorded; and it is this table that is written to
    the unit's CSV file and passed to [createSummary]. *)
Theorem report_frame_sorted_by_partition_key calls report :
  In report (reports_ (run_calls calls Results_init)) ->
  exists rows,
    rows = sorted (items (df_ report))
    /\ Permutation rows (items (df_ report))
    /\ StronglySorted key_lt rows
    /\ report_frame report = DataFrame_of_records (map snd rows)
    /\ data (report_frame report)
       = map (fun r => map (cell r) (columns (report_frame report))) (map snd rows)
    /\ List.length (data (report_frame report)) = List.length (df_ report)
    /\ NoDup (columns (report_frame report))
    /\ (forall c, In c (columns (report_frame report))
                  <-> exists key record, In (key, record) (df_ report) /\ In c (keys record))
    /\ (forall key record rest,
          rows = (key, record) :: rest ->
          firstn (List.length record) (columns (report_frame report)) = keys record)
    /\ (forall i key record,
          nth_error rows i = Some (key, record) ->
          exists cells,
            nth_error (data (report_frame report)) i = Some cells
            /\ List.length cells = List.length (columns (report_frame report))
            /\ forall j c,
                 nth_error (columns (report_frame report)) j = Some c ->
                 (forall v, In (c, v) record -> nth_error cells j = Some v)
                 /\ (~ In c (keys record) -> nth_error cells j = Some VNaN))
    /\ (forall report',
          Permutation (items (df_ report')) (items (df_ report)) ->
          report_frame report' = report_frame report)
    /\ (forall env folder_path avg_index std_index done done' row,
          save_report env folder_path avg_index std_index report done = (done', Ok row) ->
          In (ToCsv ((folder_path ++ unit_name report ++ "/")
                     ++ unit_name report ++ ".csv")%string (report_frame report)) done'
          /\ createSummary (report_frame report) avg_index std_index = Ok (fst row)).
Proof.
  intros Hin.
  assert (Hunit : unit_consistent report).
  { pose proof (run_calls_consistent calls Results_init (Forall_nil _)) as Hall.
    rewrite Forall_forall in Hall. now apply Hall. }
  destruct Hunit as (_ & _ & Hnd & Hrecords). rewrite Forall_forall in Hrecords.
  pose proof (sorted_perm (items (df_ report))) as Hperm.
  destruct (fold_add_new_keys_spec (map snd (sorted (items (df_ report)))) [])
    as (_ & Hcols_nd & Hcols_in).
  exists (sorted (items (df_ report))).
  split; [reflexivity|]. split; [exact Hperm|].
  split; [now apply sorted_strict|]. split; [reflexivity|]. split; [reflexivity|].
  split.
  { unfold report_frame, DataFrame_of_records. simpl. rewrite !length_map.
    now apply Permutation_length. }
  split; [apply Hcols_nd; constructor|].
  split.
  { intros c. unfold report_frame, DataFrame_of_records. simpl. rewrite Hcols_in. split.
    - intros [[]|[r [Hr Hc]]]. apply in_map_iff in Hr as [[key record] [<- Hentry]].
      exists key, record. split; [|exact Hc]. exact (Permutation_in _ Hperm Hentry).
    - intros [key [record [Hentry Hc]]]. right. exists record. split; [|exact Hc].
      apply in_map_iff. exists (key, record). split; [reflexivity|].
      exact (Permutation_in _ (Permutation_sym Hperm) Hentry). }
  split.
  { intros key record rest Hrows. unfold report_frame, DataFrame_of_records. simpl.
    rewrite Hrows. simpl.
    assert (Hrec : NoDup (keys record)).
    { apply (Hrecords (key, record)). apply (Permutation_in _ Hperm).
      rewrite Hrows. now left. }
    rewrite (add_new_keys_first record Hrec).
    destruct (fold_add_new_keys_spec (map snd rest) (keys record)) as ([extra ->] & _).
    replace (List.length record) with (List.length (keys record) + 0)
      by (unfold keys; rewrite length_map; lia).
    rewrite firstn_app_2. simpl. apply app_nil_r. }
  split.
  { intros i key record Hi.
    assert (Hrec : NoDup (keys record)).
    { apply (Hrecords (key, record)). apply (Permutation_in _ Hperm).
      exact (nth_error_In _ _ Hi). }
    exists (map (cell record) (columns (report_frame report))). split.
    { unfold report_frame at 1, DataFrame_of_records. simpl.
      rewrite map_map.
      exact (map_nth_error
               (fun x => map (cell (snd x))
                             (fold_left add_new_keys
                                        (map snd (sorted (items (df_ report)))) []))
               i _ Hi). }
    split; [apply length_map|].
    intros j c Hj. rewrite (map_nth_error (cell record) j _ Hj). split.
    - intros v Hv. now rewrite (cell_present record c v Hrec Hv).
    - intros Hc. now rewrite (cell_absent record c Hc). }
  split.
  - intros report' Hp. unfold report_frame.
    rewrite (sorted_order_independent (items (df_ report)) (items (df_ report')));
      [reflexivity|exact Hnd|now symmetry].
  - intros env folder_path avg_index std_index done done' row H.
    apply save_report_ok in H as (Hsum & _ & ->). split; [|exact Hsum].
    apply in_or_app. right. unfold report_events. cbv zeta. right. now left.
Qed.

Lemma report_frame_sorted_by_partition_key_witness :
  keys (df_ (nth 0 (reports_ two_then_ten) (ReportUnit_init "" ""))) = ["2"; "10"]
  /\ exists rows,
      StronglySorted key_lt rows
      /\ report_frame (nth 0 (reports_ two_then_ten) (ReportUnit_init "" ""))
         = DataFrame_of_records (map snd rows)
      /\ map fst rows = ["10"; "2"]
      /\ exists cells,
          nth_error (data (report_frame (nth 0 (reports_ two_then_ten)
                                             (ReportUnit_init "" "")))) 0
          = Some cells
          /\ nth_error cells 0 = Some (VNum 0.9).
Proof.
  split; [reflexivity|].
  destruct (report_frame_sorted_by_partition_key
              [AddRecord (PInt 2) [] (Estimator 2) iris_cfg1
                         (timed_metrics 0.8 0.7) train_only;
               AddRecord (PInt 10) [] (Estimator 10) iris_cfg1
                         (timed_metrics 0.9 0.75) train_and_test]
              (nth 0 (reports_ two_then_ten) (ReportUnit_init "" ""))
              (or_introl eq_refl))
    as (rows & Hrows & _ & Hsorted & Hframe & _ & _ & _ & _ & _ & Hcells & _).
  exists rows. split; [exact Hsorted|]. split; [exact Hframe|].
  split; [rewrite Hrows; reflexivity|].
  destruct (Hcells 0 "10"
              [("acc_train", VNum 0.9); ("acc_test", VNum 0.75);
               ("cv_time_train", VNum 1); ("cv_time_test", VNum 1);
               ("time_train", VNum 2); ("time_test", VNum 2)]
              ltac:(rewrite Hrows; reflexivity))
    as (cells & Hrow & _ & Hvalues).
  exists cells. split; [exact Hrow|].
  exact (proj1 (Hvalues 0 "acc_train" eq_refl) (VNum 0.9) (or_introl eq_refl)).
Defined.

(** ** Further properties of [saveResults] *)

Lemma bind_raise {S A B} (m : M S A) (k : A -> M S B) s s1 e :
  m s = (s1, Raise e) -> bind m k s = (s1, Raise e).
Proof. unfold bind. now intros ->. Qed.


(** A store without units cannot be saved: the run creates its folder and
    then raises [ValueError], since there is nothing to concatenate into
    the summary tables. *)
Theorem saveResults_empty_store env self runs_folder metrics_names done :
  (forall d ev, io_error env d ev = None) ->
  reports_ self = [] ->
  saveResults env self runs_folder metrics_names done
  = (done
     ++ (if path_exists env done (runs_folder_of env runs_folder) then []
         else [Makedirs (runs_folder_of env runs_folder)])
     ++ [Makedirs (folder_path_of env runs_folder)],
     Raise (ValueError "No objects to concatenate")).
Proof.
  intros quiet Hnil. unfold saveResults. fold (runs_folder_of env runs_folder).
  fold (folder_path_of env runs_folder).
  unfold get at 1. unfold bind at 1.
  assert (H1 : (if negb (path_exists env done (runs_folder_of env runs_folder))
                then perform env (Makedirs (runs_folder_of env runs_folder))
                else ret tt) done
               = (done ++ (if path_exists env done (runs_folder_of env runs_folder)
                           then [] else [Makedirs (runs_folder_of env runs_folder)]),
                  Ok tt)).
  { destruct (path_exists env done (runs_folder_of env runs_folder)); simpl.
    - unfold ret. now rewrite app_nil_r.
    - now apply perform_completes. }
  rewrite (bind_step _ _ _ _ _ H1).
  rewrite (bind_step _ _ _ _ _ (makedirs_completes env quiet _ _)).
  rewrite Hnil. simpl for_collect. unfold ret at 1. unfold bind at 1.
  unfold lift, bind. simpl. now rewrite <- app_assoc.
Qed.

Lemma saveResults_empty_store_witness :
  saveResults quiet_env Results_init "/data/runs/" ["acc"] []
  = ([Makedirs "/data/runs/exp-18-06-01-12-00-00/"],
     Raise (ValueError "No objects to concatenate")).
Proof.
  exact (saveResults_empty_store quiet_env Results_init "/data/runs/" ["acc"] []
           (fun _ _ => eq_refl) eq_refl).
Defined.

(** When the folder of the run cannot be created, [saveResults]
    raises [OSError] with its own message; by then it has written
    nothing, except that it has created the folder of all runs if that
    folder did not exist.  When the folder of all runs does not exist and
    cannot be created, the exception of [os.makedirs] escapes as it is
    and nothing is written. *)
Theorem saveResults_run_folder_refused env self runs_folder metrics_names done :
  (forall msg,
      (path_exists env done (runs_folder_of env runs_folder) = false ->
       io_error env done (Makedirs (runs_folder_of env runs_folder)) = None) ->
      io_error env
        (done ++ (if path_exists env done (runs_folder_of env runs_folder) then []
                  else [Makedirs (runs_folder_of env runs_folder)]))
        (Makedirs (folder_path_of env runs_folder)) = Some (OSError msg) ->
      saveResults env self runs_folder metrics_names done
      = (done ++ (if path_exists env done (runs_folder_of env runs_folder) then []
                  else [Makedirs (runs_folder_of env runs_folder)]),
         Raise (OSError ("Could not create folder " ++ folder_path_of env runs_folder
                         ++ " to store results. It already exists")%string)))
  /\ (forall e,
        path_exists env done (runs_folder_of env runs_folder) = false ->
        io_error env done (Makedirs (runs_folder_of env runs_folder)) = Some e ->
        saveResults env self runs_folder metrics_names done = (done, Raise e)).
Proof.
  split.
  - intros msg Hruns Hio. unfold saveResults. fold (runs_folder_of env runs_folder).
    fold (folder_path_of env runs_folder).
    unfold get at 1. unfold bind at 1.
    destruct (path_exists env done (runs_folder_of env runs_folder)) eqn:Hexists;
      simpl negb; cbv iota.
    + unfold ret at 1. unfold bind at 1. rewrite app_nil_r in *.
      apply bind_raise. unfold makedirs_or_raise, perform. now rewrite Hio.
    + assert (H1 : perform env (Makedirs (runs_folder_of env runs_folder)) done
                   = (done ++ [Makedirs (runs_folder_of env runs_folder)], Ok tt))
        by (unfold perform; now rewrite Hruns).
      rewrite (bind_step _ _ _ _ _ H1).
      apply bind_raise. unfold makedirs_or_raise, perform. now rewrite Hio.
  - intros e Hexists Hio. unfold saveResults. fold (runs_folder_of env runs_folder).
    unfold get at 1. unfold bind at 1. rewrite Hexists. simpl negb. cbv iota.
    apply bind_raise. unfold perform. now rewrite Hio.
Qed.

Lemma saveResults_run_folder_refused_witness :
  saveResults
    {| module_dir := "/opt/orca"; today := "18-06-01"; now := "12-00-00";
       path_exists := fun _ _ => false;
       io_error := fun done _ =>
         match done with [] => None | _ => Some (OSError "File exists") end |}
    two_then_ten "/data/runs/" ["acc"] []
  = ([Makedirs "/data/runs/"],
     Raise (OSError "Could not create folder /data/runs/exp-18-06-01-12-00-00/ to store results. It already exists")).
Proof.
  exact (proj1 (saveResults_run_folder_refused
           {| module_dir := "/opt/orca"; today := "18-06-01"; now := "12-00-00";
              path_exists := fun _ _ => false;
              io_error := fun done _ =>
                match done with [] => None | _ => Some (OSError "File exists") end |}
           two_then_ten "/data/runs/" ["acc"] []) "File exists"
           (fun _ => eq_refl) eq_refl).
Defined.

(** The three ways the predictions of a partition are refused:
    no train entry raises [KeyError] and writes nothing; train labels
    that are [None] raise [ValueError] once the train file has been
    opened, which leaves that file empty (and when the file cannot be
    opened, the error of the operating system escapes and nothing is
    written); a missing test entry (as opposed to [None]) raises
    [KeyError] once the train labels have been written. *)
Theorem save_predictions_refusals env predictions_folder name part
        (predictions : predictions_t) done :
  (contains predictions "train" = false ->
   save_predictions env predictions_folder name (part, predictions) done
   = (done, Raise (KeyError "train")))
  /\ (getitem predictions "train" = Ok None ->
      (io_error env done
         (Savetxt (predictions_folder ++ "train_" ++ name ++ "." ++ part)%string [])
       = None ->
       save_predictions env predictions_folder name (part, predictions) done
       = (done ++ [Savetxt (predictions_folder ++ "train_" ++ name ++ "." ++ part)%string
                           []],
          Raise (ValueError "Expected 1D or 2D array, got 0D array instead")))
      /\ (forall e,
            io_error env done
              (Savetxt (predictions_folder ++ "train_" ++ name ++ "." ++ part)%string [])
            = Some e ->
            save_predictions env predictions_folder name (part, predictions) done
            = (done, Raise e)))
  /\ (forall train,
        getitem predictions "train" = Ok (Some train) ->
        contains predictions "test" = false ->
        io_error env done
          (Savetxt (predictions_folder ++ "train_" ++ name ++ "." ++ part)%string train)
        = None ->
        save_predictions env predictions_folder name (part, predictions) done
        = (done ++ [Savetxt (predictions_folder ++ "train_" ++ name ++ "." ++ part)%string
                            train],
           Raise (KeyError "test"))).
Proof.
  repeat apply conj.
  - intros Htrain. unfold save_predictions, bind, lift.
    now rewrite (getitem_contains _ _ Htrain).
  - intros Htrain. split; [intros Hio|intros e Hio];
      unfold save_predictions, bind, lift; rewrite Htrain;
      cbv beta iota; unfold savetxt, bind, perform; now rewrite Hio.
  - intros train Htrain Htest Hio. unfold save_predictions, bind, lift. rewrite Htrain.
    cbv beta iota. unfold savetxt, perform. rewrite Hio.
    now rewrite (getitem_contains _ _ Htest).
Qed.

Lemma save_predictions_refusals_witness :
  save_predictions quiet_env "out/predictions/" "iris-cfg1"
                   ("0", [("train", None); ("test", Some [2; 1]%Z)]) []
  = ([Savetxt "out/predictions/train_iris-cfg1.0" []],
     Raise (ValueError "Expected 1D or 2D array, got 0D array instead"))
  /\ save_predictions quiet_env "out/predictions/" "iris-cfg1"
                      ("0", [("train", Some [1; 2]%Z)]) []
     = ([Savetxt "out/predictions/train_iris-cfg1.0" [1; 2]%Z], Raise (KeyError "test")).
Proof.
  split.
  - exact (proj1 (proj1 (proj2 (save_predictions_refusals quiet_env "out/predictions/"
                                  "iris-cfg1" "0"
                                  [("train", None); ("test", Some [2; 1]%Z)] []))
                        eq_refl) eq_refl).
  - exact (proj2 (proj2 (save_predictions_refusals quiet_env "out/predictions/" "iris-cfg1"
                           "0" [("train", Some [1; 2]%Z)] []))
                 [1; 2]%Z eq_refl eq_refl eq_refl).
Defined.

(** *** When a run succeeds, and where it stops *)

Lemma save_report_predictions_present env folder_path avg_index std_index report
      done done' row :
  save_report env folder_path avg_index std_index report done = (done', Ok row) ->
  forall entry, In entry (items (predictions_ report)) ->
    (exists train, getitem (snd entry) "train" = Ok (Some train))
    /\ (exists test, getitem (snd entry) "test" = Ok test).
Proof.
  unfold save_report. intros H entry Hentry.
  apply bind_ok in H as (d1 & [] & _ & H). apply bind_ok in H as (d2 & [] & _ & H).
  apply bind_ok in H as (d3 & summary & _ & H). apply bind_ok in H as (d4 & [] & _ & H).
  apply bind_ok in H as (d5 & [] & _ & H). apply bind_ok in H as (d6 & [] & _ & H).
  apply bind_ok in H as (d7 & [] & H7 & _).
  destruct (for_each_turns _ _ _ _ H7 entry Hentry) as (s1 & s2 & Hturn).
  apply save_predictions_ok in Hturn as (Htrain & Htest & _). now split.
Qed.

Lemma saveResults_turns env self runs_folder metrics_names done done' :
  saveResults env self runs_folder metrics_names done = (done', Ok tt) ->
  forall report, In report (reports_ self) ->
  exists d d' row,
    save_report env (folder_path_of env runs_folder) (avg_index_of metrics_names)
                (std_index_of metrics_names) report d = (d', Ok row).
Proof.
  unfold saveResults. fold (runs_folder_of env runs_folder).
  fold (avg_index_of metrics_names) (std_index_of metrics_names).
  fold (folder_path_of env runs_folder). intros H report Hreport.
  apply bind_ok in H as (d0 & seen & _ & H). apply bind_ok in H as (d1 & [] & _ & H).
  apply bind_ok in H as (d2 & [] & _ & H). apply bind_ok in H as (d3 & rows & H3 & _).
  exact (for_collect_turns _ _ _ _ _ H3 report Hreport).
Qed.

(** In an environment where no operation fails, [saveResults] runs to its
    end exactly when the store holds at least one unit, [createSummary]
    accepts the table of every unit, and every partition of every unit has
    train labels that are a sequence and a test entry. *)
Theorem saveResults_succeeds_iff env self runs_folder metrics_names done :
  (forall d ev, io_error env d ev = None) ->
  is_ok (snd (saveResults env self runs_folder metrics_names done)) = true
  <-> (reports_ self <> []
       /\ forall report, In report (reports_ self) ->
            is_ok (createSummary (report_frame report) (avg_index_of metrics_names)
                                 (std_index_of metrics_names)) = true
            /\ forall entry, In entry (items (predictions_ report)) ->
                 (exists train, getitem (snd entry) "train" = Ok (Some train))
                 /\ (exists test, getitem (snd entry) "test" = Ok test)).
Proof.
  intros quiet. split.
  - destruct (saveResults env self runs_folder metrics_names done) as [done' [[]|e]] eqn:E;
      [intros _|discriminate].
    split.
    + apply saveResults_ok in E as (rows & tr & ts & Hall & Htr & _).
      intros Hnil. rewrite Hnil in Hall. inversion Hall; subst. discriminate.
    + intros report Hreport.
      destruct (saveResults_turns _ _ _ _ _ _ E report Hreport) as (d & d' & row & Hturn).
      split.
      * apply save_report_ok in Hturn as (Hsum & _). now rewrite Hsum.
      * exact (save_report_predictions_present _ _ _ _ _ _ _ _ Hturn).
  - intros [Hne Hall].
    destruct (saveResults_completes env quiet self runs_folder metrics_names done Hne Hall)
      as (tr & ts & ->). reflexivity.
Qed.

Lemma saveResults_succeeds_iff_witness :
  reports_ two_then_ten <> []
  /\ forall report, In report (reports_ two_then_ten) ->
       is_ok (createSummary (report_frame report) (avg_index_of ["acc"])
                            (std_index_of ["acc"])) = true
       /\ forall entry, In entry (items (predictions_ report)) ->
            (exists train, getitem (snd entry) "train" = Ok (Some train))
            /\ (exists test, getitem (snd entry) "test" = Ok test).
Proof.
  exact (proj1 (saveResults_succeeds_iff quiet_env two_then_ten "runs" ["acc"] []
                  (fun _ _ => eq_refl)) eq_refl).
Defined.



(** *** The operations of a run, against the environment *)

Lemma permitted_app env evs1 : forall done evs2,
  permitted env done evs1 -> permitted env (done ++ evs1) evs2 ->
  permitted env done (evs1 ++ evs2).
Proof.
  induction evs1 as [|ev evs1 IH]; intros done evs2 H1 H2; simpl in *.
  - now rewrite app_nil_r in H2.
  - destruct H1 as [Hev H1]. split; [exact Hev|]. apply IH; [exact H1|].
    now rewrite <- app_assoc.
Qed.

Section Traced.

Variable env : environment.

Lemma traced_pure {A} (r : result A) : traced env (fun done => (done, r)).
Proof. intros done done' r' [= <- _]. exists []. now rewrite app_nil_r. Qed.

Lemma traced_get : traced env get.
Proof. intros done done' r [= <- _]. exists []. now rewrite app_nil_r. Qed.

Lemma traced_perform ev : traced env (perform env ev).
Proof.
  intros done done' r. unfold perform. destruct (io_error env done ev) eqn:E.
  - intros [= <- _]. exists []. now rewrite app_nil_r.
  - intros [= <- _]. exists [ev]. simpl. auto.
Qed.

Lemma traced_makedirs path : traced env (makedirs_or_raise env path).
Proof.
  intros done done' r. unfold makedirs_or_raise.
  destruct (perform env (Makedirs path) done) as [d [[]|e]] eqn:E.
  - intros [= <- _]. exact (traced_perform _ _ _ _ E).
  - intros H. assert (done' = d) by (destruct e; now injection H). subst.
    exact (traced_perform _ _ _ _ E).
Qed.

Lemma traced_bind {A B} (m : M (list event) A) (k : A -> M (list event) B) :
  traced env m -> (forall a, traced env (k a)) -> traced env (bind m k).
Proof.
  intros Hm Hk done done' r. unfold bind. destruct (m done) as [d1 [a|e]] eqn:E.
  - intros H. destruct (Hm _ _ _ E) as [evs1 [-> H1]].
    destruct (Hk a _ _ _ H) as [evs2 [-> H2]].
    exists (evs1 ++ evs2). split; [now rewrite app_assoc|now apply permitted_app].
  - intros [= <- _]. exact (Hm _ _ _ E).
Qed.

Lemma traced_for_each {A} (body : A -> M (list event) unit) xs :
  (forall x, traced env (body x)) -> traced env (for_each xs body).
Proof.
  intros Hbody. induction xs as [|x xs IH]; simpl.
  - apply traced_pure.
  - apply traced_bind; [apply Hbody|intros _; exact IH].
Qed.

Lemma traced_for_collect {A B} (body : A -> M (list event) B) xs :
  (forall x, traced env (body x)) -> traced env (for_collect xs body).
Proof.
  intros Hbody. induction xs as [|x xs IH]; simpl.
  - apply traced_pure.
  - apply traced_bind; [apply Hbody|intros y].
    apply traced_bind; [exact IH|intros ys; apply traced_pure].
Qed.

Lemma traced_savetxt path X : traced env (savetxt env path X).
Proof.
  destruct X; [apply traced_perform|].
  apply traced_bind; [apply traced_perform|intros _; apply traced_pure].
Qed.

Lemma traced_save_predictions predictions_folder name entry :
  traced env (save_predictions env predictions_folder name entry).
Proof.
  destruct entry as [part predictions]. unfold save_predictions.
  apply traced_bind; [apply traced_pure|intros train].
  apply traced_bind; [apply traced_savetxt|intros _].
  apply traced_bind; [apply traced_pure|intros [test|]].
  - apply traced_savetxt.
  - apply traced_pure.
Qed.

Lemma traced_save_report folder_path avg_index std_index report :
  traced env (save_report env folder_path avg_index std_index report).
Proof.
  unfold save_report.
  apply traced_bind; [apply traced_makedirs|intros _].
  apply traced_bind; [apply traced_perform|intros _].
  apply traced_bind; [apply traced_pure|intros summary].
  apply traced_bind; [apply traced_makedirs|intros _].
  apply traced_bind.
  { apply traced_for_each. intros [part model]. apply traced_perform. }
  intros _. apply traced_bind; [apply traced_makedirs|intros _].
  apply traced_bind.
  { apply traced_for_each. intros entry. apply traced_save_predictions. }
  intros _. apply traced_pure.
Qed.

(** Whatever its outcome, a run only adds to the output, and only
    operations the environment let through. *)
Lemma traced_saveResults self runs_folder metrics_names :
  traced env (saveResults env self runs_folder metrics_names).
Proof.
  unfold saveResults.
  apply traced_bind; [apply traced_get|intros done].
  apply traced_bind.
  { destruct (negb _); [apply traced_perform|apply traced_pure]. }
  intros _. apply traced_bind; [apply traced_makedirs|intros _].
  apply traced_bind.
  { apply traced_for_collect. intros report. apply traced_save_report. }
  intros rows. apply traced_bind; [apply traced_pure|intros train_summary].
  apply traced_bind; [apply traced_pure|intros test_summary].
  apply traced_bind; [apply traced_perform|intros _]. apply traced_perform.
Qed.

End Traced.

Lemma folders_created_app evs1 evs2 :
  folders_created (evs1 ++ evs2) = folders_created evs1 ++ folders_created evs2.
Proof. apply flat_map_app. Qed.

Lemma folders_created_flat_map {A} (g : A -> list event) (l : list A) :
  folders_created (flat_map g l) = flat_map (fun x => folders_created (g x)) l.
Proof.
  induction l as [|x l IH]; simpl; [reflexivity|].
  now rewrite folders_created_app, IH.
Qed.

Lemma folders_created_In path evs :
  In path (folders_created evs) <-> In (Makedirs path) evs.
Proof.
  unfold folders_created. rewrite in_flat_map. split.
  - intros [ev [Hev Hin]]. destruct ev; simpl in Hin; try tauto.
    destruct Hin as [->|[]]. exact Hev.
  - intros H. exists (Makedirs path). split; [exact H|now left].
Qed.

(** No folder is created twice where the file system refuses it. *)
Lemma permitted_folders_distinct env evs :
  refuses_existing_folders env ->
  forall done,
    permitted env done evs ->
    NoDup (folders_created evs)
    /\ forall path, In path (folders_created evs) -> ~ In (Makedirs path) done.
Proof.
  intros Henv. induction evs as [|ev evs IH]; intros done Hp; simpl.
  - split; [constructor|tauto].
  - destruct Hp as [Hev Hp]. destruct (IH _ Hp) as [Hnd Hnew].
    destruct ev as [path| | | |]; simpl; try (split; [exact Hnd|]);
      try (intros q Hq Hin; apply (Hnew q Hq); apply in_or_app; now left).
    split.
    + constructor; [|exact Hnd]. intros Hin. apply (Hnew path Hin).
      apply in_or_app. right. now left.
    + intros q [<-|Hq] Hin.
      * exact (Henv done path Hin Hev).
      * apply (Hnew q Hq). apply in_or_app. now left.
Qed.

Lemma NoDup_app_apart {A} (l1 l2 : list A) :
  NoDup (l1 ++ l2) -> forall a, In a l1 -> ~ In a l2.
Proof.
  induction l1 as [|x l1 IH]; simpl; intros Hnd a Ha Hin; [destruct Ha|].
  inversion Hnd as [|? ? Hx Hrest]; subst. destruct Ha as [->|Ha].
  - apply Hx. apply in_or_app. now right.
  - exact (IH Hrest a Ha Hin).
Qed.

Lemma NoDup_flat_map_member {A B} (f : A -> B) (g : A -> list B) (l : list A) :
  (forall x, In (f x) (g x)) -> NoDup (flat_map g l) -> NoDup (map f l).
Proof.
  intros Hf. induction l as [|x l IH]; simpl; intros Hnd; [constructor|].
  constructor.
  - intros Hin. apply in_map_iff in Hin as [y [Heq Hy]].
    apply (NoDup_app_apart _ _ Hnd (f x) (Hf x)).
    apply in_flat_map. exists y. split; [exact Hy|]. rewrite <- Heq. apply Hf.
  - apply IH. now apply NoDup_app_remove_l in Hnd.
Qed.

Lemma careful_env_refuses : refuses_existing_folders careful_env.
Proof.
  intros done path Hin. simpl.
  assert (H : existsb (String.eqb path) (folders_created done) = true).
  { apply existsb_eqb_In. now apply folders_created_In. }
  rewrite H. discriminate.
Qed.

(** On a file system that refuses to create an existing folder, a run
    of [saveResults] that does not raise has saved units whose names
    joined by a hyphen are pairwise different: two units that share that
    name, such as [("a-b", "c")] and [("a", "b-c")], cannot both be
    saved. *)
Theorem saveResults_folder_names_distinct env self runs_folder metrics_names done done' :
  refuses_existing_folders env ->
  saveResults env self runs_folder metrics_names done = (done', Ok tt) ->
  NoDup (map unit_name (reports_ self)).
Proof.
  intros Henv H.
  destruct (traced_saveResults env self runs_folder metrics_names _ _ _ H)
    as [evs [Hevs Hperm]].
  apply saveResults_ok in H as (rows & tr & ts & _ & _ & _ & Hout).
  rewrite Hevs in Hout. apply app_inv_head in Hout. subst evs.
  destruct (permitted_folders_distinct env _ Henv done Hperm) as [Hnd _].
  unfold saved_events in Hnd. cbv zeta in Hnd.
  rewrite !folders_created_app in Hnd.
  apply NoDup_app_remove_l, NoDup_app_remove_l, NoDup_app_remove_r in Hnd.
  rewrite folders_created_flat_map in Hnd.
  apply (NoDup_map_inv (fun n => (folder_path_of env runs_folder ++ n ++ "/")%string)).
  rewrite map_map.
  apply (NoDup_flat_map_member
           (fun r => (folder_path_of env runs_folder ++ unit_name r ++ "/")%string)
           (fun r => folders_created (report_events (folder_path_of env runs_folder) r)));
    [|exact Hnd].
  intros r. unfold report_events. cbv zeta. simpl. now left.
Qed.

Lemma saveResults_folder_names_distinct_witness :
  NoDup (map unit_name (reports_ (run_calls wine_then_iris Results_init))).
Proof.
  exact (saveResults_folder_names_distinct careful_env
           (run_calls wine_then_iris Results_init) "/data/runs/" ["acc"] []
           (fst (saveResults careful_env (run_calls wine_then_iris Results_init)
                             "/data/runs/" ["acc"] []))
           careful_env_refuses eq_refl).
Defined.

(** ** Further properties of [createSummary] *)

Lemma rmap_length {A B} (f : A -> result B) xs : forall ys,
  rmap f xs = Ok ys -> List.length ys = List.length xs.
Proof.
  induction xs as [|x xs IH]; simpl; intros ys; [now intros [= <-]|].
  destruct (f x) as [y|e]; simpl; [|discriminate].
  destruct (rmap f xs) as [ys'|e]; simpl; [|discriminate].
  intros [= <-]. simpl. f_equal. now apply IH.
Qed.

Lemma reduce_columns_length f df s :
  reduce_columns f df = Ok s -> List.length s = List.length (columns df).
Proof.
  unfold reduce_columns. intros H. apply rmap_length in H. now rewrite length_seq in H.
Qed.

Lemma set_index_inv (s s' : Series) labels :
  set_index s labels = Ok s' ->
  List.length labels = List.length s /\ s' = combine labels (map snd s).
Proof.
  unfold set_index. destruct (Nat.eqb_spec (List.length labels) (List.length s));
    [|discriminate]. intros [= <-]. now split.
Qed.

Lemma slice_indices_length start stop step len :
  List.length (slice_indices start stop step len)
  = (slice_bound stop len - slice_bound start len + (step - 1)) / step.
Proof. unfold slice_indices. now rewrite length_map, length_seq. Qed.

(** With at least four columns but fewer than [2M + 4], the train slice
    selects fewer than [M] columns. *)
Lemma train_slice_short C M :
  4 <= C -> C < 2 * M + 4 ->
  List.length (slice_indices (Z.of_nat C - Z.of_nat M * 2 - 4) (Z.of_nat C - 4) 2 C) < M.
Proof.
  intros H4 Hshort. rewrite slice_indices_length. unfold slice_bound.
  destruct (Z.ltb_spec (Z.of_nat C - Z.of_nat M * 2 - 4) 0); [|lia].
  destruct (Z.ltb_spec (Z.of_nat C - 4) 0); [lia|].
  apply Nat.Div0.div_lt_upper_bound. lia.
Qed.

(** A table with at least four columns but fewer than [2M + 4] is never
    summarised: whatever its cells, [createSummary] raises. *)
Theorem createSummary_rejects_short_tables df avg_index std_index :
  4 <= List.length (columns df) ->
  List.length (columns df) < 2 * List.length avg_index + 4 ->
  is_ok (createSummary df avg_index std_index) = false.
Proof.
  intros H4 Hshort. unfold createSummary. cbv zeta.
  unfold DataFrame_mean, DataFrame_std.
  destruct (reduce_columns mean_of _) as [train_avg|e] eqn:Eta; [|reflexivity].
  apply reduce_columns_length in Eta. simpl columns in Eta. rewrite length_map in Eta.
  pose proof (train_slice_short _ _ H4 Hshort) as Hlen.
  cbn [rbind].
  destruct (reduce_columns std_of _) as [train_std|e]; [|reflexivity]. cbn [rbind].
  destruct (reduce_columns mean_of _) as [test_avg|e]; [|reflexivity]. cbn [rbind].
  destruct (reduce_columns std_of _) as [test_std|e]; [|reflexivity]. cbn [rbind].
  unfold set_index at 1.
  destruct (Nat.eqb_spec (List.length avg_index) (List.length train_avg)); [lia|].
  reflexivity.
Qed.

Lemma createSummary_rejects_short_tables_witness :
  is_ok (createSummary narrow_table (avg_index_of ["acc"]) (std_index_of ["acc"])) = false.
Proof.
  exact (createSummary_rejects_short_tables narrow_table (avg_index_of ["acc"])
           (std_index_of ["acc"]) ltac:(simpl; lia) ltac:(simpl; lia)).
Defined.

Lemma createSummary_returns_labels df names train test :
  NoDup names ->
  createSummary df (avg_index_of names) (std_index_of names) = Ok (train, test) ->
  keys train = sum_tuples (zip (avg_index_of names) (std_index_of names))
  /\ keys test = sum_tuples (zip (avg_index_of names) (std_index_of names))
  /\ List.length train = 2 * List.length names
  /\ List.length test = 2 * List.length names.
Proof.
  intros Hnd. unfold createSummary. cbv zeta.
  assert (Havg : List.length (avg_index_of names) = List.length names)
    by apply length_map.
  assert (Hstd : List.length (std_index_of names) = List.length names)
    by apply length_map.
  rewrite Havg, Hstd.
  destruct (DataFrame_mean _) as [ta|e]; [|discriminate]. cbn [rbind].
  destruct (DataFrame_std _) as [tsd|e]; [|discriminate]. cbn [rbind].
  destruct (DataFrame_mean _) as [sa|e]; [|discriminate]. cbn [rbind].
  destruct (DataFrame_std _) as [ssd|e]; [|discriminate]. cbn [rbind].
  destruct (set_index ta _) as [ta'|e] eqn:E1; [|discriminate]. cbn [rbind].
  destruct (set_index tsd _) as [tsd'|e] eqn:E2; [|discriminate]. cbn [rbind].
  destruct (set_index sa _) as [sa'|e] eqn:E3; [|discriminate]. cbn [rbind].
  destruct (set_index ssd _) as [ssd'|e] eqn:E4; [|discriminate]. cbn [rbind].
  apply set_index_inv in E1 as [L1 ->]. apply set_index_inv in E2 as [L2 ->].
  apply set_index_inv in E3 as [L3 ->]. apply set_index_inv in E4 as [L4 ->].
  rewrite !(interleave_summary (List.length names));
    try (rewrite ?length_map; lia); try (now apply summary_labels_NoDup).
  cbn [rbind]. intros [= <- <-].
  rewrite !length_sum_tuples. unfold zip, keys.
  rewrite !keys_sum_tuples, !length_combine, !length_map.
  fold (keys (combine (avg_index_of names) (map snd ta))).
  fold (keys (combine (std_index_of names) (map snd tsd))).
  fold (keys (combine (avg_index_of names) (map snd sa))).
  fold (keys (combine (std_index_of names) (map snd ssd))).
  rewrite !keys_combine by (rewrite length_map; lia).
  repeat split; try reflexivity; lia.
Qed.

(** Whenever [createSummary] returns for pairwise distinct metric names,
    on any table, both rows carry exactly the labels [m_mean], [m_std] of
    each metric in turn: all the rows of a run have the same labels. *)
Theorem createSummary_labels df names train test :
  NoDup names ->
  createSummary df (avg_index_of names) (std_index_of names) = Ok (train, test) ->
  keys train = sum_tuples (zip (avg_index_of names) (std_index_of names))
  /\ keys test = sum_tuples (zip (avg_index_of names) (std_index_of names))
  /\ List.length train = 2 * List.length names
  /\ List.length test = 2 * List.length names.
Proof. apply createSummary_returns_labels. Qed.

Lemma createSummary_labels_witness :
  exists train test,
    createSummary tiny_table (avg_index_of ["acc"]) (std_index_of ["acc"])
    = Ok (train, test)
    /\ keys train = ["acc_mean"; "acc_std"] /\ keys test = ["acc_mean"; "acc_std"].
Proof.
  eexists. eexists. split; [reflexivity|].
  destruct (createSummary_labels tiny_table ["acc"] _ _ ltac:(distinct_keys) eq_refl)
    as (Htrain & Htest & _).
  split; [exact Htrain|exact Htest].
Defined.

(** In a run of [saveResults] that does not raise, for pairwise distinct
    metric names, the two summary tables written last have the columns
    [m_mean], [m_std] of each metric in turn, and their rows are, unit by
    unit in the order of the store, the values [createSummary] returns for
    the table of the unit: the train row in the train summary, the test
    row in the test summary. *)
Theorem saveResults_summary_tables env self runs_folder metrics_names done done' :
  NoDup metrics_names ->
  saveResults env self runs_folder metrics_names done = (done', Ok tt) ->
  exists earlier train_summary test_summary,
    done' = done ++ earlier
            ++ [SummaryToCsv (folder_path_of env runs_folder ++ "/"
                              ++ "train_summary.csv")%string
                             (map summary_label (reports_ self)) train_summary;
                SummaryToCsv (folder_path_of env runs_folder ++ "/"
                              ++ "test_summary.csv")%string
                             (map summary_label (reports_ self)) test_summary]
    /\ columns train_summary
       = sum_tuples (zip (avg_index_of metrics_names) (std_index_of metrics_names))
    /\ columns test_summary
       = sum_tuples (zip (avg_index_of metrics_names) (std_index_of metrics_names))
    /\ Forall2 (fun report values =>
                  exists train test,
                    createSummary (report_frame report) (avg_index_of metrics_names)
                                  (std_index_of metrics_names) = Ok (train, test)
                    /\ values = map snd train)
               (reports_ self) (data train_summary)
    /\ Forall2 (fun report values =>
                  exists train test,
                    createSummary (report_frame report) (avg_index_of metrics_names)
                                  (std_index_of metrics_names) = Ok (train, test)
                    /\ values = map snd test)
               (reports_ self) (data test_summary).
Proof.
  intros Hnd H.
  apply saveResults_ok in H as (rows & train_summary & test_summary & Hall & Htr & Hts & ->).
  exists ((if path_exists env done (runs_folder_of env runs_folder) then []
           else [Makedirs (runs_folder_of env runs_folder)])
          ++ [Makedirs (folder_path_of env runs_folder)]
          ++ flat_map (report_events (folder_path_of env runs_folder)) (reports_ self)).
  exists train_summary, test_summary.
  split; [unfold saved_events; cbv zeta; now repeat rewrite <- app_assoc|].
  destruct Hall as [|report row reports rows Hrow Hall]; [discriminate|].
  simpl in Htr, Hts. injection Htr as <-. injection Hts as <-. simpl columns. simpl data.
  destruct row as [[train0 test0] label0]. simpl in Hrow |- *.
  destruct (createSummary_returns_labels _ _ _ _ Hnd Hrow) as (Hk1 & Hk2 & _).
  split; [exact Hk1|]. split; [exact Hk2|].
  split.
  - constructor; [now exists train0, test0|].
    clear - Hall. induction Hall as [|r [[tr ts] lb] rs rws Hr _ IH]; simpl; constructor;
      [now exists tr, ts|exact IH].
  - constructor; [now exists train0, test0|].
    clear - Hall. induction Hall as [|r [[tr ts] lb] rs rws Hr _ IH]; simpl; constructor;
      [now exists tr, ts|exact IH].
Qed.

Lemma saveResults_summary_tables_witness :
  exists earlier train_summary test_summary,
    fst (saveResults quiet_env two_then_ten "/data/runs/" ["acc"] [])
    = [] ++ earlier
      ++ [SummaryToCsv "/data/runs/exp-18-06-01-12-00-00//train_summary.csv"
                       ["iris-cfg1"] train_summary;
          SummaryToCsv "/data/runs/exp-18-06-01-12-00-00//test_summary.csv"
                       ["iris-cfg1"] test_summary]
    /\ columns train_summary = ["acc_mean"; "acc_std"]
    /\ columns test_summary = ["acc_mean"; "acc_std"].
Proof.
  destruct (saveResults_summary_tables quiet_env two_then_ten "/data/runs/" ["acc"] []
              (fst (saveResults quiet_env two_then_ten "/data/runs/" ["acc"] []))
              ltac:(distinct_keys) eq_refl)
    as (earlier & tr & ts & Hout & Hc1 & Hc2 & _).
  exists earlier, tr, ts. split; [exact Hout|]. split; [exact Hc1|exact Hc2].
Defined.

(** ** Reading back what was recorded *)

(** What a call of [addRecord] with a complete configuration and both
    metric mappings records can be read back from the store, whether the
    pair of names and the partition were known before or not. *)
Theorem addRecord_then_lookup p bp bm cfg ms ps self d c tr ts :
  getitem cfg "dataset" = Ok d -> getitem cfg "config" = Ok c ->
  getitem ms "train" = Ok tr -> getitem ms "test" = Ok ts ->
  recorded (fst (addRecord p bp bm cfg ms ps self)) d c (str p)
           (dataframe_row bp tr ts) bm ps.
Proof.
  intros Hd Hc Htr Hts.
  destruct (addRecord_stores p bp bm cfg ms ps self d c tr ts Hd Hc Htr Hts)
    as [ru [_ [_ [_ Hlook]]]].
  eexists. split; [exact Hlook|]. simpl. now rewrite !getitem_setitem.
Qed.

Lemma addRecord_then_lookup_witness :
  recorded (fst (addRecord (PInt 7) nested_params (Estimator 7) wine_cfg1
                           suffixed_metrics train_and_test two_then_ten))
           "wine" "cfg1" "7"
           (dataframe_row nested_params
              [("acc_train", VNum 0.9); ("f1_train", VNum 0.8)]
              [("acc_test", VNum 0.85); ("f1_test", VNum 0.75)])
           (Estimator 7) train_and_test.
Proof.
  exact (addRecord_then_lookup (PInt 7) nested_params (Estimator 7) wine_cfg1
           suffixed_metrics train_and_test two_then_ten "wine" "cfg1" _ _
           eq_refl eq_refl eq_refl eq_refl).
Defined.

Lemma lookup_getReportUnit_same self d c ru :
  lookup_unit self d c = Some ru -> fst (getReportUnit d c self) = self.
Proof.
  unfold lookup_unit. destruct (find_report (reports_ self) d c 0) as [i|] eqn:E;
    [|discriminate]. intros _. now rewrite (getReportUnit_hit _ _ _ _ E).
Qed.

Lemma run_call_keeps_record cl self d c key row bm ps :
  recorded self d c key row bm ps -> ~ records_again d c key cl ->
  recorded (run_call cl self) d c key row bm ps.
Proof.
  intros (ru & Hlook & Hrow & Hmodel & Hpred) Hnot.
  destruct cl as [d' c'|p bp bm' cfg ms ps']; simpl.
  - exists ru. split; [|auto].
    destruct (string_dec d' d) as [->|Hd].
    + destruct (string_dec c' c) as [->|Hc].
      * now rewrite (lookup_getReportUnit_same _ _ _ _ Hlook).
      * rewrite lookup_getReportUnit_other; [exact Hlook|congruence].
    + rewrite lookup_getReportUnit_other; [exact Hlook|congruence].
  - simpl in Hnot.
    destruct (getitem cfg "dataset") as [d'|e] eqn:Ed.
    2:{ rewrite addRecord_eq, Ed. now exists ru. }
    destruct (getitem cfg "config") as [c'|e] eqn:Ec.
    2:{ rewrite addRecord_eq, Ed, Ec. now exists ru. }
    assert (Hcases : (d, c) <> (d', c') \/ ((d', c') = (d, c) /\ str p <> key)).
    { destruct (string_dec d' d) as [->|Hd]; [|left; congruence].
      destruct (string_dec c' c) as [->|Hc]; [|left; congruence].
      right. split; [reflexivity|]. intros Hkey. apply Hnot. now split. }
    destruct Hcases as [Hne|[[= -> ->] Hkey]].
    + exists ru. split; [|auto].
      now rewrite (addRecord_frame p bp bm' cfg ms ps' self d' c' d c Ed Ec).
    + rewrite addRecord_eq, Ed, Ec. cbv zeta.
      pose proof (lookup_getReportUnit_same _ _ _ _ Hlook) as Hsame.
      destruct (getReportUnit_found self d c) as [i [Hi Hfind]]. rewrite Hi, Hsame in *.
      destruct (getitem ms "train") as [tr|e]; [|now exists ru].
      destruct (getitem ms "test") as [ts|e]; [|now exists ru].
      simpl fst. eexists. split.
      * unfold lookup_unit in *. simpl reports_.
        rewrite (find_report_ext _ (reports_ self) d c)
          by (apply map_update_nth; reflexivity).
        rewrite Hfind in *. rewrite nth_error_update_nth, Hlook. reflexivity.
      * simpl. rewrite !getitem_setitem_other by congruence. auto.
Qed.

(** A record stays in the store, unchanged, through any later calls that
    do not record the same partition of the same pair of names again:
    calls for other pairs, for other partitions, lookups, and calls that
    raise. *)
Theorem record_persists later : forall self d c key row bm ps,
  recorded self d c key row bm ps ->
  Forall (fun cl => ~ records_again d c key cl) later ->
  recorded (run_calls later self) d c key row bm ps.
Proof.
  induction later as [|cl later IH]; intros self d c key row bm ps Hrec Hall; simpl;
    [exact Hrec|].
  inversion Hall as [|? ? Hcl Hlater]; subst.
  apply IH; [|exact Hlater]. now apply run_call_keeps_record.
Qed.

Lemma record_persists_witness :
  recorded (run_calls [AddRecord (PInt 10) [] (Estimator 10) iris_cfg1
                                 (timed_metrics 0.9 0.75) train_and_test;
                       GetReportUnit "wine" "cfg1";
                       AddRecord (PInt 2) [] (Estimator 5) wine_cfg1
                                 (timed_metrics 1 1) train_only]
                      (fst (addRecord (PInt 2) [] (Estimator 2) iris_cfg1
                                      (timed_metrics 0.8 0.7) train_only Results_init)))
           "iris" "cfg1" "2"
           (dataframe_row []
              [("acc_train", VNum 0.8); ("cv_time_train", VNum 1); ("time_train", VNum 2)]
              [("acc_test", VNum 0.7); ("cv_time_test", VNum 1); ("time_test", VNum 2)])
           (Estimator 2) train_only.
Proof.
  apply record_persists.
  - eexists. repeat split.
  - apply Forall_cons; [simpl; intros [H1 H2]; discriminate|].
    apply Forall_cons; [simpl; tauto|].
    apply Forall_cons; [simpl; intros [H1 H2]; discriminate|]. constructor.
Defined.

(** ** The folder of a run *)

Lemma list_ascii_of_string_app s1 s2 :
  list_ascii_of_string (s1 ++ s2)%string
  = list_ascii_of_string s1 ++ list_ascii_of_string s2.
Proof. induction s1 as [|a s1 IH]; simpl; congruence. Qed.

Lemma endswith_append_slash s : endswith (s ++ "/")%string "/" = true.
Proof.
  unfold endswith. rewrite list_ascii_of_string_app, rev_app_distr. simpl.
  destruct (Ascii.ascii_dec "/" "/"); [|congruence].
  now destruct (string_of_list_ascii (rev (list_ascii_of_string s))).
Qed.

Lemma string_append_assoc (s1 s2 s3 : string) :
  ((s1 ++ s2) ++ s3)%string = (s1 ++ (s2 ++ s3))%string.
Proof. induction s1 as [|a s1 IH]; simpl; congruence. Qed.

Lemma startswith_append s t : startswith (s ++ t)%string s = true.
Proof.
  unfold startswith. induction s as [|a s IH]; simpl.
  - now destruct t.
  - destruct (Ascii.ascii_dec a a); [exact IH|congruence].
Qed.

Lemma startswith_refl s : startswith s s = true.
Proof.
  unfold startswith. induction s as [|a s IH]; simpl; [reflexivity|].
  destruct (Ascii.ascii_dec a a); [exact IH|congruence].
Qed.

(** The folder under which [saveResults] stores its runs always
    ends with a slash; an absolute path that already does is used as it
    is; a relative path is placed under the directory of the module.  It
    is the folder [saveResults] creates when it does not exist, and the
    folder of the run, [exp-] followed by the date and the time, is
    created inside it: these are the first operations of every run the
    environment lets get that far. *)
Theorem runs_folder_normalised env self runs_folder metrics_names done :
  endswith (runs_folder_of env runs_folder) "/" = true
  /\ (startswith runs_folder "/" = true -> endswith runs_folder "/" = true ->
      runs_folder_of env runs_folder = runs_folder)
  /\ (startswith runs_folder "/" = true ->
      startswith (runs_folder_of env runs_folder) runs_folder = true)
  /\ (startswith runs_folder "/" = false ->
      startswith (runs_folder_of env runs_folder)
                 ((module_dir env ++ "/") ++ runs_folder)%string = true)
  /\ (permitted env done
        ((if path_exists env done (runs_folder_of env runs_folder) then []
          else [Makedirs (runs_folder_of env runs_folder)])
         ++ [Makedirs (runs_folder_of env runs_folder
                       ++ "exp-" ++ today env ++ "-" ++ now env ++ "/")%string]) ->
      exists rest,
        fst (saveResults env self runs_folder metrics_names done)
        = done
          ++ (if path_exists env done (runs_folder_of env runs_folder) then []
              else [Makedirs (runs_folder_of env runs_folder)])
          ++ Makedirs (runs_folder_of env runs_folder
                       ++ "exp-" ++ today env ++ "-" ++ now env ++ "/")%string
             :: rest).
Proof.
  repeat apply conj.
  - unfold runs_folder_of.
    destruct (endswith (if negb (startswith runs_folder "/")
                        then ((module_dir env ++ "/") ++ runs_folder)%string
                        else runs_folder) "/") eqn:E; simpl.
    + exact E.
    + apply endswith_append_slash.
  - unfold runs_folder_of. intros Hs He. rewrite Hs. simpl. now rewrite He.
  - unfold runs_folder_of. intros Hs. rewrite Hs. simpl.
    destruct (endswith runs_folder "/"); simpl.
    + apply startswith_refl.
    + apply startswith_append.
  - unfold runs_folder_of. intros Hs. rewrite Hs. simpl.
    destruct (endswith ((module_dir env ++ "/") ++ runs_folder)%string "/"); simpl.
    + apply startswith_refl.
    + apply startswith_append.
  - intros Hperm. unfold saveResults. fold (runs_folder_of env runs_folder).
    unfold get at 1. unfold bind at 1.
    set (runs := runs_folder_of env runs_folder) in *.
    set (created := if path_exists env done runs then [] else [Makedirs runs]) in *.
    assert (H1 : (if negb (path_exists env done runs)
                  then perform env (Makedirs runs) else ret tt) done
                 = (done ++ created, Ok tt)
                 /\ io_error env (done ++ created)
                      (Makedirs (runs ++ "exp-" ++ today env ++ "-" ++ now env ++ "/")%string)
                    = None).
    { subst created. destruct (path_exists env done runs); simpl in *.
      - rewrite app_nil_r. split; [reflexivity|tauto].
      - destruct Hperm as [Hr [Hf _]]. split; [|exact Hf].
        unfold perform. now rewrite Hr. }
    destruct H1 as [H1 H2].
    rewrite (bind_step _ _ _ _ _ H1).
    assert (H3 : makedirs_or_raise env
                   (runs ++ "exp-" ++ today env ++ "-" ++ now env ++ "/")%string
                   (done ++ created)
                 = ((done ++ created)
                    ++ [Makedirs (runs ++ "exp-" ++ today env ++ "-" ++ now env ++ "/")%string],
                    Ok tt))
      by (unfold makedirs_or_raise, perform; now rewrite H2).
    rewrite (bind_step _ _ _ _ _ H3).
    match goal with
    | |- exists rest, fst (?m ?s) = _ =>
        assert (T : traced env m); [|destruct (m s) as [d r] eqn:E;
                                     destruct (T _ _ _ E) as [rest [-> _]]; exists rest]
    end.
    + apply traced_bind.
      { apply traced_for_collect. intros report. apply traced_save_report. }
      intros rows. apply traced_bind; [apply traced_pure|intros train_summary].
      apply traced_bind; [apply traced_pure|intros test_summary].
      apply traced_bind; [apply traced_perform|intros _]. apply traced_perform.
    + simpl fst. now rewrite <- !app_assoc.
Qed.

Lemma runs_folder_normalised_witness :
  exists rest,
    fst (saveResults
           {| module_dir := "/opt/orca"; today := "18-06-01"; now := "12-00-00";
              path_exists := fun _ _ => false; io_error := fun _ _ => None |}
           two_then_ten "runs" ["acc"] [])
    = Makedirs "/opt/orca/runs/" :: Makedirs "/opt/orca/runs/exp-18-06-01-12-00-00/" :: rest.
Proof.
  exact (proj2 (proj2 (proj2 (proj2
           (runs_folder_normalised
              {| module_dir := "/opt/orca"; today := "18-06-01"; now := "12-00-00";
                 path_exists := fun _ _ => false; io_error := fun _ _ => None |}
              two_then_ten "runs" ["acc"] []))))
           (conj eq_refl (conj eq_refl I))).
Defined.
